(** * Work-records system: authorization, edit window, rate resolution
      and snapshot accounting of the work-entry routes.

    A shallow embedding of
    - [src/middleware/permission.js]   (module [Permission]),
    - [src/routes/workEntryRoutes.js]  (module [WorkEntryRoutes]),
    - [src/routes/jobRoutes.js]        (module [JobRoutes]),
    - the permission checks of [app.js] (module [App]),
    over an explicit model of the SQLite store declared in
    [src/config/db.js].

    JavaScript numbers are IEEE-754 binary64 values, the kernel's primitive
    floats.  Every handler runs to completion against the store (the store
    serialises its statements), so a handler is a function from the store
    and the request to a response and the next store.  Failures of the
    database connection itself are outside the model. *)

From Stdlib Require Import ZArith List String Ascii Bool Lia Floats.
From Stdlib Require Import Permutation DecimalString.
Import ListNotations.

Local Open Scope string_scope.
Local Open Scope Z_scope.

(* ================================================================= *)
(** ** ECMAScript values *)

(** The primitive values a parsed request body, query string or session
    can hold. *)
Inductive jsval : Type :=
| JUndefined
| JNull
| JBool (b : bool)
| JNumber (x : float)
| JString (s : string).

(** Conversions that belong to the language run time and to SQLite rather
    than to this repository. *)
Class Platform : Type := {
  (** [Number(s)] on a string. *)
  StringToNumber : string -> float;
  (** [String(x)] on a number. *)
  NumberToString : float -> string;
  (** [parseInt(s, 10)] on a string. *)
  parseInt10 : string -> float;
  (** [s.trim()]. *)
  trim : string -> string;
  (** The text SQLite stores when a number is bound to a TEXT column. *)
  sqlite_text_of_number : float -> string;
  (** What SQLite's [date] answers for a day, counted from 1970-01-01,
      that lies outside the years 0000 to 9999, where its documentation
      leaves the result undefined: a text with a signed year, or NULL. *)
  sqlite_date_outside_calendar : Z -> option string
}.

Module JS.

Definition isFinite (x : float) : bool :=
  negb (PrimFloat.is_nan x || PrimFloat.is_infinity x).

(** [!!x] on a number. *)
Definition truthy_number (x : float) : bool :=
  negb (PrimFloat.is_nan x || PrimFloat.is_zero x).

(** [!!v]. *)
Definition truthy (v : jsval) : bool :=
  match v with
  | JUndefined | JNull => false
  | JBool b => b
  | JNumber x => truthy_number x
  | JString s => negb (String.eqb s "")
  end.

(** [v == null]. *)
Definition nullish (v : jsval) : bool :=
  match v with
  | JUndefined | JNull => true
  | _ => false
  end.

(** [v === ""]. *)
Definition is_empty_string (v : jsval) : bool :=
  match v with
  | JString s => String.eqb s ""
  | _ => false
  end.

(** [a || b]. *)
Definition or_else (a b : jsval) : jsval := if truthy a then a else b.

Section WithPlatform.
Context {P : Platform}.

(** [Number(v)]. *)
Definition ToNumber (v : jsval) : float :=
  match v with
  | JUndefined => PrimFloat.nan
  | JNull => 0%float
  | JBool b => if b then 1%float else 0%float
  | JNumber x => x
  | JString s => StringToNumber s
  end.

(** [String(v)]. *)
Definition ToString (v : jsval) : string :=
  match v with
  | JUndefined => "undefined"
  | JNull => "null"
  | JBool b => if b then "true" else "false"
  | JNumber x => NumberToString x
  | JString s => s
  end.

(** [parseInt(v, 10)]. *)
Definition parseInt (v : jsval) : float := parseInt10 (ToString v).

(** [(v || "").trim() || null]: [None] when the method call throws a
    TypeError (a truthy value that is not a string has no [trim]),
    otherwise the trimmed text, or null when nothing is left. *)
Definition trim_or_null (v : jsval) : option (option string) :=
  match or_else v (JString "") with
  | JString s =>
      let t := trim s in
      Some (if String.eqb t "" then None else Some t)
  | _ => None
  end.

(** The helper written twice in the work-entry routes ([n] in POST,
    [toNumOrNull] in PUT). *)
Definition toNumOrNull (v : jsval) : option float :=
  if is_empty_string v || nullish v then None
  else
    let x := ToNumber v in
    if isFinite x then Some x else None.

End WithPlatform.
End JS.

(* ================================================================= *)
(** ** SQLite values, parameters and dates *)

Module Sqlite.

(** The integer a number denotes, when it denotes one. *)
Definition Z_of_float (x : float) : option Z :=
  match Prim2SF x with
  | S754_zero _ => Some 0
  | S754_finite s m e =>
      let a :=
        if 0 <=? e then Some (Zpos m * 2 ^ e)
        else if (Zpos m) mod (2 ^ (- e)) =? 0 then Some (Zpos m / 2 ^ (- e))
        else None in
      option_map (fun z => if s then - z else z) a
  | _ => None
  end.

(** A value held by a column of INTEGER affinity, or a parameter bound
    against one. *)
Inductive sqlval : Type :=
| SqlNull
| SqlInt (z : Z)
| SqlReal (x : float).

(** A JavaScript number bound to a statement and converted by INTEGER
    affinity: NaN is stored as NULL, a number that denotes an integer as
    that integer, any other number stays a REAL. *)
Definition bind_number (x : float) : sqlval :=
  if PrimFloat.is_nan x then SqlNull
  else match Z_of_float x with
       | Some z => SqlInt z
       | None => SqlReal x
       end.

(** [col = ?] for an INTEGER column holding [z]. *)
Definition sql_eq_int (v : sqlval) (z : Z) : bool :=
  match v with
  | SqlInt y => y =? z
  | _ => false
  end.

(** [col = ?] with a JavaScript number as the parameter. *)
Definition num_eq_int (x : float) (z : Z) : bool := sql_eq_int (bind_number x) z.

(** A value bound to a TEXT column: booleans are bound as 0 and 1,
    [undefined] and [null] as NULL. *)
Definition bind_text {P : Platform} (v : jsval) : option string :=
  match v with
  | JUndefined | JNull => None
  | JBool b => Some (if b then "1" else "0")
  | JNumber x => if PrimFloat.is_nan x then None else Some (sqlite_text_of_number x)
  | JString s => Some s
  end.

(** *** Calendar dates

    Days are counted from 1970-01-01.  [civil_from_days] is the
    proleptic Gregorian calendar SQLite uses. *)

(** Year, month and day of day [doe] of a 400-year era; eras begin on
    the first of March, and the year counts from the era's first year. *)
Definition civil_of_doe (doe : Z) : Z * Z * Z :=
  let yoe := (doe - doe / 1460 + doe / 36524 - doe / 146096) / 365 in
  let doy := doe - (365 * yoe + yoe / 4 - yoe / 100) in
  let mp := (5 * doy + 2) / 153 in
  let day := doy - (153 * mp + 2) / 5 + 1 in
  let month := if mp <? 10 then mp + 3 else mp - 9 in
  let year := yoe + (if month <=? 2 then 1 else 0) in
  (year, month, day).

Definition civil_from_days (d : Z) : Z * Z * Z :=
  let z := d + 719468 in
  let '(y, m, day) := civil_of_doe (z mod 146097) in
  (y + 400 * (z / 146097), m, day).

(** Earlier in the calendar. *)
Definition civil_lt (a b : Z * Z * Z) : Prop :=
  let '(y1, m1, d1) := a in
  let '(y2, m2, d2) := b in
  y1 < y2 \/ (y1 = y2 /\ (m1 < m2 \/ (m1 = m2 /\ d1 < d2))).

(** A date SQLite prints as [YYYY-MM-DD]. *)
Definition civil_printable (a : Z * Z * Z) : Prop :=
  let '(y, m, d) := a in
  0 <= y <= 9999 /\ 1 <= m <= 12 /\ 1 <= d <= 31.

Definition digit (n : Z) : ascii := ascii_of_N (Z.to_N (48 + n mod 10)).

Definition pad2 (n : Z) : string :=
  String (digit (n / 10)) (String (digit n) EmptyString).

Definition pad4 (n : Z) : string := (pad2 (n / 100) ++ pad2 n)%string.

(** [YYYY-MM-DD]. *)
Definition iso_of_civil (c : Z * Z * Z) : string :=
  let '(y, m, d) := c in
  (pad4 y ++ "-" ++ pad2 m ++ "-" ++ pad2 d)%string.

Definition iso_date (d : Z) : string := iso_of_civil (civil_from_days d).

(** 0000-01-01 and 9999-12-31 as day numbers. *)
Definition first_day : Z := -719528.
Definition last_day : Z := 2932896.

Definition in_calendar (d : Z) : bool := (first_day <=? d) && (d <=? last_day).

(** [date('now', '-N days')] when today is day [today]: the date [n] days
    back, printed as [YYYY-MM-DD] for a result in the years 0000 to 9999,
    and whatever SQLite answers for a day outside them. *)
Definition date_now_minus_days {P : Platform} (today n : Z) : option string :=
  if in_calendar (today - n) then Some (iso_date (today - n))
  else sqlite_date_outside_calendar (today - n).

(** [work_date >= date('now', ?)], a comparison of TEXT values byte by
    byte; a comparison with NULL selects nothing. *)
Definition date_on_or_after (work_date : string) (cutoff : option string) : bool :=
  match cutoff with
  | Some c => String.leb c work_date
  | None => false
  end.

End Sqlite.

(* ================================================================= *)
(** ** The store ([src/config/db.js]) *)

Module Store.
Import Sqlite.

Inductive effect : Type := ALLOW | DENY.

Record user : Type := mkUser {
  user_id : Z;
  user_company_id : option Z;
  user_username : string;
  user_is_active : Z;
  user_is_admin : Z;
  user_role_id : option Z
}.

Record role : Type := mkRole {
  role_id : Z;
  role_company_id : option Z;
  role_code : string;
  role_work_entries_days_limit : option Z
}.

Record permission : Type := mkPermission {
  permission_id : Z;
  permission_code : string;
  permission_is_active : Z
}.

Record role_permission : Type := mkRolePermission {
  rp_role_id : Z;
  rp_permission_id : Z
}.

Record user_permission : Type := mkUserPermission {
  up_user_id : Z;
  up_permission_id : Z;
  up_effect : effect
}.

Record user_setting : Type := mkUserSetting {
  us_user_id : Z;
  us_work_entries_days_limit_override : option Z
}.

Record job : Type := mkJob {
  job_id : Z;
  job_company_id : Z;
  job_job_code : string;
  job_job_type : string;
  job_normal_price : float;
  job_is_active : sqlval
}.

Record wage_tier : Type := mkWageTier {
  wt_id : Z;
  wt_company_id : Z;
  wt_tier_code : string;
  wt_tier_name : string
}.

Record job_wage : Type := mkJobWage {
  jw_id : Z;
  jw_company_id : Z;
  jw_job_id : Z;
  jw_tier_id : Z;
  jw_wage_rate : float
}.

Record worker : Type := mkWorker {
  wk_id : Z;
  wk_company_id : Z;
  wk_worker_code : string;
  wk_worker_name : option string
}.

Record work_entry : Type := mkWorkEntry {
  we_id : Z;
  we_company_id : Z;
  we_worker_id : Z;
  we_job_id : Z;
  we_work_date : string;
  we_job_no1 : string;
  we_job_no2 : option string;
  we_amount : float;
  we_rate : float;
  we_pay : float;
  we_customer_rate : float;
  we_customer_total : float;
  we_fees_collected : option float;
  we_wage_tier_id : option Z;
  we_wage_rate : float;
  we_wage_total : float;
  we_is_bank : Z;
  we_note : option string;
  we_created_at : string
}.

(** The tables the routes below read or write.  [work_entries_seq] and
    [job_wages_seq] are the AUTOINCREMENT counters of [sqlite_sequence]. *)
Record database : Type := mkDatabase {
  companies : list Z;
  users : list user;
  user_settings : list user_setting;
  roles : list role;
  permissions : list permission;
  role_permissions : list role_permission;
  user_permissions : list user_permission;
  jobs : list job;
  wage_tiers : list wage_tier;
  job_wages : list job_wage;
  workers : list worker;
  work_entries : list work_entry;
  work_entries_seq : Z;
  job_wages_seq : Z
}.

Definition with_work_entries (d : database) (l : list work_entry) (seq : Z) : database :=
  mkDatabase (companies d) (users d) (user_settings d) (roles d) (permissions d)
    (role_permissions d) (user_permissions d) (jobs d) (wage_tiers d)
    (job_wages d) (workers d) l seq (job_wages_seq d).

Definition with_jobs (d : database) (l : list job) : database :=
  mkDatabase (companies d) (users d) (user_settings d) (roles d) (permissions d)
    (role_permissions d) (user_permissions d) l (wage_tiers d)
    (job_wages d) (workers d) (work_entries d) (work_entries_seq d) (job_wages_seq d).

Definition with_job_wages (d : database) (l : list job_wage) (seq : Z) : database :=
  mkDatabase (companies d) (users d) (user_settings d) (roles d) (permissions d)
    (role_permissions d) (user_permissions d) (jobs d) (wage_tiers d)
    l (workers d) (work_entries d) (work_entries_seq d) seq.

Definition with_user_permissions (d : database) (l : list user_permission) : database :=
  mkDatabase (companies d) (users d) (user_settings d) (roles d) (permissions d)
    (role_permissions d) l (jobs d) (wage_tiers d)
    (job_wages d) (workers d) (work_entries d) (work_entries_seq d) (job_wages_seq d).

(** The wall clock of the store: today's day number, for [date('now')],
    and the text of [CURRENT_TIMESTAMP]. *)
Record clock : Type := mkClock {
  today : Z;
  current_timestamp : string
}.

(** A constraint the store refuses a statement on. *)
Inductive constraint_error : Type :=
| NotNullFailed (column : string)
| UniqueFailed (columns : string)
| ForeignKeyFailed.

(** [err.message]: the name of the result code, which the driver puts
    first, and the message of SQLite. *)
Definition message (e : constraint_error) : string :=
  match e with
  | NotNullFailed c => ("SQLITE_CONSTRAINT: NOT NULL constraint failed: " ++ c)%string
  | UniqueFailed c => ("SQLITE_CONSTRAINT: UNIQUE constraint failed: " ++ c)%string
  | ForeignKeyFailed => "SQLITE_CONSTRAINT: FOREIGN KEY constraint failed"
  end.

(** [column = ?] for a nullable INTEGER column. *)
Definition opt_eq_int (o : option Z) (z : Z) : bool :=
  match o with
  | Some y => y =? z
  | None => false
  end.

Definition opt_eq_string (o : option string) (s : string) : bool :=
  match o with
  | Some t => String.eqb t s
  | None => false
  end.

(** The next rowid of an AUTOINCREMENT table. *)
Definition next_rowid (seq : Z) (ids : list Z) : Z :=
  fold_right Z.max seq ids + 1.

End Store.

(* ================================================================= *)
(** ** Requests and responses *)

Module Http.
Import Store.

(** [req.session.user], as the login route builds it; the development
    bypass of [requireAuth] leaves [is_admin] and [permissions]
    undefined. *)
Record session_user : Type := mkSessionUser {
  su_id : Z;
  su_company_id : jsval;
  su_is_admin : jsval;
  su_role_id : option Z;
  su_permissions : option (list string)
}.

Record session : Type := mkSession {
  activeCompanyId : jsval;
  session_user_of : option session_user
}.

(** [req.body] of the work-entry routes. *)
Record entry_body : Type := mkEntryBody {
  company_id : jsval;
  worker_id : jsval;
  job_code : jsval;
  amount : jsval;
  is_bank : jsval;
  customer_rate : jsval;
  customer_total : jsval;
  wage_tier_id : jsval;
  wage_rate : jsval;
  wage_total : jsval;
  rate : jsval;
  pay : jsval;
  job_no1 : jsval;
  job_no2 : jsval;
  work_date : jsval;
  fees_collected : jsval;
  note : jsval
}.

(** A request to a work-entry route.  [is_api] is [isApiRequest(req)]. *)
Record request : Type := mkRequest {
  query_companyId : jsval;
  params_id : string;
  body : entry_body;
  req_session : session;
  is_api : bool
}.

(** A row of [GET /api/work-entries]: the entry and the joined names. *)
Record listing_row : Type := mkListingRow {
  lr_entry : work_entry;
  lr_worker_code : option string;
  lr_worker_name : option string;
  lr_job_code : option string;
  lr_job_type : option string;
  lr_wage_tier_name : option string
}.

Inductive payload : Type :=
| Error (msg : string)
| ErrorMissingPermission (msg : string) (missingPermission : string)
| Message (msg : string)
| Updated (changes : Z) (canEditRates : bool) (fees : float)
| Created (id : Z) (fees : float)
| Deleted (changes : Z)
| Rows (rows : list listing_row).

Inductive response : Type :=
| Json (status : Z) (p : payload)
| Redirect (location : string)
| Render (status : Z) (view : string) (missingPermission : string)
| Uncaught (* a TypeError leaves the handler; nothing is sent *).

(** [Number(user.is_admin) === 1]. *)
Definition is_admin {P : Platform} (u : session_user) : bool :=
  PrimFloat.eqb (JS.ToNumber (su_is_admin u)) 1%float.

End Http.

(* ================================================================= *)
(** ** [src/middleware/permission.js] *)

Module Permission.
Import Store Http.

(** The query of [requirePermission] and of both [hasPermission]s:
<<
    SELECT 1 AS ok
      FROM users u
      JOIN roles r ON r.id = u.role_id
      JOIN role_permissions rp ON rp.role_id = r.id
      JOIN permissions p ON p.id = rp.permission_id
     WHERE u.id = ? AND p.code = ? AND p.is_active = 1
     LIMIT 1
>>
    answers a row or none. *)
Definition select_ok (d : database) (userId : Z) (code : string) : bool :=
  existsb (fun u =>
    (user_id u =? userId) &&
    existsb (fun r =>
      opt_eq_int (user_role_id u) (role_id r) &&
      existsb (fun rp =>
        (rp_role_id rp =? role_id r) &&
        existsb (fun p =>
          (permission_id p =? rp_permission_id rp) &&
          String.eqb (permission_code p) code &&
          (permission_is_active p =? 1))
        (permissions d))
      (role_permissions d))
    (roles d))
  (users d).

Definition unauthorized (req : request) : response :=
  if is_api req then Json 401 (Error "Unauthorized") else Redirect "/login".

Definition forbidden (req : request) (code : string) : response :=
  if is_api req then Json 403 (ErrorMissingPermission "Forbidden" code)
  else Render 403 "403" code.

(** [requirePermission(code)]: [None] is [next()], otherwise the response
    the middleware ends the request with. *)
Definition requirePermission {P : Platform} (code : string)
    (d : database) (req : request) : option response :=
  match session_user_of (req_session req) with
  | None => Some (unauthorized req)
  | Some user =>
      if su_id user =? 0 then Some (unauthorized req)
      else if is_admin user then None
      else if select_ok d (su_id user) code then None
      else Some (forbidden req code)
  end.

(** [hasPermission(userId, code)], the exported promise. *)
Definition hasPermission (d : database) (userId : Z) (code : string) : bool :=
  select_ok d userId code.

End Permission.

(* ================================================================= *)
(** ** [src/routes/workEntryRoutes.js] *)

Module WorkEntryRoutes.
Import Sqlite Store Http JS.

(** The bound values of the INSERT and of the UPDATE, in the order of
    the column list. *)
Record entry_values : Type := mkEntryValues {
  v_job_id : Z;
  v_amount : float;
  v_is_bank : Z;
  v_worker_id : float;
  v_customer_rate : float;
  v_customer_total : float;
  v_wage_tier_id : sqlval;
  v_wage_rate : float;
  v_wage_total : float;
  v_rate : float;
  v_pay : float;
  v_job_no1 : string;
  v_job_no2 : option string;
  v_work_date : jsval;
  v_note : option string;
  v_fees_collected : float
}.

(** The first NOT NULL column, in table order, a NaN is bound to. *)
Fixpoint first_nan (cols : list (string * float)) : option string :=
  match cols with
  | [] => None
  | (name, x) :: rest => if PrimFloat.is_nan x then Some name else first_nan rest
  end.

(** [ORDER BY we.work_date DESC, we.id DESC]. *)
Definition comes_before (a b : work_entry) : bool :=
  match String.compare (we_work_date a) (we_work_date b) with
  | Gt => true
  | Lt => false
  | Eq => we_id b <=? we_id a
  end.

Fixpoint insert_ordered (x : work_entry) (l : list work_entry) : list work_entry :=
  match l with
  | [] => [x]
  | y :: rest => if comes_before x y then x :: l else y :: insert_ordered x rest
  end.

Definition order_by (l : list work_entry) : list work_entry :=
  fold_right insert_ordered [] l.

Definition replace_row (row : work_entry) (l : list work_entry) : list work_entry :=
  map (fun we => if we_id we =? we_id row then row else we) l.

Section WithPlatform.
Context {P : Platform}.

(** [getCompanyId(req)]. *)
Definition getCompanyId (req : request) : float :=
  if truthy (query_companyId req) then parseInt (query_companyId req)
  else if truthy (company_id (body req)) then parseInt (company_id (body req))
  else if truthy (activeCompanyId (req_session req))
  then ToNumber (activeCompanyId (req_session req))
  else match session_user_of (req_session req) with
       | Some user =>
           if truthy (su_company_id user) then ToNumber (su_company_id user)
           else 1%float
       | None => 1%float
       end.

(** The row of the query of [getDaysLimitForUser],
<<
  SELECT us.work_entries_days_limit_override AS override_limit,
         r.work_entries_days_limit AS role_limit
    FROM users u
    LEFT JOIN user_settings us ON us.user_id = u.id
    LEFT JOIN roles r ON r.id = u.role_id
   WHERE u.id = ?
>>
    as the pair of [override_limit] and [role_limit]; [None] when no
    row comes back. *)
Definition select_limits (d : database) (userId : Z) : option (option Z * option Z) :=
  match find (fun u => user_id u =? userId) (users d) with
  | None => None
  | Some u =>
      let override_limit :=
        match find (fun us => us_user_id us =? user_id u) (user_settings d) with
        | Some us => us_work_entries_days_limit_override us
        | None => None
        end in
      let role_limit :=
        match find (fun r => opt_eq_int (user_role_id u) (role_id r)) (roles d) with
        | Some r => role_work_entries_days_limit r
        | None => None
        end in
      Some (override_limit, role_limit)
  end.

(** [getDaysLimitForUser(req, cb)]: the value handed to [cb], [None]
    for [null] (unlimited). *)
Definition getDaysLimitForUser (d : database) (req : request) : option Z :=
  match session_user_of (req_session req) with
  | None => None
  | Some user =>
      if (su_id user =? 0) || is_admin user then None
      else
        let limit :=
          match select_limits d (su_id user) with
          | Some (Some override_limit, _) => Some override_limit
          | Some (None, Some role_limit) => Some role_limit
          | _ => None
          end in
        match limit with
        | Some l => if l <=? 0 then None else Some l
        | None => None
        end
  end.

(** [hasPermission(req, code, cb)], the local helper. *)
Definition hasPermission (d : database) (req : request) (code : string) : bool :=
  match session_user_of (req_session req) with
  | None => false
  | Some user =>
      if su_id user =? 0 then false
      else if is_admin user then true
      else Permission.select_ok d (su_id user) code
  end.

(** The optional [AND we.work_date >= date('now', '-N days')]. *)
Definition dateClause (c : clock) (daysLimit : option Z) (we : work_entry) : bool :=
  match daysLimit with
  | None => true
  | Some n => date_on_or_after (we_work_date we) (date_now_minus_days (today c) n)
  end.

(** [WHERE id = ? AND company_id = ?]. *)
Definition addressed (id companyId : float) (we : work_entry) : bool :=
  num_eq_int id (we_id we) && num_eq_int companyId (we_company_id we).

(** The stored row a statement addresses by id and company. *)
Definition stored_entry (d : database) (id companyId : float) : option work_entry :=
  find (addressed id companyId) (work_entries d).

(** [SELECT ... FROM work_entries we WHERE we.id = ? AND we.company_id = ?],
    the date clause, [LIMIT 1]. *)
Definition select_entry (c : clock) (d : database) (id companyId : float)
    (daysLimit : option Z) : option work_entry :=
  find (fun we => addressed id companyId we && dateClause c daysLimit we)
       (work_entries d).

(** [ensureRowWithinLimit({id, companyId, daysLimit}, cb)]. *)
Definition ensureRowWithinLimit (c : clock) (d : database) (id companyId : float)
    (daysLimit : option Z) : bool :=
  match select_entry c d id companyId daysLimit with
  | Some _ => true
  | None => false
  end.

(** [SELECT id FROM jobs WHERE company_id = ? AND job_code = ?]. *)
Definition select_job (d : database) (companyId : float) (code : string) : option job :=
  find (fun j => num_eq_int companyId (job_company_id j) && String.eqb (job_job_code j) code)
       (jobs d).

(** *** The statements *)

(** The row a statement would store under [id] and [company], or the
    constraint it fails: NOT NULL first, then the UNIQUE index on
    (company_id, job_no1), then the foreign keys of the columns both
    statements set (worker, job, wage tier). *)
Definition store_row (d : database) (id company : Z) (created_at : string)
    (v : entry_values) : constraint_error + work_entry :=
  match bind_number (v_worker_id v) with
  | SqlNull => inl (NotNullFailed "work_entries.worker_id")
  | w =>
    match bind_text (v_work_date v) with
    | None => inl (NotNullFailed "work_entries.work_date")
    | Some wd =>
      match first_nan [("work_entries.amount", v_amount v);
                       ("work_entries.rate", v_rate v);
                       ("work_entries.pay", v_pay v);
                       ("work_entries.customer_rate", v_customer_rate v);
                       ("work_entries.customer_total", v_customer_total v);
                       ("work_entries.wage_rate", v_wage_rate v);
                       ("work_entries.wage_total", v_wage_total v)] with
      | Some col => inl (NotNullFailed col)
      | None =>
        if existsb (fun o => negb (we_id o =? id) && (we_company_id o =? company)
                             && String.eqb (we_job_no1 o) (v_job_no1 v))
                   (work_entries d)
        then inl (UniqueFailed "work_entries.company_id, work_entries.job_no1")
        else
          let tier :=
            match v_wage_tier_id v with
            | SqlNull => Some None
            | SqlInt t => if existsb (fun wt => wt_id wt =? t) (wage_tiers d)
                          then Some (Some t) else None
            | SqlReal _ => None
            end in
          match w, tier with
          | SqlInt wk, Some t =>
              if existsb (fun x => wk_id x =? wk) (workers d)
                 && existsb (fun j => job_id j =? v_job_id v) (jobs d)
              then inr (mkWorkEntry id company wk (v_job_id v) wd (v_job_no1 v)
                          (v_job_no2 v) (v_amount v) (v_rate v) (v_pay v)
                          (v_customer_rate v) (v_customer_total v)
                          (if PrimFloat.is_nan (v_fees_collected v) then None
                           else Some (v_fees_collected v))
                          t (v_wage_rate v) (v_wage_total v) (v_is_bank v)
                          (v_note v) created_at)
              else inl ForeignKeyFailed
          | _, _ => inl ForeignKeyFailed
          end
      end
    end
  end.

(** [UPDATE work_entries SET ... WHERE id = ? AND company_id = ?]:
    the error, or [this.changes] and the next store. *)
Definition run_update (d : database) (id companyId : float) (v : entry_values)
    : constraint_error + (Z * database) :=
  match stored_entry d id companyId with
  | None => inr (0, d)
  | Some old =>
      match store_row d (we_id old) (we_company_id old) (we_created_at old) v with
      | inl e => inl e
      | inr row =>
          inr (1, with_work_entries d (replace_row row (work_entries d))
                    (work_entries_seq d))
      end
  end.

(** [INSERT INTO work_entries (...) VALUES (...)]: the error, or
    [this.lastID] and the next store. *)
Definition run_insert (c : clock) (d : database) (companyId : float) (v : entry_values)
    : constraint_error + (Z * database) :=
  let id := next_rowid (work_entries_seq d) (map we_id (work_entries d)) in
  match bind_number companyId with
  | SqlNull => inl (NotNullFailed "work_entries.company_id")
  | SqlReal _ => inl ForeignKeyFailed
  | SqlInt company =>
      match store_row d id company (current_timestamp c) v with
      | inl e => inl e
      | inr row =>
          if existsb (Z.eqb company) (companies d)
          then inr (id, with_work_entries d (work_entries d ++ [row]) id)
          else inl ForeignKeyFailed
      end
  end.

(** [DELETE FROM work_entries WHERE id = ? AND company_id = ?]. *)
Definition run_delete (d : database) (id companyId : float) : Z * database :=
  (Z.of_nat (List.length (filter (addressed id companyId) (work_entries d))),
   with_work_entries d
     (filter (fun we => negb (addressed id companyId we)) (work_entries d))
     (work_entries_seq d)).

(** [err.message.includes("UNIQUE constraint failed:
    work_entries.company_id, work_entries.job_no1")]. *)
Definition is_job_no1_conflict (e : constraint_error) : bool :=
  match e with
  | UniqueFailed cols => String.eqb cols "work_entries.company_id, work_entries.job_no1"
  | _ => false
  end.

(** *** GET / *)

(** The LEFT JOINs of the listing on workers, jobs and wage tiers. *)
Definition listing (d : database) (we : work_entry) : listing_row :=
  let wk := find (fun w => (wk_id w =? we_worker_id we)
                           && (wk_company_id w =? we_company_id we)) (workers d) in
  let j := find (fun j => (job_id j =? we_job_id we)
                          && (job_company_id j =? we_company_id we)) (jobs d) in
  let wt := find (fun t => opt_eq_int (we_wage_tier_id we) (wt_id t)
                           && (wt_company_id t =? we_company_id we)) (wage_tiers d) in
  mkListingRow we
    (option_map wk_worker_code wk)
    (match wk with Some w => wk_worker_name w | None => None end)
    (option_map job_job_code j)
    (option_map job_job_type j)
    (option_map wt_tier_name wt).

(** [WHERE we.company_id = ?] and the optional date filter. *)
Definition listed (c : clock) (companyId : float) (daysLimit : option Z)
    (we : work_entry) : bool :=
  num_eq_int companyId (we_company_id we) && dateClause c daysLimit we.

Definition get_all (c : clock) (d : database) (req : request) : response :=
  let companyId := getCompanyId req in
  let daysLimit := getDaysLimitForUser d req in
  Json 200 (Rows (map (listing d)
                    (order_by (filter (listed c companyId daysLimit) (work_entries d))))).

(** *** POST / *)

(** [wage_tier_id != null && wage_tier_id !== "" ? Number(wage_tier_id) : other]. *)
Definition tier_or (v : jsval) (other : sqlval) : sqlval :=
  if negb (nullish v) && negb (is_empty_string v) then bind_number (ToNumber v)
  else other.

(** [Number(is_bank) === 1 ? 1 : 0]. *)
Definition bank_flag (v : jsval) : Z :=
  if PrimFloat.eqb (ToNumber v) 1%float then 1 else 0.

Definition post (c : clock) (d : database) (req : request) : response * database :=
  let companyId := getCompanyId req in
  let b := body req in
  let finalCompanyId :=
    if truthy (company_id b) then ToNumber (company_id b)
    else if truthy_number companyId then companyId
    else 1%float in
  if negb (truthy_number finalCompanyId) || negb (truthy (worker_id b))
     || negb (truthy (job_code b)) || negb (truthy (amount b))
     || negb (truthy (job_no1 b)) || negb (truthy (work_date b))
  then (Json 400 (Error "Missing required fields."), d)
  else if nullish (customer_rate b) || nullish (customer_total b)
          || nullish (wage_rate b) || nullish (wage_total b)
  then (Json 400 (Error "customer_rate/customer_total/wage_rate/wage_total are required."), d)
  else
    match toNumOrNull (amount b), toNumOrNull (customer_rate b),
          toNumOrNull (customer_total b), toNumOrNull (wage_rate b),
          toNumOrNull (wage_total b) with
    | Some amountNum, Some customerRateNum, Some customerTotalNum,
      Some wageRateNum, Some wageTotalNum =>
        let finalFeesCollected :=
          match toNumOrNull (fees_collected b) with
          | None => customerTotalNum
          | Some f => f
          end in
        match select_job d finalCompanyId (trim (ToString (job_code b))) with
        | None =>
            (Json 400 (Error ("Invalid job_code: " ++ ToString (job_code b))%string), d)
        | Some jobRow =>
            match trim_or_null (job_no2 b), trim_or_null (note b) with
            | Some no2, Some nt =>
                let v := mkEntryValues (job_id jobRow) amountNum (bank_flag (is_bank b))
                           (ToNumber (worker_id b))
                           customerRateNum customerTotalNum
                           (tier_or (wage_tier_id b) SqlNull)
                           wageRateNum wageTotalNum
                           (match toNumOrNull (rate b) with
                            | Some r => r | None => wageRateNum end)
                           (match toNumOrNull (pay b) with
                            | Some p => p | None => wageTotalNum end)
                           (trim (ToString (job_no1 b))) no2 (work_date b) nt
                           finalFeesCollected in
                match run_insert c d finalCompanyId v with
                | inl e =>
                    if is_job_no1_conflict e
                    then (Json 400 (Error "Job No1 already exists for this company."), d)
                    else (Json 500 (Error "Database error"), d)
                | inr (lastID, d') => (Json 201 (Created lastID finalFeesCollected), d')
                end
            | _, _ => (Uncaught, d)
            end
        end
    | _, _, _, _, _ =>
        (Json 400 (Error "Invalid numeric value in amount/rates/totals."), d)
    end.

(** *** PUT /:id *)

(** The inner [doUpdate] of the handler, with the variables it closes
    over. *)
Definition doUpdate (d : database) (req : request) (id companyId : float)
    (jobId : Z) (hrs : float) (finalTierId : sqlval) (requestedFees : option float)
    (canEditRates : bool)
    (finalCustomerRate finalCustomerTotal finalWageRate finalWageTotal : float)
    : response * database :=
  let b := body req in
  let finalFeesCollected :=
    match requestedFees with
    | None => finalCustomerTotal
    | Some f => f
    end in
  match trim_or_null (job_no2 b), trim_or_null (note b) with
  | Some no2, Some nt =>
      let v := mkEntryValues jobId hrs (bank_flag (is_bank b))
                 (ToNumber (worker_id b))
                 finalCustomerRate finalCustomerTotal
                 finalTierId
                 finalWageRate finalWageTotal
                 finalWageRate finalWageTotal
                 (trim (ToString (job_no1 b))) no2 (work_date b) nt
                 finalFeesCollected in
      match run_update d id companyId v with
      | inl e =>
          if is_job_no1_conflict e
          then (Json 400 (Error "Job No1 already exists for this company."), d)
          else (Json 500 (Error "Database error"), d)
      | inr (changes, d') =>
          if changes =? 0 then (Json 404 (Error "Work entry not found."), d')
          else (Json 200 (Updated changes canEditRates finalFeesCollected), d')
      end
  | _, _ => (Uncaught, d)
  end.

(** The job [WHERE j.id = ? AND j.company_id = ?] selects. *)
Definition job_by_id (d : database) (jobId : Z) (companyId : float) : option job :=
  find (fun j => (job_id j =? jobId) && num_eq_int companyId (job_company_id j)) (jobs d).

(** The [job_wages] row the LEFT JOIN pairs with job [j]:
    [jw.job_id = j.id AND jw.tier_id = ? AND jw.company_id = j.company_id]. *)
Definition joined_wage (d : database) (finalTierId : sqlval) (j : job) : option job_wage :=
  find (fun jw => (jw_job_id jw =? job_id j)
                  && sql_eq_int finalTierId (jw_tier_id jw)
                  && (jw_company_id jw =? job_company_id j))
       (job_wages d).

(** The rate query of the restricted path:
<<
  SELECT j.normal_price AS customer_rate,
         COALESCE(jw.wage_rate, 0) AS wage_rate
    FROM jobs j
    LEFT JOIN job_wages jw
      ON jw.job_id = j.id AND jw.tier_id = ? AND jw.company_id = j.company_id
   WHERE j.id = ? AND j.company_id = ?
   LIMIT 1
>> *)
Definition select_rates (d : database) (finalTierId : sqlval) (jobId : Z)
    (companyId : float) : option (float * float) :=
  match job_by_id d jobId companyId with
  | None => None
  | Some j =>
      Some (job_normal_price j,
            match joined_wage d finalTierId j with
            | Some jw => jw_wage_rate jw
            | None => 0%float
            end)
  end.

(** [Number(x || 0)] on a number. *)
Definition number_or_zero (x : float) : float :=
  if truthy_number x then x else 0%float.

(** [!Number.isFinite(x) || x <= 0]. *)
Definition not_positive (x : float) : bool :=
  negb (isFinite x) || PrimFloat.leb x 0%float.

(** [wantsRateChange]. *)
Definition wantsRateChange (b : entry_body) (existing : work_entry) : bool :=
  (negb (nullish (customer_rate b))
   && negb (PrimFloat.eqb (ToNumber (customer_rate b)) (we_customer_rate existing)))
  || (negb (nullish (wage_rate b))
      && negb (PrimFloat.eqb (ToNumber (wage_rate b)) (we_wage_rate existing))).

(** [finalTierId]: the supplied tier if present, else the entry's own. *)
Definition finalTierId (b : entry_body) (existing : work_entry) : sqlval :=
  tier_or (wage_tier_id b)
    (match we_wage_tier_id existing with
     | Some t => SqlInt t
     | None => SqlNull
     end).

(** [requestedFees != null && requestedFees < 0]. *)
Definition is_negative (requestedFees : option float) : bool :=
  match requestedFees with
  | Some f => PrimFloat.ltb f 0%float
  | None => false
  end.

(** The callback of the handler that receives the loaded row
    [existing]: everything after the edit-window gate. *)
Definition put_existing (d : database) (req : request) (id companyId hrs : float)
    (existing : work_entry) : response * database :=
  let b := body req in
  match select_job d companyId (trim (ToString (job_code b))) with
  | None =>
      (Json 400 (Error ("Invalid job_code: " ++ ToString (job_code b))%string), d)
  | Some jobRow =>
      let jobId := job_id jobRow in
      let canEditRates := hasPermission d req "WORK_ENTRY_EDIT_RATES" in
      if wantsRateChange b existing && negb canEditRates
      then (Json 403 (Error "No permission to edit rates."), d)
      else
        let finalTierId := finalTierId b existing in
        let requestedFees := toNumOrNull (fees_collected b) in
        if is_negative requestedFees
        then (Json 400 (Error "fees_collected cannot be negative."), d)
        else if negb canEditRates then
          match select_rates d finalTierId jobId companyId with
          | None =>
              (Json 400 (Error "Failed to resolve rates for selected job/tier."), d)
          | Some (row_customer_rate, row_wage_rate) =>
              let finalCustomerRate := number_or_zero row_customer_rate in
              let finalWageRate := number_or_zero row_wage_rate in
              if not_positive finalCustomerRate
              then (Json 400 (Error "Invalid customer rate for this job."), d)
              else if not_positive finalWageRate
              then (Json 400 (Error "Invalid wage rate for this wage tier."), d)
              else
                doUpdate d req id companyId jobId hrs finalTierId requestedFees
                  canEditRates
                  finalCustomerRate (finalCustomerRate * hrs)%float
                  finalWageRate (finalWageRate * hrs)%float
          end
        else
          let finalCustomerRate := ToNumber (customer_rate b) in
          let finalWageRate := ToNumber (wage_rate b) in
          if not_positive finalCustomerRate
          then (Json 400 (Error "Invalid customer_rate."), d)
          else if not_positive finalWageRate
          then (Json 400 (Error "Invalid wage_rate."), d)
          else
            doUpdate d req id companyId jobId hrs finalTierId requestedFees
              canEditRates
              finalCustomerRate (finalCustomerRate * hrs)%float
              finalWageRate (finalWageRate * hrs)%float
  end.

(** The checks of the handler on the request itself, before it reads
    the store: the response it ends with, or [None] to go on. *)
Definition put_validate (req : request) : option response :=
  let companyId := getCompanyId req in
  let id := StringToNumber (params_id req) in
  let b := body req in
  if negb (truthy_number id) || negb (truthy_number companyId)
  then Some (Json 400 (Error "Invalid id/company."))
  else if negb (truthy (worker_id b))
  then Some (Json 400 (Error "worker_id is required."))
  else if negb (truthy (job_code b)) || nullish (amount b)
          || negb (truthy (job_no1 b)) || negb (truthy (work_date b))
  then Some (Json 400 (Error "Missing required fields."))
  else if not_positive (ToNumber (amount b))
  then Some (Json 400 (Error "Invalid amount (hours)."))
  else None.

(** The handler behind [requirePermission("WORK_ENTRY_EDIT")]. *)
Definition put_handler (c : clock) (d : database) (req : request)
    : response * database :=
  let companyId := getCompanyId req in
  let id := StringToNumber (params_id req) in
  let hrs := ToNumber (amount (body req)) in
  match put_validate req with
  | Some r => (r, d)
  | None =>
      let daysLimit := getDaysLimitForUser d req in
      match select_entry c d id companyId daysLimit with
      | None =>
          (Json 403 (Error "You cannot edit this record (out of allowed date range)."), d)
      | Some existing => put_existing d req id companyId hrs existing
      end
  end.

(** [router.put("/:id", requirePermission("WORK_ENTRY_EDIT"), handler)]. *)
Definition put (c : clock) (d : database) (req : request) : response * database :=
  match Permission.requirePermission "WORK_ENTRY_EDIT" d req with
  | Some r => (r, d)
  | None => put_handler c d req
  end.

(** *** DELETE /:id *)

Definition delete_handler (c : clock) (d : database) (req : request)
    : response * database :=
  let companyId := getCompanyId req in
  let id := parseInt10 (params_id req) in
  let daysLimit := getDaysLimitForUser d req in
  if negb (ensureRowWithinLimit c d id companyId daysLimit)
  then (Json 403 (Error "You cannot delete this record (out of allowed date range)."), d)
  else
    let '(changes, d') := run_delete d id companyId in
    if changes =? 0 then (Json 404 (Error "Not found"), d')
    else (Json 200 (Deleted changes), d').

Definition delete (c : clock) (d : database) (req : request) : response * database :=
  match Permission.requirePermission "WORK_ENTRY_DELETE" d req with
  | Some r => (r, d)
  | None => delete_handler c d req
  end.

End WithPlatform.
End WorkEntryRoutes.

(* ================================================================= *)
(** ** [src/routes/jobRoutes.js] *)

Module JobRoutes.
Import Sqlite Store Http JS.

(** An element of [req.body.wage_rates]. *)
Record wage_rate_item : Type := mkWageRateItem {
  item_tier_id : jsval;
  item_wage_rate : jsval
}.

(** [req.body] of the job routes; [wage_rates] is [None] when it is not
    an array. *)
Record job_body : Type := mkJobBody {
  jb_companyId : jsval;
  jb_company_id : jsval;
  jb_job_code : jsval;
  jb_job_type : jsval;
  jb_normal_price : jsval;
  jb_is_active : jsval;
  jb_wage_rates : option (list wage_rate_item)
}.

Record job_request : Type := mkJobRequest {
  jq_query_companyId : jsval;
  jq_params_id : string;
  jq_body : job_body
}.

Section WithPlatform.
Context {P : Platform}.

Definition getCompanyId (req : job_request) : float :=
  if truthy (jq_query_companyId req) then ToNumber (jq_query_companyId req)
  else if truthy (jb_companyId (jq_body req)) then ToNumber (jb_companyId (jq_body req))
  else if truthy (jb_company_id (jq_body req)) then ToNumber (jb_company_id (jq_body req))
  else 1%float.

(** [normalizeWageRates(input)]: pairs of [tier_id] and [wage_rate]. *)
Definition normalizeWageRates (input : option (list wage_rate_item))
    : list (float * float) :=
  match input with
  | None => []
  | Some items =>
      filter (fun x => negb (PrimFloat.is_nan (fst x)))
        (map (fun x => (ToNumber (item_tier_id x),
                        ToNumber (or_else (item_wage_rate x) (JNumber 0%float))))
             items)
  end.

(** [UPDATE jobs SET job_code = ?, job_type = ?, normal_price = ?,
    is_active = ? WHERE id = ? AND company_id = ?]. *)
Definition run_update_job (d : database) (jobId companyId : float)
    (code type : jsval) (price active : float) : constraint_error + (Z * database) :=
  match find (fun j => num_eq_int jobId (job_id j) && num_eq_int companyId (job_company_id j))
             (jobs d) with
  | None => inr (0, d)
  | Some old =>
      match bind_text code, bind_text type with
      | None, _ => inl (NotNullFailed "jobs.job_code")
      | _, None => inl (NotNullFailed "jobs.job_type")
      | Some code', Some type' =>
          if PrimFloat.is_nan price then inl (NotNullFailed "jobs.normal_price")
          else
            match bind_number active with
            | SqlNull => inl (NotNullFailed "jobs.is_active")
            | active' =>
                if existsb (fun o => negb (job_id o =? job_id old)
                                     && (job_company_id o =? job_company_id old)
                                     && String.eqb (job_job_code o) code')
                           (jobs d)
                then inl (UniqueFailed "jobs.company_id, jobs.job_code")
                else
                  let row := mkJob (job_id old) (job_company_id old) code' type'
                               price active' in
                  inr (1, with_jobs d
                            (map (fun j => if job_id j =? job_id old then row else j)
                                 (jobs d)))
            end
      end
  end.

(** One [stmt.run(companyId, jobId, r.tier_id, r.wage_rate)] of
<<
  INSERT INTO job_wages (company_id, job_id, tier_id, wage_rate)
  VALUES (?, ?, ?, ?)
  ON CONFLICT(job_id, tier_id) DO UPDATE SET wage_rate = excluded.wage_rate
>>
    a statement that fails leaves the store as it was. *)
Definition run_upsert_wage (d : database) (companyId jobId : float)
    (r : float * float) : database :=
  let '(tier_id, wage_rate) := r in
  match bind_number companyId, bind_number jobId, bind_number tier_id with
  | SqlInt company, SqlInt job, SqlInt tier =>
      if PrimFloat.is_nan wage_rate then d
      else if existsb (fun jw => (jw_job_id jw =? job) && (jw_tier_id jw =? tier))
                      (job_wages d)
      then with_job_wages d
             (map (fun jw => if (jw_job_id jw =? job) && (jw_tier_id jw =? tier)
                             then mkJobWage (jw_id jw) (jw_company_id jw) (jw_job_id jw)
                                    (jw_tier_id jw) wage_rate
                             else jw)
                  (job_wages d))
             (job_wages_seq d)
      else if existsb (Z.eqb company) (companies d)
              && existsb (fun j => job_id j =? job) (jobs d)
              && existsb (fun wt => wt_id wt =? tier) (wage_tiers d)
      then
        let id := next_rowid (job_wages_seq d) (map jw_id (job_wages d)) in
        with_job_wages d (job_wages d ++ [mkJobWage id company job tier wage_rate]) id
      else d
  | _, _, _ => d
  end.

(** [router.put("/:id", ...)]. *)
Definition put (d : database) (req : job_request) : response * database :=
  let companyId := getCompanyId req in
  let jobId := StringToNumber (jq_params_id req) in
  let b := jq_body req in
  let rates := normalizeWageRates (jb_wage_rates b) in
  match run_update_job d jobId companyId (jb_job_code b) (jb_job_type b)
          (ToNumber (or_else (jb_normal_price b) (JNumber 0%float)))
          (if nullish (jb_is_active b) then 1%float else ToNumber (jb_is_active b)) with
  | inl e => (Json 500 (Error (message e)), d)
  | inr (changes, d') =>
      if changes =? 0 then (Json 404 (Error "Job not found"), d')
      else
        (Json 200 (Message "Job updated"),
         fold_left (fun acc r => run_upsert_wage acc companyId jobId r) rates d')
  end.

End WithPlatform.
End JobRoutes.

(* ================================================================= *)
(** ** The permission checks of [app.js] *)

Module App.
Import Store Http.

Section WithPlatform.
Context {P : Platform}.

(** [res.locals.isAdmin]. *)
Definition isAdmin (user : option session_user) : bool :=
  match user with
  | Some u => is_admin u
  | None => false
  end.

(** [res.locals.can(perm)]. *)
Definition can (user : option session_user) (perm : string) : bool :=
  isAdmin user
  || match user with
     | Some u =>
         match su_permissions u with
         | Some l => existsb (String.eqb perm) l
         | None => false
         end
     | None => false
     end.

(** The check the dashboard and the reports page write out: the admin
    flag, else [hasPermission(Number(user?.id), code)]. *)
Definition admin_or_hasPermission (d : database) (user : option session_user)
    (code : string) : bool :=
  if isAdmin user then true
  else match user with
       | Some u => Permission.hasPermission d (su_id u) code
       | None => false
       end.

(** [canSeeRates] of [GET /dashboard]. *)
Definition canSeeRates (d : database) (user : option session_user) : bool :=
  admin_or_hasPermission d user "WORK_ENTRY_EDIT_RATES".

(** [canFilterPayType] of [GET /reports]. *)
Definition canFilterPayType (d : database) (user : option session_user) : bool :=
  admin_or_hasPermission d user "REPORT_FILTER_PAYTYPE".

End WithPlatform.
End App.

(* ================================================================= *)
(** ** The responses the specification names *)

Module Taxonomy.
Import Http.

(** [Forbidden], carrying the missing permission code. *)
Definition Forbidden (code : string) : response :=
  Json 403 (ErrorMissingPermission "Forbidden" code).

Definition Unauthenticated : response := Json 401 (Error "Unauthorized").

Definition OutOfEditWindow : response :=
  Json 403 (Error "You cannot edit this record (out of allowed date range).").

Definition RateEditForbidden : response :=
  Json 403 (Error "No permission to edit rates.").

(** [RateResolutionFailed]: the three answers of the restricted path. *)
Inductive RateResolutionFailed : response -> Prop :=
| NoRateRow :
    RateResolutionFailed (Json 400 (Error "Failed to resolve rates for selected job/tier."))
| BadCustomerRate :
    RateResolutionFailed (Json 400 (Error "Invalid customer rate for this job."))
| BadWageRate :
    RateResolutionFailed (Json 400 (Error "Invalid wage rate for this wage tier.")).

(** The answer of a successful update. *)
Definition is_updated (r : response) : bool :=
  match r with
  | Json 200 (Updated _ _ _) => true
  | _ => false
  end.

End Taxonomy.

(* ================================================================= *)
(** ** A concrete platform and a small store, for the examples *)

Module Demo.
Import Sqlite Store Http.

Definition is_space (ch : ascii) : bool :=
  let n := N_of_ascii ch in
  ((9 <=? n) && (n <=? 13))%N || (n =? 32)%N.

Fixpoint trim_left (s : string) : string :=
  match s with
  | String ch rest => if is_space ch then trim_left rest else s
  | EmptyString => EmptyString
  end.

Fixpoint trim_right (s : string) : string :=
  match s with
  | String ch rest =>
      match trim_right rest with
      | EmptyString => if is_space ch then EmptyString else String ch EmptyString
      | t => String ch t
      end
  | EmptyString => EmptyString
  end.

Fixpoint digits_value (s : string) (acc : Z) : option Z :=
  match s with
  | EmptyString => Some acc
  | String ch rest =>
      let n := Z.of_N (N_of_ascii ch) in
      if (48 <=? n) && (n <=? 57) then digits_value rest (10 * acc + (n - 48))
      else None
  end.

(** [Number(s)] for a string of at most fifteen decimal digits; NaN
    stands in for every other string. *)
Definition number_of_digits (s : string) : float :=
  if (String.length s <=? 15)%nat then
    match digits_value s 0 with
    | Some z => PrimFloat.of_uint63 (Uint63.of_Z z)
    | None => PrimFloat.nan
    end
  else PrimFloat.nan.

(** [String(x)] for a number that denotes an integer. *)
Definition string_of_number (x : float) : string :=
  match Z_of_float x with
  | Some z => DecimalString.NilZero.string_of_int (Z.to_int z)
  | None => "NaN"
  end.

(** [date] for a day before the year 0000: the year is printed with its
    sign and four digits, down to -4713-11-25; before that the Julian
    day number is negative and the answer is NULL, as it is after
    9999-12-31.  (On -4713-11-24 the answer depends on the time of the
    day; the clock of the examples is before noon.) *)
Definition date_outside_calendar (day : Z) : option string :=
  if (-2440587 <=? day) && (day <? first_day) then
    let '(y, m, d) := civil_from_days day in
    Some ("-" ++ pad4 (- y) ++ "-" ++ pad2 m ++ "-" ++ pad2 d)%string
  else None.

(** A platform that is exact on the values of the examples below:
    strings of decimal digits, numbers that denote integers, ASCII
    white space. *)
Definition platform : Platform := {|
  StringToNumber := number_of_digits;
  NumberToString := string_of_number;
  parseInt10 := fun s => if String.eqb s "" then PrimFloat.nan else number_of_digits s;
  trim := fun s => trim_right (trim_left s);
  sqlite_text_of_number := string_of_number;
  sqlite_date_outside_calendar := date_outside_calendar
|}.

(** 2026-11-01. *)
Definition clock0 : clock := mkClock 20758 "2026-11-01 09:00:00".

Definition admin : session_user :=
  mkSessionUser 1 JNull (JNumber 1%float) (Some 1) (Some []).
Definition manager : session_user :=
  mkSessionUser 2 (JNumber 1%float) (JNumber 0%float) (Some 2)
    (Some ["WORK_ENTRY_CREATE"; "WORK_ENTRY_EDIT"; "WORK_ENTRY_DELETE"]).
Definition staff : session_user :=
  mkSessionUser 3 (JNumber 1%float) (JNumber 0%float) (Some 3) (Some []).

(** Entry 1 was worked 20 days before [clock0], entry 2 40 days before. *)
Definition entry1 : work_entry :=
  mkWorkEntry 1 1 1 1 "2026-10-12" "JN-1" None 3%float 20%float 60%float
    50%float 150%float (Some 150%float) (Some 1) 20%float 60%float 0 None
    "2026-10-12 18:00:00".
Definition entry2 : work_entry :=
  mkWorkEntry 2 1 1 1 "2026-09-22" "JN-2" None 2%float 20%float 40%float
    50%float 100%float (Some 100%float) (Some 1) 20%float 40%float 0 None
    "2026-09-22 18:00:00".

(** One company with one job (base price 30), one wage tier (wage 12
    for the job), one worker.  The manager's role (30 days) grants
    create, edit and delete; the staff role (30 days) grants nothing
    here, and the staff user carries a personal limit of 0.  The
    manager has a DENY override on WORK_ENTRY_EDIT. *)
Definition db0 : database := {|
  companies := [1];
  users := [mkUser 1 None "admin" 1 1 (Some 1);
            mkUser 2 (Some 1) "manager" 1 0 (Some 2);
            mkUser 3 (Some 1) "staff" 1 0 (Some 3)];
  user_settings := [mkUserSetting 3 (Some 0)];
  roles := [mkRole 1 None "super_admin" None;
            mkRole 2 None "manager" (Some 30);
            mkRole 3 None "staff" (Some 30)];
  permissions := [mkPermission 1 "WORK_ENTRY_CREATE" 1;
                  mkPermission 2 "WORK_ENTRY_EDIT" 1;
                  mkPermission 3 "WORK_ENTRY_DELETE" 1;
                  mkPermission 4 "WORK_ENTRY_EDIT_RATES" 1];
  role_permissions := [mkRolePermission 2 1; mkRolePermission 2 2; mkRolePermission 2 3];
  user_permissions := [mkUserPermission 2 2 DENY];
  jobs := [mkJob 1 1 "FOOT60" "Foot reflexology" 30%float (SqlInt 1)];
  wage_tiers := [mkWageTier 1 1 "T1" "Tier 1"];
  job_wages := [mkJobWage 1 1 1 1 12%float];
  workers := [mkWorker 1 1 "W001" (Some "Mei")];
  work_entries := [entry1; entry2];
  work_entries_seq := 2;
  job_wages_seq := 1
|}.

Definition no_session : session := mkSession JUndefined None.
Definition session_of (u : session_user) : session := mkSession (su_company_id u) (Some u).

Definition empty_body : entry_body :=
  mkEntryBody JUndefined JUndefined JUndefined JUndefined JUndefined JUndefined
    JUndefined JUndefined JUndefined JUndefined JUndefined JUndefined JUndefined
    JUndefined JUndefined JUndefined JUndefined.

(** The body of an update: worker 1, job FOOT60, the hours, the rates
    as given, the reference number and the date of the entry. *)
Definition update_body (hours customer_rate wage_rate : jsval) (job_no1 work_date : string)
    : entry_body :=
  mkEntryBody JUndefined (JNumber 1%float) (JString "FOOT60") hours (JNumber 0%float)
    customer_rate JUndefined JUndefined wage_rate JUndefined JUndefined JUndefined
    (JString job_no1) JUndefined (JString work_date) JUndefined JUndefined.

(** The body of a create: worker 1, job FOOT60, hours, customer rate
    and total, wage rate 20 with its total. *)
Definition create_body (hours customer_rate customer_total : float) (job_no1 : string)
    : entry_body :=
  mkEntryBody JUndefined (JNumber 1%float) (JString "FOOT60") (JNumber hours)
    (JNumber 0%float) (JNumber customer_rate) (JNumber customer_total)
    (JNumber 1%float) (JNumber 20%float) (JNumber (20 * hours)%float)
    JUndefined JUndefined (JString job_no1) JUndefined (JString "2026-11-01")
    JUndefined JUndefined.

Definition request_of (s : session) (id : string) (b : entry_body) : request :=
  mkRequest (JString "1") id b s true.

(** A job update that raises the base price of job 1 to 80 and its
    tier-1 wage to 40. *)
Definition reprice : JobRoutes.job_request :=
  JobRoutes.mkJobRequest (JString "1") "1"
    (JobRoutes.mkJobBody JUndefined JUndefined (JString "FOOT60")
       (JString "Foot reflexology") (JNumber 80%float) JUndefined
       (Some [JobRoutes.mkWageRateItem (JNumber 1%float) (JNumber 40%float)])).

(** The requests of the examples. *)

Definition by_admin : request := request_of (session_of admin) "1" empty_body.
Definition by_manager : request := request_of (session_of manager) "1" empty_body.
Definition by_staff : request := request_of (session_of staff) "1" empty_body.

(** Nothing names a company and nobody is logged in. *)
Definition anonymous_list : request := mkRequest JUndefined "" empty_body no_session true.

(** The manager sets entry 1 to 4 hours and supplies no rate. *)
Definition update_hours : request :=
  request_of (session_of manager) "1"
    (update_body (JNumber 4%float) JUndefined JUndefined "JN-1" "2026-10-12").

(** The same, supplying wage rate 25 against the stored 20. *)
Definition update_wage_rate : request :=
  request_of (session_of manager) "1"
    (update_body (JNumber 4%float) JUndefined (JNumber 25%float) "JN-1" "2026-10-12").

(** The manager sets entry 2, worked 40 days ago, to 4 hours. *)
Definition update_old_entry : request :=
  request_of (session_of manager) "2"
    (update_body (JNumber 4%float) JUndefined JUndefined "JN-2" "2026-09-22").

(** The administrator sets entry 1 to 4 hours at rates 55 and 22. *)
Definition update_by_admin : request :=
  request_of (session_of admin) "1"
    (update_body (JNumber 4%float) (JNumber 55%float) (JNumber 22%float)
       "JN-1" "2026-10-12").

(** Creates of 3 hours at customer rate 50: with total 150 by the staff
    user, with total 100, and with total 150 by nobody. *)
Definition create_150 : request :=
  request_of (session_of staff) "" (create_body 3 50 150 "JN-3").
Definition create_100 : request :=
  request_of (session_of staff) "" (create_body 3 50 100 "JN-3").
Definition create_anonymous : request :=
  request_of no_session "" (create_body 3 50 150 "JN-3").

(** A job update that sets the base price of job 1 to the number the JSON
    text [1e999] parses to, and the store it leaves. *)
Definition reprice_infinite : JobRoutes.job_request :=
  JobRoutes.mkJobRequest (JString "1") "1"
    (JobRoutes.mkJobBody JUndefined JUndefined (JString "FOOT60")
       (JString "Foot reflexology") (JNumber PrimFloat.infinity) JUndefined None).

Definition db_infinite : database :=
  snd (JobRoutes.put (P := platform) db0 reprice_infinite).

End Demo.

(* ================================================================= *)
(** ** [DELETE /:id] of [src/routes/jobRoutes.js] *)

Module JobRoutesDelete.
Import Sqlite Store Http JS.

Definition with_jobs_and_wages (d : database) (js : list job) (ws : list job_wage)
    : database :=
  mkDatabase (companies d) (users d) (user_settings d) (roles d) (permissions d)
    (role_permissions d) (user_permissions d) js (wage_tiers d)
    ws (workers d) (work_entries d) (work_entries_seq d) (job_wages_seq d).

(** [WHERE id = ? AND company_id = ?] on [jobs]. *)
Definition addressed_job (jobId companyId : float) (j : job) : bool :=
  num_eq_int jobId (job_id j) && num_eq_int companyId (job_company_id j).

(** [DELETE FROM jobs WHERE id = ? AND company_id = ?]: a job that a work
    entry references is kept (ON DELETE RESTRICT) and the statement
    fails; otherwise the job goes and its [job_wages] rows with it (ON
    DELETE CASCADE).  The answer is the error, or [this.changes] and the
    next store. *)
Definition run_delete_job (d : database) (jobId companyId : float)
    : constraint_error + (Z * database) :=
  let doomed := filter (addressed_job jobId companyId) (jobs d) in
  let is_doomed (id : Z) := existsb (fun j => job_id j =? id) doomed in
  if existsb (fun we => is_doomed (we_job_id we)) (work_entries d)
  then inl ForeignKeyFailed
  else inr (Z.of_nat (List.length doomed),
            with_jobs_and_wages d
              (filter (fun j => negb (addressed_job jobId companyId j)) (jobs d))
              (filter (fun jw => negb (is_doomed (jw_job_id jw))) (job_wages d))).

Section WithPlatform.
Context {P : Platform}.

(** [router.delete("/:id", ...)]. *)
Definition delete (d : database) (req : JobRoutes.job_request) : response * database :=
  let companyId := JobRoutes.getCompanyId req in
  let jobId := StringToNumber (JobRoutes.jq_params_id req) in
  match run_delete_job d jobId companyId with
  | inl e => (Json 500 (Error (message e)), d)
  | inr (changes, d') =>
      if changes =? 0 then (Json 404 (Error "Not found"), d')
      else (Json 200 (Message "Deleted"), d')
  end.

End WithPlatform.
End JobRoutesDelete.

(* ================================================================= *)
(** ** The session the login route saves ([src/routes/authRoutes.js]) and
       the company context of [app.js] *)

Module AuthRoutes.
Import Sqlite Store Http JS.

(** The number a value of an INTEGER column reads as. *)
Definition number_of_int (z : Z) : float :=
  if z <? 0 then PrimFloat.opp (PrimFloat.of_uint63 (Uint63.of_Z (- z)))
  else PrimFloat.of_uint63 (Uint63.of_Z z).

(** The rows of
<<
    SELECT DISTINCT p.code
      FROM users u
      JOIN roles r ON r.id = u.role_id
      JOIN role_permissions rp ON rp.role_id = r.id
      JOIN permissions p ON p.id = rp.permission_id
     WHERE u.id = ? AND p.is_active = 1
>>
    in one of the orders the store may answer them in. *)
Definition select_codes (d : database) (userId : Z) : list string :=
  nodup string_dec
    (flat_map (fun u =>
       if user_id u =? userId then
         flat_map (fun r =>
           if opt_eq_int (user_role_id u) (role_id r) then
             flat_map (fun rp =>
               if rp_role_id rp =? role_id r then
                 flat_map (fun p =>
                   if (permission_id p =? rp_permission_id rp)
                      && (permission_is_active p =? 1)
                   then [permission_code p] else [])
                   (permissions d)
               else [])
               (role_permissions d)
           else [])
           (roles d)
       else [])
       (users d)).

(** [req.session.user] as [POST /login] builds it from the user row once
    the password has been accepted. *)
Definition session_user_saved (d : database) (u : user) : session_user :=
  mkSessionUser (user_id u)
    (match user_company_id u with
     | Some z => JNumber (number_of_int z)
     | None => JNull
     end)
    (JNumber (let x := number_of_int (user_is_admin u) in
              if truthy_number x then x else 0%float))
    (user_role_id u)
    (Some (select_codes d (user_id u))).

End AuthRoutes.

Module AppMiddleware.
Import Store Http JS.

(** The company context the middleware of [app.js] leaves in the
    session: forced to the user's company for everyone but an
    administrator, kept (or initialised) for an administrator. *)
Definition company_context {P : Platform} (s : session) : session :=
  match session_user_of s with
  | Some user =>
      if su_id user =? 0 then s
      else if negb (is_admin user) then mkSession (su_company_id user) (Some user)
      else mkSession
             (if nullish (activeCompanyId s)
              then (if nullish (su_company_id user) then JNull else su_company_id user)
              else activeCompanyId s)
             (Some user)
  | None => s
  end.

(** The request as the routes see it, after the middleware. *)
Definition through {P : Platform} (req : request) : request :=
  mkRequest (query_companyId req) (params_id req) (body req)
    (company_context (req_session req)) (is_api req).

End AppMiddleware.

(* ================================================================= *)
(** ** [POST /management/permissions/:id/toggle]
       ([src/routes/managementRoutes.js]) *)

Module ManagementRoutes.
Import Sqlite Store Http JS.

Definition with_permissions (d : database) (l : list permission) : database :=
  mkDatabase (companies d) (users d) (user_settings d) (roles d) l
    (role_permissions d) (user_permissions d) (jobs d) (wage_tiers d)
    (job_wages d) (workers d) (work_entries d) (work_entries_seq d) (job_wages_seq d).

(** [UPDATE permissions
       SET is_active = CASE WHEN is_active = 1 THEN 0 ELSE 1 END
     WHERE id = ?]. *)
Definition run_toggle (d : database) (id : float) : database :=
  with_permissions d
    (map (fun p =>
            if num_eq_int id (permission_id p)
            then mkPermission (permission_id p) (permission_code p)
                   (if permission_is_active p =? 1 then 0 else 1)
            else p)
         (permissions d)).

(** The handler behind [requireAuth] and [requireAdmin]. *)
Definition toggle_permission {P : Platform} (d : database) (params_id : string)
    : response * database :=
  (Redirect "/management?tab=perms&success=Permission%20status%20updated",
   run_toggle d (StringToNumber params_id)).

End ManagementRoutes.

(* ================================================================= *)
(** ** What the store keeps *)

Module Invariants.
Import Store.

(** The primary key of [work_entries] and its UNIQUE index on
    (company_id, job_no1). *)
Definition keys_ok (l : list work_entry) : Prop :=
  NoDup (map we_id l)
  /\ forall a b, In a l -> In b l ->
       we_company_id a = we_company_id b -> we_job_no1 a = we_job_no1 b ->
       we_id a = we_id b.

(** The foreign keys of [work_entries] on workers, jobs and wage tiers. *)
Definition refs_ok (d : database) : Prop :=
  forall we, In we (work_entries d) ->
    (exists w, In w (workers d) /\ wk_id w = we_worker_id we)
    /\ (exists j, In j (jobs d) /\ job_id j = we_job_id we)
    /\ (forall t, we_wage_tier_id we = Some t ->
          exists wt, In wt (wage_tiers d) /\ wt_id wt = t).

(** The UNIQUE index of [job_wages] on (job_id, tier_id). *)
Definition wage_keys_ok (l : list job_wage) : Prop :=
  NoDup (map (fun jw => (jw_job_id jw, jw_tier_id jw)) l).

End Invariants.

(* ================================================================= *)
(** ** What the LEFT JOINs of the listing select *)

Module Joins.
Import Store Http.

(** The columns a row of [GET /] shows beside those of its entry:
<<
  LEFT JOIN workers wk
    ON wk.id = we.worker_id AND wk.company_id = we.company_id
  LEFT JOIN jobs j
    ON j.id = we.job_id AND j.company_id = we.company_id
  LEFT JOIN wage_tiers wt
    ON wt.id = we.wage_tier_id AND wt.company_id = we.company_id
>>
    code and name of a worker of the entry's company with the entry's
    worker id, code and type of such a job, the name of such a wage
    tier; NULL where the store has no such row. *)
Definition names_of (d : database) (r : listing_row) : Prop :=
  let we := lr_entry r in
  ((exists w, In w (workers d) /\ wk_id w = we_worker_id we
              /\ wk_company_id w = we_company_id we
              /\ lr_worker_code r = Some (wk_worker_code w)
              /\ lr_worker_name r = wk_worker_name w)
   \/ ((forall w, In w (workers d) -> wk_id w = we_worker_id we ->
          wk_company_id w <> we_company_id we)
       /\ lr_worker_code r = None /\ lr_worker_name r = None))
  /\ ((exists j, In j (jobs d) /\ job_id j = we_job_id we
                 /\ job_company_id j = we_company_id we
                 /\ lr_job_code r = Some (job_job_code j)
                 /\ lr_job_type r = Some (job_job_type j))
      \/ ((forall j, In j (jobs d) -> job_id j = we_job_id we ->
             job_company_id j <> we_company_id we)
          /\ lr_job_code r = None /\ lr_job_type r = None))
  /\ ((exists t, In t (wage_tiers d) /\ we_wage_tier_id we = Some (wt_id t)
                 /\ wt_company_id t = we_company_id we
                 /\ lr_wage_tier_name r = Some (wt_tier_name t))
      \/ ((forall t, In t (wage_tiers d) -> we_wage_tier_id we = Some (wt_id t) ->
             wt_company_id t <> we_company_id we)
          /\ lr_wage_tier_name r = None)).

End Joins.

(* ================================================================= *)
(** ** [src/middleware/auth.js] and the gates of a management route *)

Module Auth.
Import Store Http.

(** What a gate before a management handler ends the request with. *)
Inductive stop : Type :=
| ToLogin        (* res.redirect("/login") *)
| Forbidden403   (* res.status(403).render("403", { title: "Forbidden" }) *)
| Denied (r : response) (* the response of [requirePermission] *).

Definition with_session (req : request) (s : session) : request :=
  mkRequest (query_companyId req) (params_id req) (body req) s (is_api req).

(** [SELECT r.code AS role_code FROM users u
     LEFT JOIN roles r ON r.id = u.role_id WHERE u.id = ?]: the row, if
    any, and in it the code, if the user has a role. *)
Definition select_role_code (d : database) (userId : Z) : option (option string) :=
  match find (fun u => user_id u =? userId) (users d) with
  | None => None
  | Some u =>
      Some (option_map role_code
              (find (fun r => opt_eq_int (user_role_id u) (role_id r)) (roles d)))
  end.

Section WithEnvironment.

(** [process.env.NODE_ENV === "development"], and
    [String.prototype.toUpperCase]. *)
Variable development : bool.
Variable toUpperCase : string -> string.
Context {P : Platform}.

(** [requireAuth]: the request handed to [next()], or the redirect.  The
    development bypass replaces the session user by
    [{ id: 1, username: "admin" }]. *)
Definition requireAuth (req : request) : stop + request :=
  if development
  then inr (with_session req
              (mkSession (activeCompanyId (req_session req))
                 (Some (mkSessionUser 1 JUndefined JUndefined None None))))
  else match session_user_of (req_session req) with
       | None => inl ToLogin
       | Some _ => inr req
       end.

(** [requireAdmin]: [None] is [next()]. *)
Definition requireAdmin (d : database) (req : request) : option stop :=
  if development then None
  else
    match session_user_of (req_session req) with
    | None => Some ToLogin
    | Some user =>
        if su_id user <=? 0 then Some ToLogin
        else
          let roleCode :=
            toUpperCase (match select_role_code d (su_id user) with
                         | Some (Some code) => code
                         | _ => ""
                         end) in
          if String.eqb roleCode "ADMIN" then None else Some Forbidden403
    end.

(** [POST /management/permissions/:id/toggle] behind its gates:
    [router.use("/management", requireAuth,
    requirePermission("PAGE_MANAGEMENT"))], then [requireAuth] and
    [requireAdmin] of the route itself. *)
Definition toggle_route (d : database) (req : request) : stop + response * database :=
  match requireAuth req with
  | inl s => inl s
  | inr req1 =>
      match Permission.requirePermission "PAGE_MANAGEMENT" d req1 with
      | Some r => inl (Denied r)
      | None =>
          match requireAuth req1 with
          | inl s => inl s
          | inr req2 =>
              match requireAdmin d req2 with
              | Some s => inl s
              | None => inr (ManagementRoutes.toggle_permission d (params_id req2))
              end
          end
      end
  end.

End WithEnvironment.
End Auth.

(* ================================================================= *)
(** ** Further stores and requests of the examples *)

Module Cases.
Import Sqlite Store Http.

(** The manager asks for entry 2, worked 40 days before [Demo.clock0],
    and for an entry 9 that is not stored. *)
Definition manager_entry2 : request :=
  Demo.request_of (Demo.session_of Demo.manager) "2" Demo.empty_body.
Definition manager_entry9 : request :=
  Demo.request_of (Demo.session_of Demo.manager) "9" Demo.empty_body.

(** The store of the examples before any work was entered. *)
Definition db_no_entries : database := with_work_entries Demo.db0 [] 0.

(** The manager's row of [users]. *)
Definition manager_row : user := mkUser 2 (Some 1) "manager" 1 0 (Some 2).

(** The staff user lists the entries of company 2, and lists without
    naming a company, on a session that has no active company yet. *)
Definition staff_lists_company_2 : request :=
  mkRequest (JString "2") "" Demo.empty_body (Demo.session_of Demo.staff) true.
Definition staff_lists : request :=
  mkRequest JUndefined "" Demo.empty_body (mkSession JUndefined (Some Demo.staff)) true.

(** The store after the permission WORK_ENTRY_EDIT, of id 2, was
    toggled. *)
Definition db_edit_off : database :=
  snd (ManagementRoutes.toggle_permission (P := Demo.platform) Demo.db0 "2").

(** A request on the session the login of the manager saved. *)
Definition after_login : request :=
  Demo.request_of
    (mkSession JUndefined (Some (AuthRoutes.session_user_saved Demo.db0 manager_row)))
    "1" Demo.empty_body.

(** The manager enters work of the 22nd of September 2026, 40 days
    before [Demo.clock0], and writes the month without its leading zero;
    the store after that create, in which the entry has id 3; and the
    manager's update of the entry to 4 hours. *)
Definition create_sept_22 : request :=
  Demo.request_of (Demo.session_of Demo.manager) ""
    (mkEntryBody JUndefined (JNumber 1%float) (JString "FOOT60") (JNumber 3%float)
       (JNumber 0%float) (JNumber 50%float) (JNumber 150%float)
       (JNumber 1%float) (JNumber 20%float) (JNumber 60%float)
       JUndefined JUndefined (JString "JN-9") JUndefined (JString "2026-9-22")
       JUndefined JUndefined).

Definition db_sept_22 : database :=
  snd (WorkEntryRoutes.post (P := Demo.platform) Demo.clock0 Demo.db0 create_sept_22).

Definition update_sept_22 : request :=
  Demo.request_of (Demo.session_of Demo.manager) "3"
    (Demo.update_body (JNumber 4%float) JUndefined JUndefined "JN-9" "2026-9-22").

(** [String.prototype.toUpperCase] on a string of ASCII characters. *)
Definition upper_ascii (ch : ascii) : ascii :=
  let n := N_of_ascii ch in
  if ((97 <=? n) && (n <=? 122))%N then ascii_of_N (n - 32) else ch.

Fixpoint upper (s : string) : string :=
  match s with
  | EmptyString => EmptyString
  | String ch rest => String (upper_ascii ch) (upper rest)
  end.

End Cases.

(* ================================================================= *)
(** * Properties *)

Import Sqlite Store Http JS.
Import Taxonomy.

(** ** Lists and numbers *)

Lemma insert_ordered_perm :
  forall x l, Permutation (WorkEntryRoutes.insert_ordered x l) (x :: l).
Proof.
  intros x l; induction l as [|y rest IH]; simpl.
  - apply Permutation_refl.
  - destruct (WorkEntryRoutes.comes_before x y).
    + apply Permutation_refl.
    + eapply Permutation_trans; [apply perm_skip, IH | apply perm_swap].
Qed.

Lemma order_by_perm :
  forall l, Permutation (WorkEntryRoutes.order_by l) l.
Proof.
  induction l as [|x rest IH]; simpl.
  - constructor.
  - eapply Permutation_trans; [apply insert_ordered_perm | now apply perm_skip].
Qed.

Lemma num_eq_int_one : forall z, num_eq_int 1%float z = (1 =? z).
Proof. intros z; reflexivity. Qed.

Lemma filter_ext_in_bool :
  forall (A : Type) (f g : A -> bool) (l : list A),
    (forall a, f a = g a) -> filter f l = filter g l.
Proof.
  intros A f g l H; induction l as [|a l IH]; simpl; [reflexivity|].
  now rewrite H, IH.
Qed.

(** ** The permission query *)

Lemma select_ok_ignores_overrides :
  forall d ups uid code,
    Permission.select_ok (with_user_permissions d ups) uid code
    = Permission.select_ok d uid code.
Proof. intros; reflexivity. Qed.

Lemma select_ok_iff :
  forall d uid code,
    Permission.select_ok d uid code = true <->
    exists u r rp p,
      In u (users d) /\ In r (roles d) /\ In rp (role_permissions d)
      /\ In p (permissions d)
      /\ user_id u = uid /\ user_role_id u = Some (role_id r)
      /\ rp_role_id rp = role_id r /\ permission_id p = rp_permission_id rp
      /\ permission_code p = code /\ permission_is_active p = 1.
Proof.
  intros d uid code; unfold Permission.select_ok; split.
  - intros H.
    apply existsb_exists in H as (u & Hu & H).
    apply andb_prop in H as (Hid & H).
    apply existsb_exists in H as (r & Hr & H).
    apply andb_prop in H as (Hrole & H).
    apply existsb_exists in H as (rp & Hrp & H).
    apply andb_prop in H as (Hrpr & H).
    apply existsb_exists in H as (p & Hp & H).
    apply andb_prop in H as (H & Hact).
    apply andb_prop in H as (Hpid & Hcode).
    exists u, r, rp, p.
    unfold opt_eq_int in Hrole.
    destruct (user_role_id u) as [rid|] eqn:E; [|discriminate].
    apply Z.eqb_eq in Hid, Hrole, Hrpr, Hpid, Hact.
    apply String.eqb_eq in Hcode.
    subst rid; repeat split; assumption.
  - intros (u & r & rp & p & Hu & Hr & Hrp & Hp & Hid & Hrole & Hrpr & Hpid & Hcode & Hact).
    apply existsb_exists; exists u; split; [assumption|].
    apply andb_true_intro; split; [now apply Z.eqb_eq|].
    apply existsb_exists; exists r; split; [assumption|].
    apply andb_true_intro; split; [rewrite Hrole; simpl; apply Z.eqb_refl|].
    apply existsb_exists; exists rp; split; [assumption|].
    apply andb_true_intro; split; [now apply Z.eqb_eq|].
    apply existsb_exists; exists p; split; [assumption|].
    rewrite Hpid, Hcode, Hact, Z.eqb_refl, String.eqb_refl; reflexivity.
Qed.

(** ** Authorization *)

Section Authorization.
Context {P : Platform}.

(** C5.  A logged-in principal with the admin flag passes every permission
    check the application performs, whatever the store holds (role
    grants, inactive permissions, overrides): the [requirePermission]
    middleware lets the request through, the helper of the work-entry
    routes answers true, and so do the checks written out for the
    dashboard and the reports page and [res.locals.can]. *)
Theorem admin_passes_every_permission_check :
  forall (d : database) (req : request) (user : session_user) (code : string),
    session_user_of (req_session req) = Some user ->
    su_id user <> 0 ->
    is_admin user = true ->
    Permission.requirePermission code d req = None
    /\ WorkEntryRoutes.hasPermission d req code = true
    /\ App.admin_or_hasPermission d (Some user) code = true
    /\ App.canSeeRates d (Some user) = true
    /\ App.canFilterPayType d (Some user) = true
    /\ App.can (Some user) code = true.
Proof.
  intros d req user code Hs Hid Hadm.
  apply Z.eqb_neq in Hid.
  unfold Permission.requirePermission, WorkEntryRoutes.hasPermission,
    App.canSeeRates, App.canFilterPayType,
    App.admin_or_hasPermission, App.can, App.isAdmin.
  rewrite Hs, Hid, Hadm.
  repeat split; reflexivity.
Qed.

(** The exported [hasPermission(userId, code)] has no bypass of its own;
    the bypass at its two call sites is the one written before the call. *)
Lemma exported_hasPermission_is_the_query :
  forall d uid code, Permission.hasPermission d uid code = Permission.select_ok d uid code.
Proof. reflexivity. Qed.

(** So for the administrator of the example store, whose role has no
    grants, the bare query answers false while the check of the dashboard
    answers true. *)
Lemma admin_bypass_is_at_the_call_site :
  Permission.hasPermission Demo.db0 (su_id Demo.admin) "WORK_ENTRY_EDIT_RATES" = false
  /\ App.canSeeRates (P := Demo.platform) Demo.db0 (Some Demo.admin) = true.
Proof. split; reflexivity. Qed.

(** C4, as the code has it.  For a logged-in principal without the admin
    flag every check answers what the role query answers, on any content
    of the [user_permissions] table: the principal is authorized for a
    code exactly when the role assigned to the user row grants a
    permission of that code which is active. *)
Theorem authorization_reads_role_grants_only :
  forall (d : database) (req : request) (user : session_user) (code : string),
    session_user_of (req_session req) = Some user ->
    su_id user <> 0 ->
    is_admin user = false ->
    (forall ups,
        let d' := with_user_permissions d ups in
        WorkEntryRoutes.hasPermission d' req code = Permission.select_ok d (su_id user) code
        /\ Permission.hasPermission d' (su_id user) code
           = Permission.select_ok d (su_id user) code
        /\ (Permission.requirePermission code d' req = None
            <-> Permission.select_ok d (su_id user) code = true))
    /\ (Permission.select_ok d (su_id user) code = true <->
        exists u r rp p,
          In u (users d) /\ In r (roles d) /\ In rp (role_permissions d)
          /\ In p (permissions d)
          /\ user_id u = su_id user /\ user_role_id u = Some (role_id r)
          /\ rp_role_id rp = role_id r /\ permission_id p = rp_permission_id rp
          /\ permission_code p = code /\ permission_is_active p = 1).
Proof.
  intros d req user code Hs Hid Hadm.
  apply Z.eqb_neq in Hid.
  split; [|apply select_ok_iff].
  intros ups d'.
  unfold WorkEntryRoutes.hasPermission, Permission.hasPermission,
    Permission.requirePermission.
  rewrite Hs, Hid, Hadm.
  subst d'; rewrite select_ok_ignores_overrides.
  repeat split.
  - destruct (Permission.select_ok d (su_id user) code); [reflexivity|discriminate].
  - intros H; rewrite H; reflexivity.
Qed.

(** C6, as the code has it.  For a logged-in principal without the admin
    flag whose user row yields [override_limit] and [role_limit]: a
    positive override is the window; an override that is present but
    zero or negative makes the window unlimited, whatever the role says;
    the role's limit is consulted only when there is no override, and
    counts only when positive. *)
Theorem edit_window_days_of_non_admin :
  forall (d : database) (req : request) (user : session_user)
         (override_limit role_limit : option Z),
    session_user_of (req_session req) = Some user ->
    su_id user <> 0 ->
    is_admin user = false ->
    WorkEntryRoutes.select_limits d (su_id user) = Some (override_limit, role_limit) ->
    (forall o, override_limit = Some o -> 0 < o ->
               WorkEntryRoutes.getDaysLimitForUser d req = Some o)
    /\ (forall o, override_limit = Some o -> o <= 0 ->
                  WorkEntryRoutes.getDaysLimitForUser d req = None)
    /\ (forall r, override_limit = None -> role_limit = Some r -> 0 < r ->
                  WorkEntryRoutes.getDaysLimitForUser d req = Some r)
    /\ (forall r, override_limit = None -> role_limit = Some r -> r <= 0 ->
                  WorkEntryRoutes.getDaysLimitForUser d req = None)
    /\ (override_limit = None -> role_limit = None ->
        WorkEntryRoutes.getDaysLimitForUser d req = None).
Proof.
  intros d req user ov rl Hs Hid Hadm Hrow.
  apply Z.eqb_neq in Hid.
  unfold WorkEntryRoutes.getDaysLimitForUser.
  rewrite Hs, Hid, Hadm, Hrow; simpl.
  repeat split.
  - intros o -> Ho. destruct (Z.leb_spec o 0); [lia|reflexivity].
  - intros o -> Ho. destruct (Z.leb_spec o 0); [reflexivity|lia].
  - intros r -> -> Hr. destruct (Z.leb_spec r 0); [lia|reflexivity].
  - intros r -> -> Hr. destruct (Z.leb_spec r 0); [reflexivity|lia].
  - intros -> ->. reflexivity.
Qed.

Lemma listing_names :
  forall d we, Joins.names_of d (WorkEntryRoutes.listing d we).
Proof.
  intros d we. unfold Joins.names_of, WorkEntryRoutes.listing. cbn [lr_entry
    lr_worker_code lr_worker_name lr_job_code lr_job_type lr_wage_tier_name].
  split; [|split].
  - destruct (find _ (workers d)) as [w|] eqn:F.
    + left. apply find_some in F as [Hin Hb]. apply andb_prop in Hb as [H1 H2].
      apply Z.eqb_eq in H1, H2. exists w. repeat split; assumption.
    + right. split; [|split; reflexivity].
      intros w Hin Hid Hco. pose proof (find_none _ _ F w Hin) as X. cbv beta in X.
      rewrite Hid, Hco, !Z.eqb_refl in X. discriminate.
  - destruct (find _ (jobs d)) as [j|] eqn:F.
    + left. apply find_some in F as [Hin Hb]. apply andb_prop in Hb as [H1 H2].
      apply Z.eqb_eq in H1, H2. exists j. repeat split; assumption.
    + right. split; [|split; reflexivity].
      intros j Hin Hid Hco. pose proof (find_none _ _ F j Hin) as X. cbv beta in X.
      rewrite Hid, Hco, !Z.eqb_refl in X. discriminate.
  - destruct (find _ (wage_tiers d)) as [t|] eqn:F.
    + left. apply find_some in F as [Hin Hb]. apply andb_prop in Hb as [H1 H2].
      apply Z.eqb_eq in H2. exists t. repeat split; try assumption.
      unfold opt_eq_int in H1. destruct (we_wage_tier_id we) as [x|]; [|discriminate].
      apply Z.eqb_eq in H1. now subst.
    + right. split; [|reflexivity].
      intros t Hin Hid Hco. pose proof (find_none _ _ F t Hin) as X. cbv beta in X.
      rewrite Hid, Hco in X. simpl in X. rewrite !Z.eqb_refl in X. discriminate.
Qed.

Lemma listing_entries :
  forall d l, map lr_entry (map (WorkEntryRoutes.listing d) l) = l.
Proof.
  intros d l. induction l as [|a l IH]; [reflexivity|].
  cbn [map]. rewrite IH. reflexivity.
Qed.

(** The answer of the listing: the entries of its rows are the stored
    entries the WHERE clause selects, each as often as it is stored, and
    every row shows the names the joins select for its entry. *)
Lemma get_all_rows :
  forall c d req,
  exists rows,
    WorkEntryRoutes.get_all c d req = Json 200 (Rows rows)
    /\ Permutation (map lr_entry rows)
         (filter (WorkEntryRoutes.listed c (WorkEntryRoutes.getCompanyId req)
                    (WorkEntryRoutes.getDaysLimitForUser d req))
                 (work_entries d))
    /\ forall r, In r rows -> Joins.names_of d r.
Proof.
  intros c d req. eexists. split; [reflexivity|]. split.
  - rewrite listing_entries. apply order_by_perm.
  - intros r Hr. apply in_map_iff in Hr as (we & <- & _). apply listing_names.
Qed.

(** C9.  When the query, the body and the session name no company and
    nobody is logged in, the listing resolves the company to 1, applies
    no date filter, and answers with one row for every stored work entry
    of company 1 and no other row; each row holds its entry and the
    names of the worker, the job and the wage tier the entry refers to. *)
Theorem list_falls_back_to_company_1 :
  forall (c : clock) (d : database) (req : request),
    truthy (query_companyId req) = false ->
    truthy (company_id (body req)) = false ->
    truthy (activeCompanyId (req_session req)) = false ->
    session_user_of (req_session req) = None ->
    WorkEntryRoutes.getCompanyId req = 1%float
    /\ WorkEntryRoutes.getDaysLimitForUser d req = None
    /\ exists rows,
         WorkEntryRoutes.get_all c d req = Json 200 (Rows rows)
         /\ Permutation (map lr_entry rows)
              (filter (fun we => we_company_id we =? 1) (work_entries d))
         /\ forall r, In r rows -> Joins.names_of d r.
Proof.
  intros c d req Hq Hb Ha Hu.
  assert (Hc : WorkEntryRoutes.getCompanyId req = 1%float).
  { unfold WorkEntryRoutes.getCompanyId. rewrite Hq, Hb, Ha, Hu. reflexivity. }
  assert (Hl : WorkEntryRoutes.getDaysLimitForUser d req = None).
  { unfold WorkEntryRoutes.getDaysLimitForUser. rewrite Hu. reflexivity. }
  split; [exact Hc|]. split; [exact Hl|].
  destruct (get_all_rows c d req) as (rows & E & Pm & N).
  exists rows. split; [exact E|]. split; [|exact N].
  rewrite Hc, Hl in Pm.
  erewrite filter_ext_in_bool; [exact Pm|].
  intros we. unfold WorkEntryRoutes.listed, WorkEntryRoutes.dateClause.
  rewrite num_eq_int_one, andb_true_r. apply Z.eqb_sym.
Qed.

End Authorization.

Lemma admin_passes_every_permission_check_witness :
  Permission.requirePermission (P := Demo.platform) "WORK_ENTRY_EDIT_RATES"
    Demo.db0 Demo.by_admin = None
  /\ WorkEntryRoutes.hasPermission (P := Demo.platform) Demo.db0 Demo.by_admin
       "WORK_ENTRY_EDIT_RATES" = true
  /\ App.admin_or_hasPermission (P := Demo.platform) Demo.db0 (Some Demo.admin)
       "WORK_ENTRY_EDIT_RATES" = true
  /\ App.canSeeRates (P := Demo.platform) Demo.db0 (Some Demo.admin) = true
  /\ App.canFilterPayType (P := Demo.platform) Demo.db0 (Some Demo.admin) = true
  /\ App.can (P := Demo.platform) (Some Demo.admin) "WORK_ENTRY_EDIT_RATES" = true.
Proof.
  apply (@admin_passes_every_permission_check Demo.platform Demo.db0 Demo.by_admin
           Demo.admin "WORK_ENTRY_EDIT_RATES").
  - reflexivity.
  - discriminate.
  - reflexivity.
Defined.

(** The manager's role grants the active permission WORK_ENTRY_EDIT and
    the manager has a DENY override on it: every check still grants. *)
Lemma deny_override_still_authorized :
  In (mkUserPermission 2 2 DENY) (user_permissions Demo.db0)
  /\ In (mkPermission 2 "WORK_ENTRY_EDIT" 1) (permissions Demo.db0)
  /\ su_id Demo.manager = 2
  /\ is_admin (P := Demo.platform) Demo.manager = false
  /\ WorkEntryRoutes.hasPermission (P := Demo.platform) Demo.db0 Demo.by_manager
       "WORK_ENTRY_EDIT" = true
  /\ Permission.hasPermission Demo.db0 2 "WORK_ENTRY_EDIT" = true
  /\ Permission.requirePermission (P := Demo.platform) "WORK_ENTRY_EDIT"
       Demo.db0 Demo.by_manager = None.
Proof.
  repeat split; try reflexivity; simpl; auto.
Qed.

Lemma authorization_reads_role_grants_only_witness :
  (forall ups,
      let d' := with_user_permissions Demo.db0 ups in
      WorkEntryRoutes.hasPermission (P := Demo.platform) d' Demo.by_manager "WORK_ENTRY_EDIT"
      = Permission.select_ok Demo.db0 2 "WORK_ENTRY_EDIT"
      /\ Permission.hasPermission d' 2 "WORK_ENTRY_EDIT"
         = Permission.select_ok Demo.db0 2 "WORK_ENTRY_EDIT"
      /\ (Permission.requirePermission (P := Demo.platform) "WORK_ENTRY_EDIT" d'
            Demo.by_manager = None
          <-> Permission.select_ok Demo.db0 2 "WORK_ENTRY_EDIT" = true))
  /\ (Permission.select_ok Demo.db0 2 "WORK_ENTRY_EDIT" = true <->
      exists u r rp p,
        In u (users Demo.db0) /\ In r (roles Demo.db0)
        /\ In rp (role_permissions Demo.db0) /\ In p (permissions Demo.db0)
        /\ user_id u = 2 /\ user_role_id u = Some (role_id r)
        /\ rp_role_id rp = role_id r /\ permission_id p = rp_permission_id rp
        /\ permission_code p = "WORK_ENTRY_EDIT" /\ permission_is_active p = 1).
Proof.
  apply (@authorization_reads_role_grants_only Demo.platform Demo.db0 Demo.by_manager
           Demo.manager "WORK_ENTRY_EDIT").
  - reflexivity.
  - discriminate.
  - reflexivity.
Defined.

(** The staff user has the personal limit 0 and a role limit of 30 days:
    the window is unlimited, not 30 days. *)
Lemma zero_override_is_unlimited :
  WorkEntryRoutes.select_limits Demo.db0 (su_id Demo.staff) = Some (Some 0, Some 30)
  /\ is_admin (P := Demo.platform) Demo.staff = false
  /\ WorkEntryRoutes.getDaysLimitForUser (P := Demo.platform) Demo.db0 Demo.by_staff = None
  /\ WorkEntryRoutes.getDaysLimitForUser (P := Demo.platform) Demo.db0 Demo.by_staff
     <> Some 30.
Proof.
  repeat split; try reflexivity. discriminate.
Qed.

Lemma edit_window_days_of_non_admin_witness :
  (forall o, Some 0 = Some o -> 0 < o ->
             WorkEntryRoutes.getDaysLimitForUser (P := Demo.platform) Demo.db0 Demo.by_staff
             = Some o)
  /\ (forall o, Some 0 = Some o -> o <= 0 ->
                WorkEntryRoutes.getDaysLimitForUser (P := Demo.platform) Demo.db0
                  Demo.by_staff = None)
  /\ (forall r, Some 0 = None -> Some 30 = Some r -> 0 < r ->
                WorkEntryRoutes.getDaysLimitForUser (P := Demo.platform) Demo.db0
                  Demo.by_staff = Some r)
  /\ (forall r, Some 0 = None -> Some 30 = Some r -> r <= 0 ->
                WorkEntryRoutes.getDaysLimitForUser (P := Demo.platform) Demo.db0
                  Demo.by_staff = None)
  /\ (Some 0 = None -> Some 30 = None ->
      WorkEntryRoutes.getDaysLimitForUser (P := Demo.platform) Demo.db0 Demo.by_staff = None).
Proof.
  apply (@edit_window_days_of_non_admin Demo.platform Demo.db0 Demo.by_staff Demo.staff
           (Some 0) (Some 30)).
  - reflexivity.
  - discriminate.
  - reflexivity.
  - reflexivity.
Defined.

Lemma list_falls_back_to_company_1_witness :
  WorkEntryRoutes.getCompanyId (P := Demo.platform) Demo.anonymous_list = 1%float
  /\ WorkEntryRoutes.getDaysLimitForUser (P := Demo.platform) Demo.db0 Demo.anonymous_list
     = None
  /\ exists rows,
       WorkEntryRoutes.get_all (P := Demo.platform) Demo.clock0 Demo.db0 Demo.anonymous_list
       = Json 200 (Rows rows)
       /\ Permutation (map lr_entry rows)
            (filter (fun we => we_company_id we =? 1) (work_entries Demo.db0))
       /\ forall r, In r rows -> Joins.names_of Demo.db0 r.
Proof.
  apply (@list_falls_back_to_company_1 Demo.platform Demo.clock0 Demo.db0
           Demo.anonymous_list); reflexivity.
Defined.

(** The two rows of that answer, newest first, each with the names of
    worker 1, job 1 and tier 1. *)
Lemma anonymous_listing_of_the_examples :
  WorkEntryRoutes.get_all (P := Demo.platform) Demo.clock0 Demo.db0 Demo.anonymous_list
  = Json 200
      (Rows [mkListingRow Demo.entry1 (Some "W001") (Some "Mei") (Some "FOOT60")
               (Some "Foot reflexology") (Some "Tier 1");
             mkListingRow Demo.entry2 (Some "W001") (Some "Mei") (Some "FOOT60")
               (Some "Foot reflexology") (Some "Tier 1")]).
Proof. reflexivity. Qed.

(** ** Dates as SQLite prints and compares them *)

Ltac zdiv := Z.div_mod_to_equations.

Lemma civil_of_doe_bounds : forall doe, 0 <= doe < 146097 ->
  let '(y, m, d) := civil_of_doe doe in
  0 <= y <= 400 /\ 1 <= m <= 12 /\ 1 <= d <= 31 /\ (y = 400 -> m <= 2) /\ (y = 0 -> 3 <= m).
Proof.
  intros doe H. unfold civil_of_doe.
  set (yoe := (doe - doe / 1460 + doe / 36524 - doe / 146096) / 365).
  set (doy := doe - (365 * yoe + yoe / 4 - yoe / 100)).
  set (mp := (5 * doy + 2) / 153).
  assert (Hy : 0 <= yoe <= 399) by (subst yoe; zdiv; lia).
  assert (Hd : 0 <= doy <= 365) by (subst doy yoe; zdiv; lia).
  assert (Hm : 0 <= mp <= 11) by (subst mp; zdiv; lia).
  assert (Hday : 1 <= doy - (153 * mp + 2) / 5 + 1 <= 31) by (subst mp; zdiv; lia).
  destruct (Z.ltb_spec mp 10);
    [destruct (Z.leb_spec (mp + 3) 2) | destruct (Z.leb_spec (mp - 9) 2)];
    repeat split; try lia.
Qed.

Lemma civil_of_doe_monotone : forall a b, 0 <= a -> a < b -> b < 146097 ->
  civil_lt (civil_of_doe a) (civil_of_doe b).
Proof.
  intros a b Ha Hab Hb. unfold civil_of_doe, civil_lt.
  set (ya := (a - a / 1460 + a / 36524 - a / 146096) / 365).
  set (yb := (b - b / 1460 + b / 36524 - b / 146096) / 365).
  set (da := a - (365 * ya + ya / 4 - ya / 100)).
  set (db := b - (365 * yb + yb / 4 - yb / 100)).
  set (ma := (5 * da + 2) / 153).
  set (mb := (5 * db + 2) / 153).
  assert (Hyy : ya <= yb) by (subst ya yb; zdiv; lia).
  assert (Hda : 0 <= da <= 365) by (subst da ya; zdiv; lia).
  assert (Hdb : 0 <= db <= 365) by (subst db yb; zdiv; lia).
  assert (Hdd : ya = yb -> da < db) by (intros E; subst da db; rewrite E; lia).
  assert (Hma : 0 <= ma <= 11) by (subst ma; zdiv; lia).
  assert (Hmb : 0 <= mb <= 11) by (subst mb; zdiv; lia).
  assert (Hmm : ya = yb -> ma <= mb) by (intros E; specialize (Hdd E); subst ma mb; zdiv; lia).
  clearbody ma mb.
  destruct (Z.ltb_spec ma 10); destruct (Z.ltb_spec mb 10);
  repeat match goal with |- context [?x <=? 2] => destruct (Z.leb_spec x 2) end;
  try lia; zdiv; lia.
Qed.

Lemma civil_from_days_monotone : forall d1 d2, d1 < d2 ->
  civil_lt (civil_from_days d1) (civil_from_days d2).
Proof.
  intros d1 d2 H. unfold civil_from_days.
  set (z1 := d1 + 719468). set (z2 := d2 + 719468).
  assert (Hz : z1 < z2) by (subst z1 z2; lia).
  assert (B1 : 0 <= z1 mod 146097 < 146097) by (apply Z.mod_pos_bound; lia).
  assert (B2 : 0 <= z2 mod 146097 < 146097) by (apply Z.mod_pos_bound; lia).
  pose proof (civil_of_doe_bounds _ B1) as K1.
  pose proof (civil_of_doe_bounds _ B2) as K2.
  assert (He : z1 / 146097 < z2 / 146097
               \/ (z1 / 146097 = z2 / 146097 /\ z1 mod 146097 < z2 mod 146097))
    by (zdiv; lia).
  destruct He as [He | [He Hm]].
  - destruct (civil_of_doe (z1 mod 146097)) as [[y1 m1] c1].
    destruct (civil_of_doe (z2 mod 146097)) as [[y2 m2] c2].
    unfold civil_lt. lia.
  - pose proof (civil_of_doe_monotone _ _ (proj1 B1) Hm (proj2 B2)) as M.
    destruct (civil_of_doe (z1 mod 146097)) as [[y1 m1] c1].
    destruct (civil_of_doe (z2 mod 146097)) as [[y2 m2] c2].
    unfold civil_lt in *. rewrite He. lia.
Qed.

Lemma civil_from_days_bounds : forall d, in_calendar d = true ->
  civil_printable (civil_from_days d).
Proof.
  intros d H. unfold civil_printable, in_calendar, first_day, last_day in *.
  apply andb_prop in H as [H1 H2]. apply Z.leb_le in H1, H2.
  assert (B : 0 <= (d + 719468) mod 146097 < 146097) by (apply Z.mod_pos_bound; lia).
  pose proof (civil_of_doe_bounds _ B) as K.
  assert (L : d = -719528 \/ -719528 < d) by lia.
  assert (U : d = 2932896 \/ d < 2932896) by lia.
  assert (Ylo : 0 <= fst (fst (civil_from_days d))).
  { destruct L as [->|L]; [vm_compute; discriminate|].
    pose proof (civil_from_days_monotone _ _ L) as M.
    change (civil_from_days (-719528)) with (0, 1, 1) in M.
    destruct (civil_from_days d) as [[y m] c]. simpl in *. lia. }
  assert (Yhi : fst (fst (civil_from_days d)) <= 9999).
  { destruct U as [->|U]; [vm_compute; discriminate|].
    pose proof (civil_from_days_monotone _ _ U) as M.
    change (civil_from_days 2932896) with (9999, 12, 31) in M.
    destruct (civil_from_days d) as [[y m] c]. simpl in *. lia. }
  unfold civil_from_days in *.
  destruct (civil_of_doe ((d + 719468) mod 146097)) as [[y m] c]. simpl in *. lia.
Qed.

(** Text comparison of printed dates. *)
Lemma digit_compare : forall a b,
  Ascii.compare (digit a) (digit b) = (a mod 10 ?= b mod 10).
Proof.
  intros a b. unfold Ascii.compare, digit.
  assert (Ha : 0 <= a mod 10 < 10) by (apply Z.mod_pos_bound; lia).
  assert (Hb : 0 <= b mod 10 < 10) by (apply Z.mod_pos_bound; lia).
  rewrite !N_ascii_embedding by lia.
  rewrite Z2N.inj_compare by lia.
  apply Z.add_compare_mono_l.
Qed.

Lemma compare_pad2 : forall n1 n2 s1 s2,
  String.compare (pad2 n1 ++ s1) (pad2 n2 ++ s2)
  = match n1 mod 100 ?= n2 mod 100 with Eq => String.compare s1 s2 | c => c end.
Proof.
  intros n1 n2 s1 s2. unfold pad2. cbn [append String.compare].
  rewrite !digit_compare.
  destruct (Z.compare_spec (n1 / 10 mod 10) (n2 / 10 mod 10));
  destruct (Z.compare_spec (n1 mod 10) (n2 mod 10));
  destruct (Z.compare_spec (n1 mod 100) (n2 mod 100)); try reflexivity; exfalso; zdiv; lia.
Qed.

Lemma compare_pad2_nil : forall n1 n2,
  String.compare (pad2 n1) (pad2 n2) = (n1 mod 100 ?= n2 mod 100).
Proof.
  intros n1 n2.
  change (pad2 n1) with (pad2 n1 ++ "")%string.
  change (pad2 n2) with (pad2 n2 ++ "")%string.
  rewrite compare_pad2. now destruct (n1 mod 100 ?= n2 mod 100).
Qed.

Lemma compare_pad4 : forall n1 n2 s1 s2,
  0 <= n1 < 10000 -> 0 <= n2 < 10000 ->
  String.compare (pad4 n1 ++ s1) (pad4 n2 ++ s2)
  = match n1 ?= n2 with Eq => String.compare s1 s2 | c => c end.
Proof.
  intros n1 n2 s1 s2 H1 H2.
  change (pad4 n1 ++ s1)%string with (pad2 (n1 / 100) ++ (pad2 n1 ++ s1))%string.
  change (pad4 n2 ++ s2)%string with (pad2 (n2 / 100) ++ (pad2 n2 ++ s2))%string.
  rewrite !compare_pad2.
  destruct (Z.compare_spec ((n1 / 100) mod 100) ((n2 / 100) mod 100));
  destruct (Z.compare_spec (n1 mod 100) (n2 mod 100));
  destruct (Z.compare_spec n1 n2); try reflexivity; exfalso; zdiv; lia.
Qed.

Lemma iso_of_civil_lt : forall a b,
  civil_printable a -> civil_printable b -> civil_lt a b ->
  String.compare (iso_of_civil a) (iso_of_civil b) = Lt.
Proof.
  intros [[y1 m1] c1] [[y2 m2] c2] B1 B2 H.
  unfold iso_of_civil, civil_lt, civil_printable in *.
  rewrite compare_pad4 by lia.
  destruct (Z.compare_spec y1 y2) as [Ey|Ly|Gy]; [|reflexivity|lia].
  change ("-" ++ pad2 m1 ++ "-" ++ pad2 c1)%string
    with (String "-" (pad2 m1 ++ String "-" (pad2 c1))).
  change ("-" ++ pad2 m2 ++ "-" ++ pad2 c2)%string
    with (String "-" (pad2 m2 ++ String "-" (pad2 c2))).
  cbn [String.compare]. change (Ascii.compare "-" "-") with Eq. cbv iota.
  rewrite compare_pad2, !Z.mod_small by lia.
  destruct (Z.compare_spec m1 m2) as [Em|Lm|Gm]; [|reflexivity|lia].
  cbn [String.compare]. change (Ascii.compare "-" "-") with Eq. cbv iota.
  rewrite compare_pad2_nil, !Z.mod_small by lia.
  apply Z.compare_lt_iff. lia.
Qed.

Lemma iso_date_leb : forall d1 d2,
  in_calendar d1 = true -> in_calendar d2 = true ->
  String.leb (iso_date d1) (iso_date d2) = (d1 <=? d2).
Proof.
  intros d1 d2 H1 H2. unfold String.leb, iso_date.
  pose proof (civil_from_days_bounds _ H1) as B1.
  pose proof (civil_from_days_bounds _ H2) as B2.
  destruct (Z.leb_spec d1 d2) as [L|G].
  - assert (E : d1 = d2 \/ d1 < d2) by lia. destruct E as [->|L'].
    + pose proof (String.compare_antisym (iso_of_civil (civil_from_days d2))
                    (iso_of_civil (civil_from_days d2))) as A.
      destruct (String.compare _ _); try reflexivity; discriminate.
    + rewrite (iso_of_civil_lt _ _ B1 B2 (civil_from_days_monotone _ _ L')). reflexivity.
  - rewrite String.compare_antisym.
    rewrite (iso_of_civil_lt _ _ B2 B1 (civil_from_days_monotone _ _ G)). reflexivity.
Qed.

(** ** Updating a work entry *)

Section Update.
Context {P : Platform}.

Lemma find_replace_row :
  forall (f : work_entry -> bool) (row old : work_entry) (l : list work_entry),
    find f l = Some old -> we_id row = we_id old -> f row = true ->
    find f (WorkEntryRoutes.replace_row row l) = Some row.
Proof.
  intros f row old l; induction l as [|a l IH]; simpl; intros Hf Hid Hrow.
  - discriminate.
  - destruct (f a) eqn:Fa.
    + injection Hf as ->. rewrite Hid, Z.eqb_refl. simpl. now rewrite Hrow.
    + destruct (we_id a =? we_id row); simpl.
      * now rewrite Hrow.
      * rewrite Fa. now apply IH.
Qed.

Lemma store_row_fields :
  forall d id company created v row,
    WorkEntryRoutes.store_row d id company created v = inr row ->
    we_id row = id /\ we_company_id row = company
    /\ we_amount row = WorkEntryRoutes.v_amount v
    /\ we_customer_rate row = WorkEntryRoutes.v_customer_rate v
    /\ we_customer_total row = WorkEntryRoutes.v_customer_total v
    /\ we_wage_rate row = WorkEntryRoutes.v_wage_rate v
    /\ we_wage_total row = WorkEntryRoutes.v_wage_total v
    /\ we_rate row = WorkEntryRoutes.v_rate v
    /\ we_pay row = WorkEntryRoutes.v_pay v.
Proof.
  intros d id company created v row. unfold WorkEntryRoutes.store_row.
  destruct (bind_number (WorkEntryRoutes.v_worker_id v)) as [|wk|x];
    try discriminate;
    destruct (bind_text (WorkEntryRoutes.v_work_date v)); try discriminate;
    destruct (WorkEntryRoutes.first_nan _); try discriminate;
    destruct (existsb _ (work_entries d)); try discriminate.
  destruct (WorkEntryRoutes.v_wage_tier_id v) as [|t|y]; try discriminate.
  - destruct (_ && _); [|discriminate].
    intros H; injection H as <-. simpl. repeat split; reflexivity.
  - destruct (existsb _ (wage_tiers d)); [|discriminate].
    destruct (_ && _); [|discriminate].
    intros H; injection H as <-. simpl. repeat split; reflexivity.
Qed.

Lemma addressed_same :
  forall id company a b,
    we_id a = we_id b -> we_company_id a = we_company_id b ->
    WorkEntryRoutes.addressed id company a = WorkEntryRoutes.addressed id company b.
Proof. intros id company a b H1 H2. unfold WorkEntryRoutes.addressed. now rewrite H1, H2. Qed.

(** What a run of the UPDATE leaves behind. *)
Lemma run_update_cases :
  forall d id company v changes d',
    WorkEntryRoutes.run_update d id company v = inr (changes, d') ->
    (changes = 0 /\ d' = d)
    \/ (changes = 1 /\ exists old row,
          WorkEntryRoutes.stored_entry d id company = Some old
          /\ WorkEntryRoutes.store_row d (we_id old) (we_company_id old) (we_created_at old) v
             = inr row
          /\ WorkEntryRoutes.stored_entry d' id company = Some row).
Proof.
  intros d id company v changes d'. unfold WorkEntryRoutes.run_update.
  destruct (WorkEntryRoutes.stored_entry d id company) as [old|] eqn:Hold.
  - destruct (WorkEntryRoutes.store_row _ _ _ _ _) as [e|row] eqn:Hrow; [discriminate|].
    intros H; injection H as <- <-. right. split; [reflexivity|].
    exists old, row. repeat split; try assumption.
    apply store_row_fields in Hrow as (Hid & Hco & _).
    unfold WorkEntryRoutes.stored_entry in *. simpl.
    apply (find_replace_row _ row old); [assumption|assumption|].
    rewrite (addressed_same id company row old) by congruence.
    now apply find_some in Hold.
  - intros H; injection H as <- <-. left. split; reflexivity.
Qed.

Lemma doUpdate_frame :
  forall d req id company jobId hrs tier fees can cr ct wr wt,
    is_updated (fst (WorkEntryRoutes.doUpdate d req id company jobId hrs tier fees can cr ct wr wt))
    = false ->
    snd (WorkEntryRoutes.doUpdate d req id company jobId hrs tier fees can cr ct wr wt) = d.
Proof.
  intros d req id company jobId hrs tier fees can cr ct wr wt.
  unfold WorkEntryRoutes.doUpdate.
  destruct (trim_or_null (job_no2 (body req))); [|reflexivity].
  destruct (trim_or_null (note (body req))); [|reflexivity].
  destruct (WorkEntryRoutes.run_update _ _ _ _) as [e|[changes d']] eqn:R.
  - destruct (WorkEntryRoutes.is_job_no1_conflict e); reflexivity.
  - destruct (run_update_cases _ _ _ _ _ _ R) as [[-> ->]|[-> _]]; simpl.
    + reflexivity.
    + discriminate.
Qed.

Lemma doUpdate_updated :
  forall d req id company jobId hrs tier fees can cr ct wr wt changes can' fees' d',
    WorkEntryRoutes.doUpdate d req id company jobId hrs tier fees can cr ct wr wt
    = (Json 200 (Updated changes can' fees'), d') ->
    exists row,
      WorkEntryRoutes.stored_entry d' id company = Some row
      /\ we_amount row = hrs
      /\ we_customer_rate row = cr /\ we_customer_total row = ct
      /\ we_wage_rate row = wr /\ we_wage_total row = wt
      /\ we_rate row = wr /\ we_pay row = wt.
Proof.
  intros d req id company jobId hrs tier fees can cr ct wr wt changes can' fees' d'.
  unfold WorkEntryRoutes.doUpdate.
  destruct (trim_or_null (job_no2 (body req))); [|discriminate].
  destruct (trim_or_null (note (body req))); [|discriminate].
  destruct (WorkEntryRoutes.run_update _ _ _ _) as [e|[ch d1]] eqn:R.
  - destruct (WorkEntryRoutes.is_job_no1_conflict e); discriminate.
  - destruct (run_update_cases _ _ _ _ _ _ R) as [[-> ->]|[-> (old & row & Hold & Hrow & Hnew)]];
      simpl; [discriminate|].
    intros H; injection H as _ _ _ <-.
    exists row. split; [assumption|].
    apply store_row_fields in Hrow as (_ & _ & Ha & Hcr & Hct & Hwr & Hwt & Hr & Hp).
    simpl in *. repeat split; assumption.
Qed.

Lemma put_existing_frame :
  forall d req id company hrs existing,
    is_updated (fst (WorkEntryRoutes.put_existing d req id company hrs existing)) = false ->
    snd (WorkEntryRoutes.put_existing d req id company hrs existing) = d.
Proof.
  intros d req id company hrs existing. unfold WorkEntryRoutes.put_existing.
  destruct (WorkEntryRoutes.select_job _ _ _); [|reflexivity].
  destruct (_ && negb _); [reflexivity|].
  destruct (WorkEntryRoutes.is_negative _); [reflexivity|].
  destruct (negb _).
  - destruct (WorkEntryRoutes.select_rates _ _ _ _) as [[rc rw]|]; [|reflexivity].
    destruct (WorkEntryRoutes.not_positive _); [reflexivity|].
    destruct (WorkEntryRoutes.not_positive _); [reflexivity|].
    apply doUpdate_frame.
  - destruct (WorkEntryRoutes.not_positive _); [reflexivity|].
    destruct (WorkEntryRoutes.not_positive _); [reflexivity|].
    apply doUpdate_frame.
Qed.

Lemma put_frame :
  forall c d req,
    is_updated (fst (WorkEntryRoutes.put c d req)) = false ->
    snd (WorkEntryRoutes.put c d req) = d.
Proof.
  intros c d req. unfold WorkEntryRoutes.put, WorkEntryRoutes.put_handler.
  destruct (Permission.requirePermission _ _ _); [reflexivity|].
  destruct (WorkEntryRoutes.put_validate req); [reflexivity|].
  destruct (WorkEntryRoutes.select_entry _ _ _ _ _); [|reflexivity].
  apply put_existing_frame.
Qed.



Lemma requirePermission_not_updated :
  forall code d req r,
    Permission.requirePermission code d req = Some r -> is_updated r = false.
Proof.
  intros code d req r.
  unfold Permission.requirePermission, Permission.unauthorized, Permission.forbidden.
  destruct (session_user_of _) as [u|];
    [|destruct (is_api req); intros H; injection H as <-; reflexivity].
  destruct (su_id u =? 0);
    [destruct (is_api req); intros H; injection H as <-; reflexivity|].
  destruct (is_admin u); [discriminate|].
  destruct (Permission.select_ok _ _ _); [discriminate|].
  destruct (is_api req); intros H; injection H as <-; reflexivity.
Qed.

Lemma put_validate_not_updated :
  forall req r, WorkEntryRoutes.put_validate req = Some r -> is_updated r = false.
Proof.
  intros req r. unfold WorkEntryRoutes.put_validate.
  repeat match goal with |- context [if ?b then _ else _] => destruct b end;
    intros V; try discriminate; injection V as <-; reflexivity.
Qed.


Lemma put_reaches_existing :
  forall c d req existing,
    Permission.requirePermission "WORK_ENTRY_EDIT" d req = None ->
    WorkEntryRoutes.put_validate req = None ->
    WorkEntryRoutes.select_entry c d (StringToNumber (params_id req))
      (WorkEntryRoutes.getCompanyId req) (WorkEntryRoutes.getDaysLimitForUser d req)
    = Some existing ->
    WorkEntryRoutes.put c d req
    = WorkEntryRoutes.put_existing d req (StringToNumber (params_id req))
        (WorkEntryRoutes.getCompanyId req) (ToNumber (amount (body req))) existing.
Proof.
  intros c d req existing Hp Hv He.
  unfold WorkEntryRoutes.put, WorkEntryRoutes.put_handler.
  now rewrite Hp, Hv, He.
Qed.

(** C2.  The principal lacks WORK_ENTRY_EDIT_RATES and the request
    supplies a customer rate or a wage rate that is not null and differs,
    as a number, from the value stored in the loaded entry.  Then the
    store is left as it was and the answer is never "Updated"; and when
    the request gets as far as the rate check (edit permission, a valid
    body, a job code that resolves), the answer is RateEditForbidden. *)
Theorem rate_change_without_capability_is_refused :
  forall (c : clock) (d : database) (req : request) (existing : work_entry),
    WorkEntryRoutes.select_entry c d (StringToNumber (params_id req))
      (WorkEntryRoutes.getCompanyId req) (WorkEntryRoutes.getDaysLimitForUser d req)
    = Some existing ->
    WorkEntryRoutes.hasPermission d req "WORK_ENTRY_EDIT_RATES" = false ->
    (nullish (customer_rate (body req)) = false
     /\ PrimFloat.eqb (ToNumber (customer_rate (body req))) (we_customer_rate existing) = false)
    \/ (nullish (wage_rate (body req)) = false
        /\ PrimFloat.eqb (ToNumber (wage_rate (body req))) (we_wage_rate existing) = false) ->
    snd (WorkEntryRoutes.put c d req) = d
    /\ is_updated (fst (WorkEntryRoutes.put c d req)) = false
    /\ (forall jobRow,
          Permission.requirePermission "WORK_ENTRY_EDIT" d req = None ->
          WorkEntryRoutes.put_validate req = None ->
          WorkEntryRoutes.select_job d (WorkEntryRoutes.getCompanyId req)
            (trim (ToString (job_code (body req)))) = Some jobRow ->
          WorkEntryRoutes.put c d req = (RateEditForbidden, d)).
Proof.
  intros c d req existing He Hcap Hdiff.
  assert (Hw : WorkEntryRoutes.wantsRateChange (body req) existing = true).
  { unfold WorkEntryRoutes.wantsRateChange.
    destruct Hdiff as [[-> ->]|[-> ->]]; simpl; [reflexivity|apply orb_true_r]. }
  assert (Hup : is_updated (fst (WorkEntryRoutes.put c d req)) = false).
  { unfold WorkEntryRoutes.put, WorkEntryRoutes.put_handler.
    destruct (Permission.requirePermission _ _ _) as [r|] eqn:Hp.
    { now apply requirePermission_not_updated in Hp. }
    destruct (WorkEntryRoutes.put_validate req) as [r|] eqn:V.
    { now apply put_validate_not_updated in V. }
    rewrite He. unfold WorkEntryRoutes.put_existing.
    destruct (WorkEntryRoutes.select_job _ _ _); [|reflexivity].
    rewrite Hw, Hcap. reflexivity. }
  split; [now apply put_frame|]. split; [assumption|].
  intros jobRow Hp Hv Hj.
  rewrite (put_reaches_existing _ _ _ _ Hp Hv He).
  unfold WorkEntryRoutes.put_existing. rewrite Hj, Hw, Hcap. reflexivity.
Qed.

Lemma job_by_id_of_select_job :
  forall d company code jobRow,
    WorkEntryRoutes.select_job d company code = Some jobRow ->
    exists j, WorkEntryRoutes.job_by_id d (job_id jobRow) company = Some j
              /\ job_id j = job_id jobRow
              /\ num_eq_int company (job_company_id j) = true.
Proof.
  intros d company code jobRow H.
  unfold WorkEntryRoutes.select_job in H. apply find_some in H as [Hin Hc].
  apply andb_prop in Hc as [Hc _].
  unfold WorkEntryRoutes.job_by_id.
  destruct (find _ (jobs d)) as [j|] eqn:F.
  - exists j. apply find_some in F as [_ F]. apply andb_prop in F as [F1 F2].
    apply Z.eqb_eq in F1. repeat split; assumption.
  - exfalso. apply (find_none _ _ F) in Hin. simpl in Hin.
    rewrite Z.eqb_refl, Hc in Hin. discriminate.
Qed.

(** C3, as the code has it.  An update by a principal who cannot edit
    rates that reaches the rate resolution: the customer rate is the base
    price of the job and the wage rate that of the [job_wages] row of the
    job and the resolved tier, 0 when there is no such row; nothing of
    this depends on the rates in the request.  If either fails the test
    [!Number.isFinite(x) || x <= 0] (it is not finite, or not strictly
    positive) the answer is RateResolutionFailed and the store is left as
    it was; otherwise the update statement is run with these rates and
    their products with the hours, and an "Updated" answer means the
    stored row holds them. *)
Theorem restricted_update_resolves_rates_from_job_and_tier :
  forall (c : clock) (d : database) (req : request) (existing : work_entry) (jobRow : job),
    Permission.requirePermission "WORK_ENTRY_EDIT" d req = None ->
    WorkEntryRoutes.put_validate req = None ->
    WorkEntryRoutes.select_entry c d (StringToNumber (params_id req))
      (WorkEntryRoutes.getCompanyId req) (WorkEntryRoutes.getDaysLimitForUser d req)
    = Some existing ->
    WorkEntryRoutes.select_job d (WorkEntryRoutes.getCompanyId req)
      (trim (ToString (job_code (body req)))) = Some jobRow ->
    WorkEntryRoutes.hasPermission d req "WORK_ENTRY_EDIT_RATES" = false ->
    WorkEntryRoutes.wantsRateChange (body req) existing = false ->
    WorkEntryRoutes.is_negative (toNumOrNull (fees_collected (body req))) = false ->
    exists j,
      WorkEntryRoutes.job_by_id d (job_id jobRow) (WorkEntryRoutes.getCompanyId req) = Some j
      /\ job_id j = job_id jobRow
      /\ let hours := ToNumber (amount (body req)) in
         let customerRate := WorkEntryRoutes.number_or_zero (job_normal_price j) in
         let wageRate :=
           WorkEntryRoutes.number_or_zero
             match WorkEntryRoutes.joined_wage d
                     (WorkEntryRoutes.finalTierId (body req) existing) j with
             | Some jw => jw_wage_rate jw
             | None => 0%float
             end in
         (WorkEntryRoutes.not_positive customerRate = true
          \/ WorkEntryRoutes.not_positive wageRate = true ->
          RateResolutionFailed (fst (WorkEntryRoutes.put c d req))
          /\ snd (WorkEntryRoutes.put c d req) = d)
         /\ (WorkEntryRoutes.not_positive customerRate = false ->
             WorkEntryRoutes.not_positive wageRate = false ->
             WorkEntryRoutes.put c d req
             = WorkEntryRoutes.doUpdate d req (StringToNumber (params_id req))
                 (WorkEntryRoutes.getCompanyId req) (job_id jobRow) hours
                 (WorkEntryRoutes.finalTierId (body req) existing)
                 (toNumOrNull (fees_collected (body req))) false
                 customerRate (customerRate * hours)%float
                 wageRate (wageRate * hours)%float
             /\ forall changes can fees d',
                  WorkEntryRoutes.put c d req = (Json 200 (Updated changes can fees), d') ->
                  exists row,
                    WorkEntryRoutes.stored_entry d' (StringToNumber (params_id req))
                      (WorkEntryRoutes.getCompanyId req) = Some row
                    /\ we_customer_rate row = customerRate
                    /\ we_customer_total row = (customerRate * hours)%float
                    /\ we_wage_rate row = wageRate
                    /\ we_wage_total row = (wageRate * hours)%float).
Proof.
  intros c d req existing jobRow Hp Hv He Hj Hcap Hw Hfees.
  destruct (job_by_id_of_select_job _ _ _ _ Hj) as (j & Hjid & Hid & _).
  exists j. split; [assumption|]. split; [assumption|].
  intros hours customerRate wageRate.
  assert (E : WorkEntryRoutes.put c d req
              = if WorkEntryRoutes.not_positive customerRate
                then (Json 400 (Error "Invalid customer rate for this job."), d)
                else if WorkEntryRoutes.not_positive wageRate
                then (Json 400 (Error "Invalid wage rate for this wage tier."), d)
                else WorkEntryRoutes.doUpdate d req (StringToNumber (params_id req))
                       (WorkEntryRoutes.getCompanyId req) (job_id jobRow) hours
                       (WorkEntryRoutes.finalTierId (body req) existing)
                       (toNumOrNull (fees_collected (body req))) false
                       customerRate (customerRate * hours)%float
                       wageRate (wageRate * hours)%float).
  { rewrite (put_reaches_existing _ _ _ _ Hp Hv He).
    unfold WorkEntryRoutes.put_existing.
    rewrite Hj, Hw, Hcap, Hfees. simpl.
    unfold WorkEntryRoutes.select_rates. rewrite Hjid. reflexivity. }
  split.
  - intros Hbad. rewrite E.
    destruct (WorkEntryRoutes.not_positive customerRate).
    + split; [constructor|reflexivity].
    + destruct Hbad as [Hbad|Hbad]; [discriminate|]. rewrite Hbad.
      split; [constructor|reflexivity].
  - intros Hc Hwg. rewrite E, Hc, Hwg. split; [reflexivity|].
    intros changes can fees d' H.
    apply doUpdate_updated in H as (row & Hs & _ & Hcr & Hct & Hwr & Hwt & _).
    exists row. repeat split; assumption.
Qed.

Lemma select_entry_of_single :
  forall c d id company limit entry,
    filter (WorkEntryRoutes.addressed id company) (work_entries d) = [entry] ->
    WorkEntryRoutes.select_entry c d id company limit
    = if WorkEntryRoutes.dateClause c limit entry then Some entry else None.
Proof.
  intros c d id company limit entry. unfold WorkEntryRoutes.select_entry.
  induction (work_entries d) as [|a l IH]; simpl; [discriminate|].
  destruct (WorkEntryRoutes.addressed id company a) eqn:A; simpl.
  - intros H; injection H as -> Hl.
    destruct (WorkEntryRoutes.dateClause c limit entry); [reflexivity|].
    clear IH A. induction l as [|b l IHl]; simpl in *; [reflexivity|].
    destruct (WorkEntryRoutes.addressed id company b); [discriminate|].
    simpl. now apply IHl.
  - exact IH.
Qed.

Lemma dateClause_iso :
  forall c n entry e,
    we_work_date entry = iso_date e ->
    in_calendar e = true -> in_calendar (today c - n) = true ->
    WorkEntryRoutes.dateClause c (Some n) entry = (today c - n <=? e).
Proof.
  intros c n entry e Hd He Hc.
  unfold WorkEntryRoutes.dateClause, date_now_minus_days, date_on_or_after.
  rewrite Hc, Hd. now apply iso_date_leb.
Qed.

(** The edit window on work dates in ISO form.  The request passes the
    permission check and the checks on its body, and [entry], dated day
    [e] and stored as [YYYY-MM-DD], is the row stored under its id and
    company.  With a window of [n] days the date clause, and with it
    [ensureRowWithinLimit], selects the entry exactly when
    [today - n <= e]: an older entry answers OutOfEditWindow and the store
    is left as it was, an entry on or after the boundary is handed to the
    rest of the handler.  Without a window every date is. *)
Theorem edit_window_gates_update :
  forall (c : clock) (d : database) (req : request) (entry : work_entry)
         (limit : option Z) (e : Z),
    Permission.requirePermission "WORK_ENTRY_EDIT" d req = None ->
    WorkEntryRoutes.put_validate req = None ->
    WorkEntryRoutes.getDaysLimitForUser d req = limit ->
    filter (WorkEntryRoutes.addressed (StringToNumber (params_id req))
              (WorkEntryRoutes.getCompanyId req)) (work_entries d) = [entry] ->
    we_work_date entry = iso_date e ->
    in_calendar e = true ->
    (forall n, limit = Some n -> in_calendar (today c - n) = true ->
       (WorkEntryRoutes.dateClause c limit entry = true <-> today c - n <= e)
       /\ (WorkEntryRoutes.ensureRowWithinLimit c d (StringToNumber (params_id req))
             (WorkEntryRoutes.getCompanyId req) limit = true <-> today c - n <= e)
       /\ (e < today c - n ->
           WorkEntryRoutes.put c d req = (OutOfEditWindow, d))
       /\ (today c - n <= e ->
           WorkEntryRoutes.put c d req
           = WorkEntryRoutes.put_existing d req (StringToNumber (params_id req))
               (WorkEntryRoutes.getCompanyId req) (ToNumber (amount (body req))) entry))
    /\ (limit = None ->
        WorkEntryRoutes.put c d req
        = WorkEntryRoutes.put_existing d req (StringToNumber (params_id req))
            (WorkEntryRoutes.getCompanyId req) (ToNumber (amount (body req))) entry).
Proof.
  intros c d req entry limit e Hp Hv Hl Hrow Hdate He.
  pose proof (select_entry_of_single c d _ _ limit entry Hrow) as S.
  split.
  - intros n -> Hc.
    unfold WorkEntryRoutes.ensureRowWithinLimit.
    rewrite (dateClause_iso c n entry e Hdate He Hc) in *.
    split; [apply Z.leb_le|].
    split; [rewrite S; destruct (Z.leb_spec (today c - n) e); split;
            intros; [assumption|reflexivity|discriminate|lia]|].
    split.
    + intros Hlt. destruct (Z.leb_spec (today c - n) e); [lia|].
      unfold WorkEntryRoutes.put, WorkEntryRoutes.put_handler.
      rewrite Hp, Hv, Hl, S. reflexivity.
    + intros Hle. destruct (Z.leb_spec (today c - n) e); [|lia].
      apply put_reaches_existing; try assumption. now rewrite Hl.
  - intros ->. simpl in S.
    apply put_reaches_existing; try assumption. now rewrite Hl.
Qed.

End Update.

(** ** Snapshots *)

Section Snapshots.
Context {P : Platform}.

Lemma run_update_job_work_entries :
  forall d jobId company code type price active changes d',
    JobRoutes.run_update_job d jobId company code type price active = inr (changes, d') ->
    work_entries d' = work_entries d.
Proof.
  intros d jobId company code type price active changes d'.
  unfold JobRoutes.run_update_job.
  destruct (find _ (jobs d)) as [old|].
  - destruct (bind_text code); [|discriminate].
    destruct (bind_text type); [|discriminate].
    destruct (PrimFloat.is_nan price); [discriminate|].
    destruct (bind_number active); try discriminate;
      destruct (existsb _ (jobs d)); try discriminate;
      intros H; injection H as _ <-; reflexivity.
  - intros H; injection H as _ <-; reflexivity.
Qed.

Lemma run_upsert_wage_work_entries :
  forall d company jobId r,
    work_entries (JobRoutes.run_upsert_wage d company jobId r) = work_entries d.
Proof.
  intros d company jobId [tier rate]. unfold JobRoutes.run_upsert_wage.
  destruct (bind_number company); try reflexivity.
  destruct (bind_number jobId); try reflexivity.
  destruct (bind_number tier); try reflexivity.
  destruct (PrimFloat.is_nan rate); [reflexivity|].
  destruct (existsb _ (job_wages d)); [reflexivity|].
  destruct (_ && _ && _); reflexivity.
Qed.

Lemma upserts_work_entries :
  forall rates d company jobId,
    work_entries (fold_left (fun acc r => JobRoutes.run_upsert_wage acc company jobId r) rates d)
    = work_entries d.
Proof.
  induction rates as [|r rates IH]; intros d company jobId; simpl; [reflexivity|].
  rewrite IH. apply run_upsert_wage_work_entries.
Qed.

Lemma job_put_work_entries :
  forall d req, work_entries (snd (JobRoutes.put d req)) = work_entries d.
Proof.
  intros d req. unfold JobRoutes.put.
  destruct (JobRoutes.run_update_job _ _ _ _ _ _ _) as [e|[changes d']] eqn:R; [reflexivity|].
  apply run_update_job_work_entries in R.
  destruct (changes =? 0); simpl; [assumption|].
  now rewrite upserts_work_entries.
Qed.

End Snapshots.

(** A create of 3 hours at customer rate 50 whose body carries the total
    100 stores 100: the handler stores the total of the request and never
    computes one. *)
Lemma create_stores_the_supplied_total :
  exists d' row,
    WorkEntryRoutes.post (P := Demo.platform) Demo.clock0 Demo.db0 Demo.create_100
    = (Json 201 (Created 3 100%float), d')
    /\ WorkEntryRoutes.stored_entry d' 3%float 1%float = Some row
    /\ we_customer_rate row = 50%float
    /\ we_amount row = 3%float
    /\ we_customer_total row = 100%float
    /\ we_customer_total row <> 150%float.
Proof.
  eexists; eexists. split; [reflexivity|]. split; [reflexivity|].
  repeat split; try reflexivity. discriminate.
Qed.

(** C1, as the code has it.  An update of a job (its base price and any of its
    [job_wages] rows) leaves the [work_entries] table as it was, hence
    every stored customer rate, customer total, wage rate and wage total.
    In particular the entry created with customer rate 50, 3 hours and
    the supplied customer total 150 stores 150, and still stores 150
    after the job's price has gone from 30 to 80. *)
Theorem job_update_leaves_work_entries_unchanged :
  (forall (P : Platform) (d : database) (req : JobRoutes.job_request),
      work_entries (snd (JobRoutes.put d req)) = work_entries d
      /\ forall id company,
           WorkEntryRoutes.stored_entry (snd (JobRoutes.put d req)) id company
           = WorkEntryRoutes.stored_entry d id company)
  /\ (let created :=
        WorkEntryRoutes.post (P := Demo.platform) Demo.clock0 Demo.db0 Demo.create_150 in
      let repriced := JobRoutes.put (P := Demo.platform) (snd created) Demo.reprice in
      fst created = Json 201 (Created 3 150%float)
      /\ option_map we_customer_total
           (WorkEntryRoutes.stored_entry (snd created) 3%float 1%float) = Some 150%float
      /\ fst repriced = Json 200 (Message "Job updated")
      /\ option_map job_normal_price
           (WorkEntryRoutes.job_by_id (snd repriced) 1 1%float) = Some 80%float
      /\ option_map we_customer_total
           (WorkEntryRoutes.stored_entry (snd repriced) 3%float 1%float) = Some 150%float).
Proof.
  split.
  - intros P d req. pose proof (job_put_work_entries d req) as H.
    split; [assumption|].
    intros id company. unfold WorkEntryRoutes.stored_entry. now rewrite H.
  - repeat split; reflexivity.
Qed.

(** The create handler reads the session only to resolve the company:
    when the query names the company, the answer and the next store are
    the same for every principal, and for none. *)
Lemma post_ignores_the_principal :
  forall (P : Platform) (c : clock) (d : database) (q : jsval) (id : string)
         (b : entry_body) (s1 s2 : session) (api1 api2 : bool),
    truthy q = true ->
    WorkEntryRoutes.post c d (mkRequest q id b s1 api1)
    = WorkEntryRoutes.post c d (mkRequest q id b s2 api2).
Proof.
  intros P c d q id b s1 s2 api1 api2 Hq.
  unfold WorkEntryRoutes.post, WorkEntryRoutes.getCompanyId. simpl.
  rewrite Hq. reflexivity.
Qed.

(** C8 on the code.  The staff user's role does not grant
    WORK_ENTRY_CREATE, so [requirePermission("WORK_ENTRY_CREATE")] would
    answer Forbidden; the route runs no such check, and the create
    answers 201 and inserts the row.  The same create without any
    session is inserted as well. *)
Lemma create_is_not_gated :
  Permission.select_ok Demo.db0 (su_id Demo.staff) "WORK_ENTRY_CREATE" = false
  /\ Permission.requirePermission (P := Demo.platform) "WORK_ENTRY_CREATE"
       Demo.db0 Demo.create_150 = Some (Forbidden "WORK_ENTRY_CREATE")
  /\ fst (WorkEntryRoutes.post (P := Demo.platform) Demo.clock0 Demo.db0 Demo.create_150)
     = Json 201 (Created 3 150%float)
  /\ List.length (work_entries
                    (snd (WorkEntryRoutes.post (P := Demo.platform) Demo.clock0 Demo.db0
                            Demo.create_150)))
     = S (List.length (work_entries Demo.db0))
  /\ Permission.requirePermission (P := Demo.platform) "WORK_ENTRY_CREATE"
       Demo.db0 Demo.create_anonymous = Some Unauthenticated
  /\ fst (WorkEntryRoutes.post (P := Demo.platform) Demo.clock0 Demo.db0
            Demo.create_anonymous)
     = Json 201 (Created 3 150%float).
Proof. repeat split; reflexivity. Qed.

(** C7 on the code.  The work date of an entry is the text of the
    request, stored as it came, and the date clause compares texts.  The
    manager, whose window is 30 days, enters work of the 22nd of
    September 2026 as "2026-9-22"; the create answers 201.  On the 1st of
    November, 40 days after the work, the cutoff is "2026-10-02", and the
    text "2026-9-22" is not before it: the entry passes
    [ensureRowWithinLimit], and the manager's update is answered
    "Updated" and rewrites the row.  The entry of the same day that is
    stored as "2026-09-22" is refused as out of the edit window. *)
Lemma non_iso_work_date_escapes_the_edit_window :
  fst (WorkEntryRoutes.post (P := Demo.platform) Demo.clock0 Demo.db0 Cases.create_sept_22)
  = Json 201 (Created 3 150%float)
  /\ option_map we_work_date
       (WorkEntryRoutes.stored_entry Cases.db_sept_22 3%float 1%float)
     = Some "2026-9-22"
  /\ WorkEntryRoutes.getDaysLimitForUser (P := Demo.platform) Cases.db_sept_22
       Cases.update_sept_22 = Some 30
  /\ date_now_minus_days (P := Demo.platform) (today Demo.clock0) 30 = Some "2026-10-02"
  /\ WorkEntryRoutes.ensureRowWithinLimit (P := Demo.platform) Demo.clock0
       Cases.db_sept_22 3%float 1%float (Some 30) = true
  /\ fst (WorkEntryRoutes.put (P := Demo.platform) Demo.clock0 Cases.db_sept_22
            Cases.update_sept_22)
     = Json 200 (Updated 1 false 120%float)
  /\ option_map we_amount
       (WorkEntryRoutes.stored_entry
          (snd (WorkEntryRoutes.put (P := Demo.platform) Demo.clock0 Cases.db_sept_22
                  Cases.update_sept_22)) 3%float 1%float)
     = Some 4%float
  /\ option_map we_work_date (WorkEntryRoutes.stored_entry Demo.db0 2%float 1%float)
     = Some "2026-09-22"
  /\ WorkEntryRoutes.put (P := Demo.platform) Demo.clock0 Demo.db0 Demo.update_old_entry
     = (OutOfEditWindow, Demo.db0).
Proof. repeat split; reflexivity. Qed.

Lemma rate_change_without_capability_is_refused_witness :
  WorkEntryRoutes.put (P := Demo.platform) Demo.clock0 Demo.db0 Demo.update_wage_rate
  = (RateEditForbidden, Demo.db0).
Proof.
  refine (proj2 (proj2 (@rate_change_without_capability_is_refused Demo.platform
            Demo.clock0 Demo.db0 Demo.update_wage_rate Demo.entry1 _ _ _))
            (mkJob 1 1 "FOOT60" "Foot reflexology" 30%float (SqlInt 1)) _ _ _).
  - reflexivity.
  - reflexivity.
  - right. split; reflexivity.
  - reflexivity.
  - reflexivity.
  - reflexivity.
Defined.


(** The privileged path: the administrator's update at rates 55 and 22. *)
Lemma privileged_update_mirrors_wage :
  fst (WorkEntryRoutes.put (P := Demo.platform) Demo.clock0 Demo.db0 Demo.update_by_admin)
  = Json 200 (Updated 1 true 220%float)
  /\ option_map (fun row => (we_rate row, we_wage_rate row, we_pay row, we_wage_total row))
       (WorkEntryRoutes.stored_entry
          (snd (WorkEntryRoutes.put (P := Demo.platform) Demo.clock0 Demo.db0
                  Demo.update_by_admin)) 1%float 1%float)
     = Some (22%float, 22%float, 88%float, 88%float).
Proof. split; reflexivity. Qed.

Lemma edit_window_gates_update_witness :
  WorkEntryRoutes.put (P := Demo.platform) Demo.clock0 Demo.db0 Demo.update_old_entry
  = (OutOfEditWindow, Demo.db0)
  /\ WorkEntryRoutes.put (P := Demo.platform) Demo.clock0 Demo.db0 Demo.update_hours
     = WorkEntryRoutes.put_existing (P := Demo.platform) Demo.db0 Demo.update_hours
         1%float 1%float 4%float Demo.entry1.
Proof.
  split.
  - refine (proj1 (proj2 (proj2 (proj1 (@edit_window_gates_update Demo.platform
              Demo.clock0 Demo.db0 Demo.update_old_entry Demo.entry2 (Some 30) 20718
              _ _ _ _ _ _) 30 _ _))) _); try reflexivity.
  - refine (proj2 (proj2 (proj2 (proj1 (@edit_window_gates_update Demo.platform
              Demo.clock0 Demo.db0 Demo.update_hours Demo.entry1 (Some 30) 20738
              _ _ _ _ _ _) 30 _ _))) _); try reflexivity. simpl. lia.
Defined.

Lemma restricted_update_resolves_rates_from_job_and_tier_witness :
  exists row,
    WorkEntryRoutes.stored_entry
      (snd (WorkEntryRoutes.put (P := Demo.platform) Demo.clock0 Demo.db0 Demo.update_hours))
      1%float 1%float = Some row
    /\ we_customer_rate row = 30%float
    /\ we_customer_total row = 120%float
    /\ we_wage_rate row = 12%float
    /\ we_wage_total row = 48%float.
Proof.
  destruct (@restricted_update_resolves_rates_from_job_and_tier Demo.platform
              Demo.clock0 Demo.db0 Demo.update_hours Demo.entry1
              (mkJob 1 1 "FOOT60" "Foot reflexology" 30%float (SqlInt 1))
              eq_refl eq_refl eq_refl eq_refl eq_refl eq_refl eq_refl)
    as (j & Hj & _ & _ & H).
  injection Hj as <-.
  destruct (H eq_refl eq_refl) as [_ Hrow].
  destruct (Hrow 1 false 120%float _ eq_refl) as (row & Hs & Hcr & Hct & Hwr & Hwt).
  exists row. repeat split; assumption.
Defined.

(** The base price of job 1 is infinite, which is strictly positive; the
    tier wage is 12.  The restricted update of 4 hours is refused and
    writes nothing. *)
Lemma infinite_base_price_is_refused :
  option_map job_normal_price (WorkEntryRoutes.job_by_id Demo.db_infinite 1 1%float)
  = Some PrimFloat.infinity
  /\ PrimFloat.ltb 0%float PrimFloat.infinity = true
  /\ WorkEntryRoutes.hasPermission (P := Demo.platform) Demo.db_infinite Demo.update_hours
       "WORK_ENTRY_EDIT_RATES" = false
  /\ WorkEntryRoutes.put (P := Demo.platform) Demo.clock0 Demo.db_infinite Demo.update_hours
     = (Json 400 (Error "Invalid customer rate for this job."), Demo.db_infinite).
Proof. repeat split; reflexivity. Qed.

(* ================================================================= *)
(** * Further properties of the routes *)

Import Invariants.

(** ** More on the permission checks *)

Section MorePermissions.
Context {P : Platform}.

(** X1.  Update and delete are behind their permission.  An API request
    without a session user is answered 401 "Unauthorized" by both routes;
    a logged-in user who is no administrator and whose role does not
    grant WORK_ENTRY_EDIT, or WORK_ENTRY_DELETE, is answered 403
    "Forbidden" naming the missing permission.  The store is left as it
    was in every one of these cases. *)
Theorem mutations_require_their_permission :
  forall (c : clock) (d : database) (req : request),
    is_api req = true ->
    (session_user_of (req_session req) = None ->
     WorkEntryRoutes.put c d req = (Unauthenticated, d)
     /\ WorkEntryRoutes.delete c d req = (Unauthenticated, d))
    /\ (forall user,
          session_user_of (req_session req) = Some user ->
          su_id user <> 0 -> is_admin user = false ->
          (Permission.select_ok d (su_id user) "WORK_ENTRY_EDIT" = false ->
           WorkEntryRoutes.put c d req = (Forbidden "WORK_ENTRY_EDIT", d))
          /\ (Permission.select_ok d (su_id user) "WORK_ENTRY_DELETE" = false ->
              WorkEntryRoutes.delete c d req = (Forbidden "WORK_ENTRY_DELETE", d))).
Proof.
  intros c d req Hapi. split.
  - intros Hs.
    unfold WorkEntryRoutes.put, WorkEntryRoutes.delete, Permission.requirePermission,
      Permission.unauthorized.
    rewrite Hs, Hapi. split; reflexivity.
  - intros user Hs Hid Hadm. apply Z.eqb_neq in Hid.
    unfold WorkEntryRoutes.put, WorkEntryRoutes.delete, Permission.requirePermission,
      Permission.forbidden.
    rewrite Hs, Hid, Hadm, Hapi.
    split; intros ->; reflexivity.
Qed.

(** X2.  The permission query denies by default: it selects no row, for
    whatever user id and code, when the user rows of that id carry no
    role, when no permission granted to the user's role has the code, or
    when every permission of that code is inactive. *)
Theorem role_query_denies_by_default :
  forall (d : database) (uid : Z) (code : string),
    ((forall u, In u (users d) -> user_id u = uid -> user_role_id u = None) ->
     Permission.select_ok d uid code = false)
    /\ ((forall u r, In u (users d) -> In r (roles d) -> user_id u = uid ->
           user_role_id u = Some (role_id r) ->
           forall rp p, In rp (role_permissions d) -> In p (permissions d) ->
             rp_role_id rp = role_id r -> permission_id p = rp_permission_id rp ->
             permission_code p <> code) ->
        Permission.select_ok d uid code = false)
    /\ ((forall p, In p (permissions d) -> permission_code p = code ->
           permission_is_active p <> 1) ->
        Permission.select_ok d uid code = false).
Proof.
  intros d uid code.
  repeat split; intros H;
    destruct (Permission.select_ok d uid code) eqn:E; try reflexivity; exfalso;
    apply select_ok_iff in E
      as (u & r & rp & p & Hu & Hr & Hrp & Hp & Hid & Hrole & Hrpr & Hpid & Hcode & Hact).
  - rewrite (H u Hu Hid) in Hrole. discriminate.
  - exact (H u r Hu Hr Hid Hrole rp p Hrp Hp Hrpr Hpid Hcode).
  - exact (H p Hp Hcode Hact).
Qed.

End MorePermissions.

Lemma select_ok_permissions_only :
  forall d d' uid code,
    users d' = users d -> roles d' = roles d ->
    role_permissions d' = role_permissions d -> permissions d' = permissions d ->
    Permission.select_ok d' uid code = Permission.select_ok d uid code.
Proof.
  intros d d' uid code Hu Hr Hrp Hp. unfold Permission.select_ok.
  now rewrite Hu, Hr, Hrp, Hp.
Qed.

Section Toggle.
Context {P : Platform}.

Lemma toggle_twice_permissions :
  forall d id,
    (forall p, In p (permissions d) ->
       permission_is_active p = 0 \/ permission_is_active p = 1) ->
    permissions (ManagementRoutes.run_toggle (ManagementRoutes.run_toggle d id) id)
    = permissions d.
Proof.
  intros d id H. unfold ManagementRoutes.run_toggle. simpl.
  rewrite map_map.
  induction (permissions d) as [|p l IH]; simpl; [reflexivity|].
  rewrite IH by (intros q Hq; apply H; now right).
  f_equal.
  destruct (num_eq_int id (permission_id p)) eqn:E; simpl; rewrite E; [|reflexivity].
  destruct p as [pid pcode pact]; simpl in *.
  destruct (H (mkPermission pid pcode pact) (or_introl eq_refl)) as [Ha|Ha];
    simpl in Ha; subst pact; reflexivity.
Qed.

(** X3.  The permission toggle, for a permission that is active and
    addressed by the id of the request.  After the toggle the permission
    query selects no row for the code, whoever asks: every user who is no
    administrator is refused by [requirePermission], an administrator
    still passes.  The work entries are untouched, and a second toggle
    restores the answers of the permission query for every user and
    code. *)
Theorem toggling_a_permission_off_revokes_it :
  forall (d : database) (params_id code : string),
    (forall p, In p (permissions d) -> permission_code p = code ->
       num_eq_int (StringToNumber params_id) (permission_id p) = true
       /\ permission_is_active p = 1) ->
    (forall p, In p (permissions d) ->
       permission_is_active p = 0 \/ permission_is_active p = 1) ->
    let off := snd (ManagementRoutes.toggle_permission d params_id) in
    let on_again := snd (ManagementRoutes.toggle_permission off params_id) in
    (forall uid, Permission.select_ok off uid code = false)
    /\ (forall req user,
          session_user_of (req_session req) = Some user ->
          su_id user <> 0 -> is_admin user = false ->
          Permission.requirePermission code off req = Some (Permission.forbidden req code))
    /\ (forall req user,
          session_user_of (req_session req) = Some user ->
          su_id user <> 0 -> is_admin user = true ->
          Permission.requirePermission code off req = None)
    /\ work_entries off = work_entries d
    /\ (forall uid code', Permission.select_ok on_again uid code'
                          = Permission.select_ok d uid code').
Proof.
  intros d params_id code Hcode Hflags off on_again.
  assert (Hoff : forall uid, Permission.select_ok off uid code = false).
  { intros uid.
    destruct (Permission.select_ok off uid code) eqn:E; [exfalso|reflexivity].
    apply select_ok_iff in E
      as (u & r & rp & p & _ & _ & _ & Hp & _ & _ & _ & _ & Hc & Hact).
    subst off. unfold ManagementRoutes.toggle_permission, ManagementRoutes.run_toggle in Hp.
    simpl in Hp. apply in_map_iff in Hp as (q & Hq & Hin).
    destruct (num_eq_int (StringToNumber params_id) (permission_id q)) eqn:A.
    - subst p. simpl in *. destruct (Hcode q Hin Hc) as [_ Hq1].
      rewrite Hq1 in Hact. simpl in Hact. discriminate.
    - subst p. destruct (Hcode q Hin Hc) as [Hq0 _]. congruence. }
  split; [exact Hoff|].
  split.
  { intros req user Hs Hid Hadm. apply Z.eqb_neq in Hid.
    unfold Permission.requirePermission. now rewrite Hs, Hid, Hadm, Hoff. }
  split.
  { intros req user Hs Hid Hadm. apply Z.eqb_neq in Hid.
    unfold Permission.requirePermission. now rewrite Hs, Hid, Hadm. }
  split; [reflexivity|].
  intros uid code'. apply select_ok_permissions_only; try reflexivity.
  subst on_again off. unfold ManagementRoutes.toggle_permission. simpl.
  now apply toggle_twice_permissions.
Qed.

End Toggle.

(** ** The session a login saves *)

Lemma in_select_codes :
  forall d uid code,
    In code (AuthRoutes.select_codes d uid) <-> Permission.select_ok d uid code = true.
Proof.
  intros d uid code. unfold AuthRoutes.select_codes. rewrite nodup_In.
  rewrite select_ok_iff. split.
  - intros H.
    apply in_flat_map in H as (u & Hu & H).
    destruct (user_id u =? uid) eqn:Eu; [|destruct H].
    apply in_flat_map in H as (r & Hr & H).
    destruct (opt_eq_int (user_role_id u) (role_id r)) eqn:Er; [|destruct H].
    apply in_flat_map in H as (rp & Hrp & H).
    destruct (rp_role_id rp =? role_id r) eqn:Erp; [|destruct H].
    apply in_flat_map in H as (p & Hp & H).
    destruct ((permission_id p =? rp_permission_id rp) && (permission_is_active p =? 1))
      eqn:Ep; [|destruct H].
    destruct H as [<-|[]].
    apply andb_prop in Ep as [Ep1 Ep2].
    exists u, r, rp, p.
    unfold opt_eq_int in Er. destruct (user_role_id u) as [rid|]; [|discriminate].
    apply Z.eqb_eq in Eu, Er, Erp, Ep1, Ep2. subst rid.
    repeat split; assumption.
  - intros (u & r & rp & p & Hu & Hr & Hrp & Hp & Hid & Hrole & Hrpr & Hpid & Hcode & Hact).
    apply in_flat_map. exists u. split; [assumption|].
    rewrite (proj2 (Z.eqb_eq _ _) Hid).
    apply in_flat_map. exists r. split; [assumption|].
    rewrite Hrole. simpl. rewrite Z.eqb_refl.
    apply in_flat_map. exists rp. split; [assumption|].
    rewrite (proj2 (Z.eqb_eq _ _) Hrpr).
    apply in_flat_map. exists p. split; [assumption|].
    rewrite Hpid, Hact, !Z.eqb_refl. simpl. now left.
Qed.

Lemma existsb_eqb_In :
  forall (s : string) (l : list string), existsb (String.eqb s) l = true <-> In s l.
Proof.
  intros s l. rewrite existsb_exists. split.
  - intros (x & Hx & E). apply String.eqb_eq in E. now subst.
  - intros H. exists s. split; [assumption|apply String.eqb_refl].
Qed.

(** X4.  The session a login saves for a user who is no administrator
    lists each permission code once, and [res.locals.can] answers from
    that list: what the role granted in the store [d0] of the login.
    [requirePermission] does not read the list; it asks the store [d] of
    the request. *)
Theorem session_permissions_are_the_grants_at_login :
  forall (P : Platform) (d0 d : database) (u : user) (code : string),
    user_is_admin u = 0 ->
    user_id u <> 0 ->
    let user := AuthRoutes.session_user_saved d0 u in
    NoDup (AuthRoutes.select_codes d0 (user_id u))
    /\ is_admin user = false
    /\ App.can (Some user) code = Permission.select_ok d0 (user_id u) code
    /\ (forall req, session_user_of (req_session req) = Some user ->
          (Permission.requirePermission code d req = None
           <-> Permission.select_ok d (user_id u) code = true)).
Proof.
  intros P d0 d u code Hadm Hid user.
  assert (A : is_admin user = false).
  { subst user. unfold is_admin, AuthRoutes.session_user_saved. simpl.
    rewrite Hadm. reflexivity. }
  split; [apply NoDup_nodup|]. split; [exact A|]. split.
  - unfold App.can, App.isAdmin. rewrite A. simpl.
    destruct (Permission.select_ok d0 (user_id u) code) eqn:E.
    + apply existsb_eqb_In, in_select_codes, E.
    + destruct (existsb _ _) eqn:X; [|reflexivity].
      apply existsb_eqb_In, in_select_codes in X. congruence.
  - intros req Hs. unfold Permission.requirePermission.
    rewrite Hs, A. change (su_id user) with (user_id u).
    apply Z.eqb_neq in Hid. rewrite Hid.
    destruct (Permission.select_ok d (user_id u) code); split;
      intros; try reflexivity; discriminate.
Qed.

(** ** The listing and the company context *)

Section Listing.
Context {P : Platform}.

Lemma days_limit_through :
  forall d req,
    WorkEntryRoutes.getDaysLimitForUser d (AppMiddleware.through req)
    = WorkEntryRoutes.getDaysLimitForUser d req.
Proof.
  intros d req. unfold WorkEntryRoutes.getDaysLimitForUser, AppMiddleware.through,
    AppMiddleware.company_context. simpl.
  destruct (session_user_of (req_session req)) as [u|] eqn:E; [|now rewrite E].
  destruct (su_id u =? 0) eqn:Z0; [now rewrite E, Z0|].
  destruct (is_admin u) eqn:A; simpl; now rewrite Z0, A.
Qed.

(** X6.  A [companyId] in the query wins over the company context the
    middleware sets: whoever sends the request, administrator or not,
    logged in or not, the listing is that of the company the query
    names.  It answers with one row for every stored entry of that
    company that passes the date clause of the caller's window and no
    other row, and each row holds its entry and the names of the worker,
    the job and the wage tier the entry refers to. *)
Theorem query_company_is_used_for_any_principal :
  forall (c : clock) (d : database) (req : request),
    truthy (query_companyId req) = true ->
    WorkEntryRoutes.getCompanyId (AppMiddleware.through req)
    = parseInt (query_companyId req)
    /\ exists rows,
         WorkEntryRoutes.get_all c d (AppMiddleware.through req) = Json 200 (Rows rows)
         /\ Permutation (map lr_entry rows)
              (filter (fun we =>
                         num_eq_int (parseInt (query_companyId req)) (we_company_id we)
                         && WorkEntryRoutes.dateClause c
                              (WorkEntryRoutes.getDaysLimitForUser d req) we)
                      (work_entries d))
         /\ forall r, In r rows -> Joins.names_of d r.
Proof.
  intros c d req Hq.
  assert (Hc : WorkEntryRoutes.getCompanyId (AppMiddleware.through req)
               = parseInt (query_companyId req)).
  { unfold WorkEntryRoutes.getCompanyId, AppMiddleware.through. simpl. now rewrite Hq. }
  split; [exact Hc|].
  destruct (get_all_rows c d (AppMiddleware.through req)) as (rows & E & Pm & N).
  exists rows. split; [exact E|]. split; [|exact N].
  rewrite Hc, days_limit_through in Pm. exact Pm.
Qed.

(** X7.  For a logged-in user who is no administrator the middleware
    forces the session's active company to the user's own, so a request
    that names no company in its query or body is served for the user's
    company, or for company 1 when the user has none.  Running the
    middleware again changes nothing. *)
Theorem non_admin_company_is_forced_without_query :
  forall (req : request) (user : session_user),
    session_user_of (req_session req) = Some user ->
    su_id user <> 0 ->
    is_admin user = false ->
    truthy (query_companyId req) = false ->
    truthy (company_id (body req)) = false ->
    activeCompanyId (req_session (AppMiddleware.through req)) = su_company_id user
    /\ WorkEntryRoutes.getCompanyId (AppMiddleware.through req)
       = (if truthy (su_company_id user) then ToNumber (su_company_id user) else 1%float)
    /\ AppMiddleware.company_context (AppMiddleware.company_context (req_session req))
       = AppMiddleware.company_context (req_session req).
Proof.
  intros req user Hs Hid Hadm Hq Hb. apply Z.eqb_neq in Hid.
  unfold WorkEntryRoutes.getCompanyId, AppMiddleware.through, AppMiddleware.company_context.
  simpl. rewrite Hs, Hid, Hadm, Hq, Hb. simpl. rewrite Hid, Hadm. simpl.
  repeat split.
  destruct (truthy (su_company_id user)); reflexivity.
Qed.

End Listing.

(** ** Creating, updating and deleting work entries *)

Lemma isFinite_not_nan : forall x, isFinite x = true -> PrimFloat.is_nan x = false.
Proof.
  intros x. unfold isFinite. destruct (PrimFloat.is_nan x); [discriminate|reflexivity].
Qed.

Lemma toNumOrNull_finite :
  forall (P : Platform) v x, toNumOrNull v = Some x -> isFinite x = true.
Proof.
  intros P v x. unfold toNumOrNull.
  destruct (is_empty_string v || nullish v); [discriminate|].
  destruct (isFinite (ToNumber v)) eqn:E; [|discriminate].
  intros H; injection H as <-. exact E.
Qed.

Lemma next_rowid_above :
  forall seq ids id, In id ids -> id < next_rowid seq ids.
Proof.
  intros seq ids id H. unfold next_rowid.
  induction ids as [|a l IH]; simpl in *; [contradiction|].
  destruct H as [->|H]; [lia|]. specialize (IH H). lia.
Qed.

Section Entries.
Context {P : Platform}.

(** Everything a stored row says about the statement that stored it. *)
Lemma store_row_inv :
  forall d id company created v row,
    WorkEntryRoutes.store_row d id company created v = inr row ->
    exists wk wd,
      bind_number (WorkEntryRoutes.v_worker_id v) = SqlInt wk
      /\ bind_text (WorkEntryRoutes.v_work_date v) = Some wd
      /\ row = mkWorkEntry id company wk (WorkEntryRoutes.v_job_id v) wd
                 (WorkEntryRoutes.v_job_no1 v) (WorkEntryRoutes.v_job_no2 v)
                 (WorkEntryRoutes.v_amount v) (WorkEntryRoutes.v_rate v)
                 (WorkEntryRoutes.v_pay v) (WorkEntryRoutes.v_customer_rate v)
                 (WorkEntryRoutes.v_customer_total v)
                 (if PrimFloat.is_nan (WorkEntryRoutes.v_fees_collected v) then None
                  else Some (WorkEntryRoutes.v_fees_collected v))
                 (we_wage_tier_id row) (WorkEntryRoutes.v_wage_rate v)
                 (WorkEntryRoutes.v_wage_total v) (WorkEntryRoutes.v_is_bank v)
                 (WorkEntryRoutes.v_note v) created
      /\ existsb (fun o => negb (we_id o =? id) && (we_company_id o =? company)
                           && String.eqb (we_job_no1 o) (WorkEntryRoutes.v_job_no1 v))
                 (work_entries d) = false
      /\ WorkEntryRoutes.first_nan
           [("work_entries.amount", WorkEntryRoutes.v_amount v);
            ("work_entries.rate", WorkEntryRoutes.v_rate v);
            ("work_entries.pay", WorkEntryRoutes.v_pay v);
            ("work_entries.customer_rate", WorkEntryRoutes.v_customer_rate v);
            ("work_entries.customer_total", WorkEntryRoutes.v_customer_total v);
            ("work_entries.wage_rate", WorkEntryRoutes.v_wage_rate v);
            ("work_entries.wage_total", WorkEntryRoutes.v_wage_total v)] = None
      /\ existsb (fun x => wk_id x =? wk) (workers d) = true
      /\ existsb (fun j => job_id j =? WorkEntryRoutes.v_job_id v) (jobs d) = true
      /\ (forall t, we_wage_tier_id row = Some t ->
            existsb (fun wt => wt_id wt =? t) (wage_tiers d) = true).
Proof.
  intros d id company created v row. unfold WorkEntryRoutes.store_row.
  destruct (bind_number (WorkEntryRoutes.v_worker_id v)) as [|wk|x] eqn:W;
    try discriminate;
    destruct (bind_text (WorkEntryRoutes.v_work_date v)) as [wd|] eqn:D; try discriminate;
    destruct (WorkEntryRoutes.first_nan _) eqn:N; try discriminate;
    destruct (existsb _ (work_entries d)) eqn:U; try discriminate.
  destruct (WorkEntryRoutes.v_wage_tier_id v) as [|t|y]; try discriminate.
  - destruct (_ && _) eqn:F; [|discriminate].
    apply andb_prop in F as [Wk J].
    intros H; injection H as <-. exists wk, wd. simpl.
    repeat split; try reflexivity; try assumption. intros t Ht; discriminate.
  - destruct (existsb _ (wage_tiers d)) eqn:T; [|discriminate].
    destruct (_ && _) eqn:F; [|discriminate].
    apply andb_prop in F as [Wk J].
    intros H; injection H as <-. exists wk, wd. simpl.
    repeat split; try reflexivity; try assumption.
    intros t' Ht; injection Ht as <-. exact T.
Qed.

(** The shape of a successful create. *)
Lemma post_created :
  forall c d req id fees d',
    WorkEntryRoutes.post c d req = (Json 201 (Created id fees), d') ->
    exists company v row,
      WorkEntryRoutes.store_row d id company (current_timestamp c) v = inr row
      /\ id = next_rowid (work_entries_seq d) (map we_id (work_entries d))
      /\ d' = with_work_entries d (work_entries d ++ [row]) id
      /\ existsb (Z.eqb company) (companies d) = true
      /\ toNumOrNull (amount (body req)) = Some (WorkEntryRoutes.v_amount v)
      /\ toNumOrNull (customer_rate (body req)) = Some (WorkEntryRoutes.v_customer_rate v)
      /\ toNumOrNull (customer_total (body req)) = Some (WorkEntryRoutes.v_customer_total v)
      /\ toNumOrNull (wage_rate (body req)) = Some (WorkEntryRoutes.v_wage_rate v)
      /\ toNumOrNull (wage_total (body req)) = Some (WorkEntryRoutes.v_wage_total v)
      /\ WorkEntryRoutes.v_rate v
         = match toNumOrNull (rate (body req)) with
           | Some r => r
           | None => WorkEntryRoutes.v_wage_rate v
           end
      /\ WorkEntryRoutes.v_pay v
         = match toNumOrNull (pay (body req)) with
           | Some p => p
           | None => WorkEntryRoutes.v_wage_total v
           end
      /\ WorkEntryRoutes.v_fees_collected v = fees
      /\ fees = match toNumOrNull (fees_collected (body req)) with
                | Some f => f
                | None => WorkEntryRoutes.v_customer_total v
                end
      /\ WorkEntryRoutes.v_job_no1 v = trim (ToString (job_no1 (body req))).
Proof.
  intros c d req id fees d'. unfold WorkEntryRoutes.post.
  destruct (_ || _ || _ || _ || _ || _); [discriminate|].
  destruct (_ || _ || _ || _); [discriminate|].
  destruct (toNumOrNull (amount (body req))) as [a|]; [|discriminate].
  destruct (toNumOrNull (customer_rate (body req))) as [cr|];
    [|destruct (toNumOrNull (customer_total (body req)));
      destruct (toNumOrNull (wage_rate (body req)));
      destruct (toNumOrNull (wage_total (body req))); discriminate].
  destruct (toNumOrNull (customer_total (body req))) as [ct|];
    [|destruct (toNumOrNull (wage_rate (body req)));
      destruct (toNumOrNull (wage_total (body req))); discriminate].
  destruct (toNumOrNull (wage_rate (body req))) as [wr|];
    [|destruct (toNumOrNull (wage_total (body req))); discriminate].
  destruct (toNumOrNull (wage_total (body req))) as [wt|]; [|discriminate].
  destruct (WorkEntryRoutes.select_job _ _ _) as [jobRow|]; [|discriminate].
  destruct (trim_or_null (job_no2 (body req))) as [no2|]; [|discriminate].
  destruct (trim_or_null (note (body req))) as [nt|]; [|discriminate].
  unfold WorkEntryRoutes.run_insert.
  destruct (bind_number _) as [|company|x]; simpl; try discriminate.
  match goal with
  | |- context [WorkEntryRoutes.store_row d ?i company ?t ?v] =>
      destruct (WorkEntryRoutes.store_row d i company t v) as [e|row] eqn:S
  end.
  - destruct (WorkEntryRoutes.is_job_no1_conflict e); discriminate.
  - destruct (existsb (Z.eqb company) (companies d)) eqn:C;
      [|simpl; discriminate].
    intros H; injection H as <- <- <-.
    eexists company, _, row. split; [exact S|].
    simpl. repeat split; try reflexivity. exact C.
Qed.

Lemma post_frame :
  forall c d req,
    (forall id fees, fst (WorkEntryRoutes.post c d req) <> Json 201 (Created id fees)) ->
    snd (WorkEntryRoutes.post c d req) = d.
Proof.
  intros c d req H.
  destruct (WorkEntryRoutes.post c d req) as [r d'] eqn:E. simpl in *.
  revert E. unfold WorkEntryRoutes.post.
  repeat match goal with
         | |- context [if ?b then _ else _] => destruct b
         | |- context [match ?x with _ => _ end] => destruct x
         end;
    intros E; injection E as <- <-; try reflexivity.
  all: exfalso; eapply H; reflexivity.
Qed.


Lemma post_cases :
  forall c d req,
    snd (WorkEntryRoutes.post c d req) = d
    \/ exists id fees, WorkEntryRoutes.post c d req
                       = (Json 201 (Created id fees), snd (WorkEntryRoutes.post c d req)).
Proof.
  intros c d req. assert (F := post_frame c d req).
  destruct (WorkEntryRoutes.post c d req) as [r d'] eqn:E. simpl in *.
  destruct r as [status p| | |]; try (left; apply F; discriminate).
  destruct p; try (left; apply F; discriminate).
  destruct (Z.eq_dec status 201) as [->|Hne].
  - right. eauto.
  - left. apply F. intros i f H. injection H as H _ _. contradiction.
Qed.

(** X8.  A create that answers 201 appended one row and changed no other.
    The row's id is the id of the answer and lies above every id stored
    before; no row stored before had its company and reference number.
    Hours, rates and totals are the finite numbers of the request; the
    legacy [rate] and [pay] default to the wage rate and the wage total;
    the fees collected are those of the answer, by default the customer
    total; the reference number is stored trimmed and the creation time
    is the clock's. *)
Theorem create_stores_the_request :
  forall (c : clock) (d : database) (req : request) (id : Z) (fees : float)
         (d' : database),
    WorkEntryRoutes.post c d req = (Json 201 (Created id fees), d') ->
    exists row,
      work_entries d' = (work_entries d ++ [row])%list
      /\ we_id row = id
      /\ (forall o, In o (work_entries d) -> we_id o < id)
      /\ (forall o, In o (work_entries d) ->
            ~ (we_company_id o = we_company_id row /\ we_job_no1 o = we_job_no1 row))
      /\ toNumOrNull (amount (body req)) = Some (we_amount row)
      /\ toNumOrNull (customer_rate (body req)) = Some (we_customer_rate row)
      /\ toNumOrNull (customer_total (body req)) = Some (we_customer_total row)
      /\ toNumOrNull (wage_rate (body req)) = Some (we_wage_rate row)
      /\ toNumOrNull (wage_total (body req)) = Some (we_wage_total row)
      /\ we_rate row = match toNumOrNull (rate (body req)) with
                       | Some r => r
                       | None => we_wage_rate row
                       end
      /\ we_pay row = match toNumOrNull (pay (body req)) with
                      | Some p => p
                      | None => we_wage_total row
                      end
      /\ we_fees_collected row = Some fees
      /\ fees = match toNumOrNull (fees_collected (body req)) with
                | Some f => f
                | None => we_customer_total row
                end
      /\ we_job_no1 row = trim (ToString (job_no1 (body req)))
      /\ we_created_at row = current_timestamp c.
Proof.
  intros c d req id fees d' H.
  destruct (post_created _ _ _ _ _ _ H)
    as (company & v & row & S & Hid & -> & _ & Ha & Hcr & Hct & Hwr & Hwt
        & Hr & Hp & Hf & Hfd & Hno).
  destruct (store_row_inv _ _ _ _ _ _ S) as (wk & wd & _ & _ & Hrow & U & _).
  exists row. split; [reflexivity|].
  assert (Fnan : PrimFloat.is_nan fees = false).
  { apply isFinite_not_nan. rewrite Hfd.
    destruct (toNumOrNull (fees_collected (body req))) eqn:F.
    - eapply toNumOrNull_finite; eassumption.
    - eapply toNumOrNull_finite; eassumption. }
  rewrite Hrow. cbn [we_id we_company_id we_job_no1 we_amount we_customer_rate
    we_customer_total we_wage_rate we_wage_total we_rate we_pay we_fees_collected
    we_created_at].
  rewrite Hf, Fnan.
  repeat split; try assumption; try congruence.
  - intros o Ho. rewrite Hid. apply next_rowid_above, in_map, Ho.
  - intros o Ho [Hc Hj].
    assert (X : negb (we_id o =? id) && (we_company_id o =? company)
                && String.eqb (we_job_no1 o) (WorkEntryRoutes.v_job_no1 v) = true).
    { rewrite Hc, Hj, Z.eqb_refl, String.eqb_refl, andb_true_r, andb_true_r.
      apply negb_true_iff, Z.eqb_neq.
      pose proof (next_rowid_above (work_entries_seq d) _ _ (in_map we_id _ _ Ho)). lia. }
    assert (Y : existsb (fun o => negb (we_id o =? id) && (we_company_id o =? company)
                           && String.eqb (we_job_no1 o) (WorkEntryRoutes.v_job_no1 v))
                  (work_entries d) = true)
      by (apply existsb_exists; exists o; split; assumption).
    rewrite Y in U. discriminate.
Qed.

Lemma run_insert_again :
  forall c c' d companyF company v row,
    bind_number companyF = SqlInt company ->
    WorkEntryRoutes.store_row d
      (next_rowid (work_entries_seq d) (map we_id (work_entries d)))
      company (current_timestamp c) v = inr row ->
    let id := next_rowid (work_entries_seq d) (map we_id (work_entries d)) in
    WorkEntryRoutes.run_insert c' (with_work_entries d (work_entries d ++ [row])%list id)
      companyF v
    = inl (UniqueFailed "work_entries.company_id, work_entries.job_no1").
Proof.
  intros c c' d companyF company v row Hc S id.
  destruct (store_row_inv _ _ _ _ _ _ S) as (wk & wd & W & D & Hrow & _ & N & _).
  unfold WorkEntryRoutes.run_insert. rewrite Hc.
  unfold WorkEntryRoutes.store_row. rewrite W, D, N.
  cbn [work_entries with_work_entries work_entries_seq].
  match goal with
  | |- context [existsb ?f (work_entries d ++ [row])%list] =>
      assert (X : existsb f (work_entries d ++ [row])%list = true)
  end.
  { rewrite existsb_app. apply orb_true_iff. right. simpl. rewrite orb_false_r.
    rewrite Hrow. cbn [we_id we_company_id we_job_no1].
    rewrite Z.eqb_refl, String.eqb_refl, !andb_true_r.
    apply negb_true_iff, Z.eqb_neq.
    rewrite map_app. simpl.
    assert (I : In id (map we_id (work_entries d) ++ [id])%list)
      by (apply in_or_app; right; left; reflexivity).
    pose proof (next_rowid_above id _ _ I) as L. fold id. lia. }
  rewrite X. reflexivity.
Qed.

(** X9.  Sending a create that was answered 201 a second time is answered
    400 "Job No1 already exists for this company.", at whatever time, and
    stores nothing. *)
Theorem second_create_with_the_same_reference_is_refused :
  forall (c c' : clock) (d : database) (req : request) (id : Z) (fees : float)
         (d' : database),
    WorkEntryRoutes.post c d req = (Json 201 (Created id fees), d') ->
    WorkEntryRoutes.post c' d' req
    = (Json 400 (Error "Job No1 already exists for this company."), d').
Proof.
  intros c c' d req id fees d' H. revert H. unfold WorkEntryRoutes.post.
  destruct (_ || _ || _ || _ || _ || _); [discriminate|].
  destruct (_ || _ || _ || _); [discriminate|].
  destruct (toNumOrNull (amount (body req))) as [a|]; [|discriminate].
  destruct (toNumOrNull (customer_rate (body req))) as [cr|];
    [|destruct (toNumOrNull (customer_total (body req)));
      destruct (toNumOrNull (wage_rate (body req)));
      destruct (toNumOrNull (wage_total (body req))); discriminate].
  destruct (toNumOrNull (customer_total (body req))) as [ct|];
    [|destruct (toNumOrNull (wage_rate (body req)));
      destruct (toNumOrNull (wage_total (body req))); discriminate].
  destruct (toNumOrNull (wage_rate (body req))) as [wr|];
    [|destruct (toNumOrNull (wage_total (body req))); discriminate].
  destruct (toNumOrNull (wage_total (body req))) as [wt|]; [|discriminate].
  destruct (WorkEntryRoutes.select_job d _ _) as [jobRow|] eqn:J; [|discriminate].
  destruct (trim_or_null (job_no2 (body req))) as [no2|]; [|discriminate].
  destruct (trim_or_null (note (body req))) as [nt|]; [|discriminate].
  match goal with
  | |- context [WorkEntryRoutes.run_insert c d ?f ?v] =>
      set (companyF := f); set (vals := v)
  end.
  destruct (WorkEntryRoutes.run_insert c d companyF vals) as [e|[lastID d1]] eqn:R.
  { destruct (WorkEntryRoutes.is_job_no1_conflict e); discriminate. }
  intros H; injection H as <- _ <-.
  unfold WorkEntryRoutes.run_insert in R.
  destruct (bind_number companyF) as [|company|x] eqn:B; try discriminate.
  destruct (WorkEntryRoutes.store_row _ _ _ _ _) as [e|row] eqn:S; [discriminate|].
  destruct (existsb (Z.eqb company) (companies d)); [|discriminate].
  injection R as <- <-.
  assert (J' : WorkEntryRoutes.select_job
                 (with_work_entries d (work_entries d ++ [row])%list
                    (next_rowid (work_entries_seq d) (map we_id (work_entries d))))
                 companyF (trim (ToString (job_code (body req)))) = Some jobRow)
    by exact J.
  rewrite J'. cbv beta iota zeta.
  subst companyF vals.
  rewrite (run_insert_again c c' d _ company _ row B S).
  reflexivity.
Qed.

End Entries.

(** ** The keys and references of the store *)

Lemma NoDup_map_filter :
  forall (A B : Type) (f : A -> B) (p : A -> bool) (l : list A),
    NoDup (map f l) -> NoDup (map f (filter p l)).
Proof.
  intros A B f p l. induction l as [|a l IH]; simpl; intros H; [constructor|].
  inversion H as [|x xs Hn Hd]; subst.
  destruct (p a); simpl; [constructor|]; auto.
  intros Hin. apply Hn. apply in_map_iff in Hin as (y & <- & Hy).
  apply in_map. now apply filter_In in Hy.
Qed.

Lemma NoDup_map_inj :
  forall (A B : Type) (f : A -> B) (l : list A) (a b : A),
    NoDup (map f l) -> In a l -> In b l -> f a = f b -> a = b.
Proof.
  intros A B f l a b. induction l as [|x l IH]; simpl; intros H Ha Hb E; [contradiction|].
  inversion H as [|y ys Hn Hd]; subst.
  destruct Ha as [->|Ha], Hb as [->|Hb]; auto.
  - exfalso. apply Hn. rewrite E. now apply in_map.
  - exfalso. apply Hn. rewrite <- E. now apply in_map.
Qed.

Lemma unique_none :
  forall (l : list work_entry) id company jn,
    existsb (fun o => negb (we_id o =? id) && (we_company_id o =? company)
                      && String.eqb (we_job_no1 o) jn) l = false ->
    forall o, In o l -> we_company_id o = company -> we_job_no1 o = jn -> we_id o = id.
Proof.
  intros l id company jn H o Ho Hc Hj.
  destruct (Z.eq_dec (we_id o) id) as [E|N]; [exact E|exfalso].
  assert (X : existsb (fun o => negb (we_id o =? id) && (we_company_id o =? company)
                                && String.eqb (we_job_no1 o) jn) l = true).
  { apply existsb_exists. exists o. split; [assumption|].
    rewrite Hc, Hj, Z.eqb_refl, String.eqb_refl, !andb_true_r.
    now apply negb_true_iff, Z.eqb_neq. }
  rewrite X in H. discriminate.
Qed.

Lemma map_id_replace_row :
  forall row l, map we_id (WorkEntryRoutes.replace_row row l) = map we_id l.
Proof.
  intros row l. unfold WorkEntryRoutes.replace_row. rewrite map_map.
  apply map_ext. intros a. destruct (we_id a =? we_id row) eqn:E; [|reflexivity].
  apply Z.eqb_eq in E. now symmetry.
Qed.

Lemma in_replace_row :
  forall row l x,
    In x (WorkEntryRoutes.replace_row row l) ->
    x = row \/ (In x l /\ we_id x <> we_id row).
Proof.
  intros row l x H. unfold WorkEntryRoutes.replace_row in H.
  apply in_map_iff in H as (a & E & Ha).
  destruct (we_id a =? we_id row) eqn:I.
  - left. now symmetry.
  - right. subst x. split; [assumption|]. now apply Z.eqb_neq.
Qed.

Section Shapes.
Context {P : Platform}.

Lemma doUpdate_shape :
  forall d req id company jobId hrs tier fees can cr ct wr wt,
    snd (WorkEntryRoutes.doUpdate d req id company jobId hrs tier fees can cr ct wr wt) = d
    \/ exists old row v,
         WorkEntryRoutes.stored_entry d id company = Some old
         /\ WorkEntryRoutes.store_row d (we_id old) (we_company_id old)
              (we_created_at old) v = inr row
         /\ snd (WorkEntryRoutes.doUpdate d req id company jobId hrs tier fees can
                   cr ct wr wt)
            = with_work_entries d (WorkEntryRoutes.replace_row row (work_entries d))
                (work_entries_seq d).
Proof.
  intros. unfold WorkEntryRoutes.doUpdate.
  destruct (trim_or_null (job_no2 (body req))); [|left; reflexivity].
  destruct (trim_or_null (note (body req))); [|left; reflexivity].
  match goal with
  | |- context [WorkEntryRoutes.run_update d id company ?v] => set (vals := v)
  end.
  unfold WorkEntryRoutes.run_update.
  destruct (WorkEntryRoutes.stored_entry d id company) as [old|] eqn:S.
  - destruct (WorkEntryRoutes.store_row _ _ _ _ _) as [e|row] eqn:R.
    + left. destruct (WorkEntryRoutes.is_job_no1_conflict e); reflexivity.
    + right. exists old, row, vals. simpl. auto.
  - left. reflexivity.
Qed.

Lemma put_shape :
  forall c d req,
    snd (WorkEntryRoutes.put c d req) = d
    \/ exists old row v,
         WorkEntryRoutes.stored_entry d (StringToNumber (params_id req))
           (WorkEntryRoutes.getCompanyId req) = Some old
         /\ WorkEntryRoutes.store_row d (we_id old) (we_company_id old)
              (we_created_at old) v = inr row
         /\ snd (WorkEntryRoutes.put c d req)
            = with_work_entries d (WorkEntryRoutes.replace_row row (work_entries d))
                (work_entries_seq d).
Proof.
  intros c d req. unfold WorkEntryRoutes.put, WorkEntryRoutes.put_handler.
  destruct (Permission.requirePermission _ _ _); [left; reflexivity|].
  destruct (WorkEntryRoutes.put_validate req); [left; reflexivity|].
  destruct (WorkEntryRoutes.select_entry _ _ _ _ _); [|left; reflexivity].
  unfold WorkEntryRoutes.put_existing.
  destruct (WorkEntryRoutes.select_job _ _ _); [|left; reflexivity].
  destruct (_ && negb _); [left; reflexivity|].
  destruct (WorkEntryRoutes.is_negative _); [left; reflexivity|].
  destruct (negb _).
  - destruct (WorkEntryRoutes.select_rates _ _ _ _) as [[rc rw]|]; [|left; reflexivity].
    destruct (WorkEntryRoutes.not_positive _); [left; reflexivity|].
    destruct (WorkEntryRoutes.not_positive _); [left; reflexivity|].
    apply doUpdate_shape.
  - destruct (WorkEntryRoutes.not_positive _); [left; reflexivity|].
    destruct (WorkEntryRoutes.not_positive _); [left; reflexivity|].
    apply doUpdate_shape.
Qed.

Lemma delete_shape :
  forall c d req,
    snd (WorkEntryRoutes.delete c d req) = d
    \/ snd (WorkEntryRoutes.delete c d req)
       = with_work_entries d
           (filter (fun we => negb (WorkEntryRoutes.addressed (parseInt10 (params_id req))
                                      (WorkEntryRoutes.getCompanyId req) we))
                   (work_entries d))
           (work_entries_seq d).
Proof.
  intros c d req. unfold WorkEntryRoutes.delete, WorkEntryRoutes.delete_handler.
  destruct (Permission.requirePermission _ _ _); [left; reflexivity|].
  destruct (negb _); [left; reflexivity|].
  unfold WorkEntryRoutes.run_delete.
  destruct (_ =? 0); right; reflexivity.
Qed.

Lemma keys_ok_insert :
  forall d id company created v row,
    keys_ok (work_entries d) ->
    WorkEntryRoutes.store_row d id company created v = inr row ->
    (forall o, In o (work_entries d) -> we_id o < id) ->
    keys_ok (work_entries d ++ [row])%list.
Proof.
  intros d id company created v row [Hn Hk] S Hlt.
  destruct (store_row_inv _ _ _ _ _ _ S) as (wk & wd & _ & _ & Hrow & U & _).
  assert (Hid : we_id row = id) by (rewrite Hrow; reflexivity).
  assert (Hco : we_company_id row = company) by (rewrite Hrow; reflexivity).
  assert (Hjn : we_job_no1 row = WorkEntryRoutes.v_job_no1 v) by (rewrite Hrow; reflexivity).
  pose proof (unique_none _ _ _ _ U) as Un.
  split.
  - rewrite map_app. simpl. apply NoDup_app; [assumption|repeat constructor; intros []|].
    intros a Ha [E|[]]. apply in_map_iff in Ha as (o & <- & Ho).
    specialize (Hlt o Ho). lia.
  - intros a b Ha Hb Hc Hj.
    apply in_app_or in Ha as [Ha|[<-|[]]]; apply in_app_or in Hb as [Hb|[<-|[]]].
    + now apply Hk.
    + rewrite Hid. apply Un; congruence.
    + rewrite Hid. symmetry. apply Un; congruence.
    + reflexivity.
Qed.

Lemma keys_ok_replace :
  forall d old created v row,
    keys_ok (work_entries d) ->
    WorkEntryRoutes.store_row d (we_id old) (we_company_id old) created v = inr row ->
    keys_ok (WorkEntryRoutes.replace_row row (work_entries d)).
Proof.
  intros d old created v row [Hn Hk] S.
  destruct (store_row_inv _ _ _ _ _ _ S) as (wk & wd & _ & _ & Hrow & U & _).
  assert (Hid : we_id row = we_id old) by (rewrite Hrow; reflexivity).
  assert (Hco : we_company_id row = we_company_id old) by (rewrite Hrow; reflexivity).
  assert (Hjn : we_job_no1 row = WorkEntryRoutes.v_job_no1 v) by (rewrite Hrow; reflexivity).
  pose proof (unique_none _ _ _ _ U) as Un.
  split.
  - now rewrite map_id_replace_row.
  - intros a b Ha Hb Hc Hj.
    apply in_replace_row in Ha as [->|[Ha Na]];
      apply in_replace_row in Hb as [->|[Hb Nb]].
    + reflexivity.
    + rewrite Hid. symmetry. apply Un; congruence.
    + rewrite Hid. apply Un; congruence.
    + now apply Hk.
Qed.

Lemma keys_ok_filter :
  forall (p : work_entry -> bool) l, keys_ok l -> keys_ok (filter p l).
Proof.
  intros p l [Hn Hk]. split.
  - now apply NoDup_map_filter.
  - intros a b Ha Hb. apply filter_In in Ha as [Ha _]. apply filter_In in Hb as [Hb _].
    now apply Hk.
Qed.

Lemma existsb_In_eq :
  forall (A : Type) (f : A -> Z) (z : Z) (l : list A),
    existsb (fun x => f x =? z) l = true -> exists x, In x l /\ f x = z.
Proof.
  intros A f z l H. apply existsb_exists in H as (x & Hx & E).
  exists x. split; [assumption|]. now apply Z.eqb_eq.
Qed.

Lemma refs_ok_with_work_entries :
  forall d l seq,
    refs_ok d ->
    (forall we, In we l ->
       In we (work_entries d)
       \/ exists id company created v,
            WorkEntryRoutes.store_row d id company created v = inr we) ->
    refs_ok (with_work_entries d l seq).
Proof.
  intros d l seq R H we Hwe. simpl in *.
  destruct (H we Hwe) as [Hin|(id & company & created & v & S)].
  - exact (R we Hin).
  - destruct (store_row_inv _ _ _ _ _ _ S)
      as (wk & wd & _ & _ & Hrow & _ & _ & Wk & J & T).
    repeat split.
    + apply existsb_In_eq in Wk as (w & Hw & E). exists w. split; [assumption|].
      rewrite Hrow. simpl. exact E.
    + apply existsb_In_eq in J as (j & Hj & E). exists j. split; [assumption|].
      rewrite Hrow. simpl. exact E.
    + intros t Ht. specialize (T t Ht). now apply existsb_In_eq in T.
Qed.

End Shapes.

Section Kept.
Context {P : Platform}.

(** X10.  The primary key and the UNIQUE index of [work_entries] survive every
    create, update and delete of the work-entry routes. *)
Theorem work_entry_keys_are_kept :
  forall (c : clock) (d : database) (req : request),
    keys_ok (work_entries d) ->
    keys_ok (work_entries (snd (WorkEntryRoutes.post c d req)))
    /\ keys_ok (work_entries (snd (WorkEntryRoutes.put c d req)))
    /\ keys_ok (work_entries (snd (WorkEntryRoutes.delete c d req))).
Proof.
  intros c d req K. split; [|split].
  - destruct (post_cases c d req) as [->|(id & fees & E)]; [exact K|].
    destruct (post_created _ _ _ _ _ _ E) as (company & v & row & S & Hid & -> & _).
    simpl. apply (keys_ok_insert d id company (current_timestamp c) v row K S).
    intros o Ho. rewrite Hid. apply next_rowid_above, in_map, Ho.
  - destruct (put_shape c d req) as [->|(old & row & v & _ & S & ->)]; [exact K|].
    simpl. exact (keys_ok_replace d old _ v row K S).
  - destruct (delete_shape c d req) as [->| ->]; [exact K|].
    simpl. now apply keys_ok_filter.
Qed.

Lemma run_update_job_frame :
  forall d jobId company code type price active changes d',
    JobRoutes.run_update_job d jobId company code type price active = inr (changes, d') ->
    workers d' = workers d /\ wage_tiers d' = wage_tiers d
    /\ job_wages d' = job_wages d /\ job_wages_seq d' = job_wages_seq d
    /\ companies d' = companies d
    /\ map job_id (jobs d') = map job_id (jobs d).
Proof.
  intros d jobId company code type price active changes d'.
  unfold JobRoutes.run_update_job.
  destruct (find _ (jobs d)) as [old|].
  - destruct (bind_text code); [|discriminate].
    destruct (bind_text type); [|discriminate].
    destruct (PrimFloat.is_nan price); [discriminate|].
    destruct (bind_number active); try discriminate;
      destruct (existsb _ (jobs d)); try discriminate;
      intros H; injection H as _ <-; simpl; repeat split;
      rewrite map_map; apply map_ext; intros j;
      destruct (job_id j =? job_id old) eqn:E; try reflexivity;
      apply Z.eqb_eq in E; simpl; congruence.
  - intros H; injection H as _ <-. repeat split.
Qed.

Lemma run_upsert_wage_frame :
  forall d company jobId r,
    let d' := JobRoutes.run_upsert_wage d company jobId r in
    workers d' = workers d /\ wage_tiers d' = wage_tiers d
    /\ companies d' = companies d /\ jobs d' = jobs d.
Proof.
  intros d company jobId [tier rate]. unfold JobRoutes.run_upsert_wage.
  destruct (bind_number company); try (repeat split; fail).
  destruct (bind_number jobId); try (repeat split; fail).
  destruct (bind_number tier); try (repeat split; fail).
  destruct (PrimFloat.is_nan rate); [repeat split|].
  destruct (existsb _ (job_wages d)); [repeat split|].
  destruct (_ && _ && _); repeat split.
Qed.

Lemma upserts_frame :
  forall rates d company jobId,
    let d' := fold_left (fun acc r => JobRoutes.run_upsert_wage acc company jobId r)
                rates d in
    workers d' = workers d /\ wage_tiers d' = wage_tiers d
    /\ companies d' = companies d /\ jobs d' = jobs d.
Proof.
  induction rates as [|r rates IH]; intros d company jobId; simpl; [repeat split|].
  destruct (IH (JobRoutes.run_upsert_wage d company jobId r) company jobId)
    as (A & B & C & D).
  destruct (run_upsert_wage_frame d company jobId r) as (A' & B' & C' & D').
  simpl in *. repeat split; congruence.
Qed.

Lemma job_put_frame :
  forall d req,
    let d' := snd (JobRoutes.put d req) in
    workers d' = workers d /\ wage_tiers d' = wage_tiers d
    /\ companies d' = companies d
    /\ map job_id (jobs d') = map job_id (jobs d).
Proof.
  intros d req. unfold JobRoutes.put.
  destruct (JobRoutes.run_update_job _ _ _ _ _ _ _) as [e|[changes d1]] eqn:R;
    [repeat split|].
  apply run_update_job_frame in R as (A & B & _ & _ & C & D).
  destruct (changes =? 0); simpl; [repeat split; assumption|].
  match goal with
  | |- context [fold_left ?f ?rates d1] =>
      destruct (upserts_frame rates d1 (JobRoutes.getCompanyId req)
                  (StringToNumber (JobRoutes.jq_params_id req))) as (A' & B' & C' & D')
  end.
  simpl in *. repeat split; congruence.
Qed.

Lemma job_delete_cases :
  forall d req,
    snd (JobRoutesDelete.delete d req) = d
    \/ (existsb (fun we =>
                   existsb (fun j => job_id j =? we_job_id we)
                     (filter (JobRoutesDelete.addressed_job
                                (StringToNumber (JobRoutes.jq_params_id req))
                                (JobRoutes.getCompanyId req)) (jobs d)))
          (work_entries d) = false
        /\ snd (JobRoutesDelete.delete d req)
           = JobRoutesDelete.with_jobs_and_wages d
               (filter (fun j => negb (JobRoutesDelete.addressed_job
                                        (StringToNumber (JobRoutes.jq_params_id req))
                                        (JobRoutes.getCompanyId req) j)) (jobs d))
               (filter (fun jw =>
                          negb (existsb (fun j => job_id j =? jw_job_id jw)
                                  (filter (JobRoutesDelete.addressed_job
                                             (StringToNumber (JobRoutes.jq_params_id req))
                                             (JobRoutes.getCompanyId req)) (jobs d))))
                       (job_wages d))).
Proof.
  intros d req. unfold JobRoutesDelete.delete, JobRoutesDelete.run_delete_job.
  destruct (existsb _ (work_entries d)) eqn:E; [left; reflexivity|].
  right. split; [reflexivity|]. destruct (_ =? 0); reflexivity.
Qed.

(** X11.  The foreign keys of [work_entries] on workers, jobs and wage tiers
    survive every request of the work-entry routes and the update and
    the delete of a job. *)
Theorem work_entry_references_are_kept :
  forall (c : clock) (d : database) (req : request) (jreq : JobRoutes.job_request),
    refs_ok d ->
    refs_ok (snd (WorkEntryRoutes.post c d req))
    /\ refs_ok (snd (WorkEntryRoutes.put c d req))
    /\ refs_ok (snd (WorkEntryRoutes.delete c d req))
    /\ refs_ok (snd (JobRoutes.put d jreq))
    /\ refs_ok (snd (JobRoutesDelete.delete d jreq)).
Proof.
  intros c d req jreq R. repeat apply conj.
  - destruct (post_cases c d req) as [->|(id & fees & E)]; [exact R|].
    destruct (post_created _ _ _ _ _ _ E) as (company & v & row & S & Hid & -> & _).
    apply refs_ok_with_work_entries; [exact R|].
    intros we Hwe. apply in_app_or in Hwe as [H|[<-|[]]]; [now left|right; eauto].
  - destruct (put_shape c d req) as [->|(old & row & v & _ & S & ->)]; [exact R|].
    apply refs_ok_with_work_entries; [exact R|].
    intros we Hwe. apply in_replace_row in Hwe as [->|[H _]]; [right; eauto|now left].
  - destruct (delete_shape c d req) as [->| ->]; [exact R|].
    apply refs_ok_with_work_entries; [exact R|].
    intros we Hwe. apply filter_In in Hwe as [H _]. now left.
  - destruct (job_put_frame d jreq) as (W & T & _ & J).
    pose proof (job_put_work_entries d jreq) as E.
    intros we Hwe. rewrite E in Hwe. destruct (R we Hwe) as (Hw & Hj & Ht).
    rewrite W, T. repeat split; try assumption.
    destruct Hj as (j & Hj & Ej).
    assert (I : In (we_job_id we) (map job_id (jobs (snd (JobRoutes.put d jreq))))).
    { rewrite J, <- Ej. now apply in_map. }
    apply in_map_iff in I as (j' & E' & Hj'). eauto.
  - destruct (job_delete_cases d jreq) as [->|[F ->]]; [exact R|].
    intros we Hwe. simpl in *. destruct (R we Hwe) as (Hw & Hj & Ht).
    repeat split; try assumption.
    destruct Hj as (j & Hj & Ej). exists j. split; [|assumption].
    apply filter_In. split; [assumption|].
    destruct (JobRoutesDelete.addressed_job _ _ j) eqn:A; [exfalso|reflexivity].
    assert (X : existsb (fun we =>
                   existsb (fun j => job_id j =? we_job_id we)
                     (filter (JobRoutesDelete.addressed_job
                                (StringToNumber (JobRoutes.jq_params_id jreq))
                                (JobRoutes.getCompanyId jreq)) (jobs d)))
                  (work_entries d) = true).
    { apply existsb_exists. exists we. split; [assumption|].
      apply existsb_exists. exists j. split; [now apply filter_In|now apply Z.eqb_eq]. }
    rewrite X in F. discriminate.
Qed.

End Kept.

Section Rows.
Context {P : Platform}.

Lemma select_entry_stored :
  forall c d id company limit e,
    WorkEntryRoutes.select_entry c d id company limit = Some e ->
    In e (work_entries d)
    /\ WorkEntryRoutes.addressed id company e = true
    /\ WorkEntryRoutes.dateClause c limit e = true
    /\ exists old, WorkEntryRoutes.stored_entry d id company = Some old.
Proof.
  intros c d id company limit e H. unfold WorkEntryRoutes.select_entry in H.
  apply find_some in H as [Hin Hb]. apply andb_prop in Hb as [A D].
  repeat split; try assumption.
  unfold WorkEntryRoutes.stored_entry.
  destruct (find _ (work_entries d)) as [old|] eqn:F; [eauto|].
  rewrite (find_none _ _ F e Hin) in A. discriminate.
Qed.

Lemma put_validate_hours :
  forall req,
    WorkEntryRoutes.put_validate req = None ->
    WorkEntryRoutes.not_positive (ToNumber (amount (body req))) = false.
Proof.
  intros req. unfold WorkEntryRoutes.put_validate.
  destruct (_ || _); [discriminate|].
  destruct (negb _); [discriminate|].
  destruct (_ || _ || _ || _); [discriminate|].
  destruct (WorkEntryRoutes.not_positive _); [discriminate|reflexivity].
Qed.

Lemma doUpdate_inv :
  forall d req id company jobId hrs tier fees can cr ct wr wt changes can' fees' d',
    WorkEntryRoutes.doUpdate d req id company jobId hrs tier fees can cr ct wr wt
    = (Json 200 (Updated changes can' fees'), d') ->
    changes = 1 /\ can' = can
    /\ fees' = match fees with Some f => f | None => ct end
    /\ exists old row,
         WorkEntryRoutes.stored_entry d id company = Some old
         /\ d' = with_work_entries d (WorkEntryRoutes.replace_row row (work_entries d))
                   (work_entries_seq d)
         /\ we_id row = we_id old /\ we_company_id row = we_company_id old
         /\ we_created_at row = we_created_at old
         /\ we_job_id row = jobId
         /\ we_amount row = hrs
         /\ we_customer_rate row = cr /\ we_customer_total row = ct
         /\ we_wage_rate row = wr /\ we_wage_total row = wt
         /\ we_fees_collected row
            = (if PrimFloat.is_nan fees' then None else Some fees')
         /\ PrimFloat.is_nan ct = false
         /\ we_job_no1 row = trim (ToString (job_no1 (body req))).
Proof.
  intros d req id company jobId hrs tier fees can cr ct wr wt changes can' fees' d'.
  unfold WorkEntryRoutes.doUpdate.
  destruct (trim_or_null (job_no2 (body req))); [|discriminate].
  destruct (trim_or_null (note (body req))); [|discriminate].
  unfold WorkEntryRoutes.run_update.
  destruct (WorkEntryRoutes.stored_entry d id company) as [old|] eqn:S; [|discriminate].
  destruct (WorkEntryRoutes.store_row _ _ _ _ _) as [e|row] eqn:R.
  { destruct (WorkEntryRoutes.is_job_no1_conflict e); discriminate. }
  simpl. intros H; injection H as <- <- <- <-.
  destruct (store_row_inv _ _ _ _ _ _ R) as (wk & wd & _ & _ & Hrow & _ & N & _).
  simpl in N, Hrow.
  assert (Nct : PrimFloat.is_nan ct = false).
  { revert N. destruct (PrimFloat.is_nan hrs); [discriminate|].
    destruct (PrimFloat.is_nan wr); [discriminate|].
    destruct (PrimFloat.is_nan wt); [discriminate|].
    destruct (PrimFloat.is_nan cr); [discriminate|].
    destruct (PrimFloat.is_nan ct); [discriminate|reflexivity]. }
  repeat split; try reflexivity.
  exists old, row. rewrite Hrow. simpl. repeat split; try reflexivity; assumption.
Qed.

(** X12.  A successful update rewrites the one row stored under the request's
    id and company and leaves the row's identity alone: id, company and
    creation time are those of the row before.  The row takes the hours
    of the request, both totals are rate times hours, hours and both
    rates are finite and positive, and a holder of WORK_ENTRY_EDIT_RATES
    gets the rates of the request.  The fees of the answer are the fees
    stored: those of the request, which are not negative, or else the
    customer total.  Every other row of the table is as before. *)
Theorem update_rewrites_the_addressed_row :
  forall (c : clock) (d : database) (req : request)
         (changes : Z) (canEditRates : bool) (fees : float) (d' : database),
    WorkEntryRoutes.put c d req = (Json 200 (Updated changes canEditRates fees), d') ->
    changes = 1
    /\ canEditRates = WorkEntryRoutes.hasPermission d req "WORK_ENTRY_EDIT_RATES"
    /\ exists old row,
         WorkEntryRoutes.stored_entry d (StringToNumber (params_id req))
           (WorkEntryRoutes.getCompanyId req) = Some old
         /\ d' = with_work_entries d (WorkEntryRoutes.replace_row row (work_entries d))
                   (work_entries_seq d)
         /\ we_id row = we_id old /\ we_company_id row = we_company_id old
         /\ we_created_at row = we_created_at old
         /\ (forall o, In o (work_entries d') ->
               o = row \/ (In o (work_entries d) /\ we_id o <> we_id old))
         /\ we_amount row = ToNumber (amount (body req))
         /\ WorkEntryRoutes.not_positive (we_amount row) = false
         /\ WorkEntryRoutes.not_positive (we_customer_rate row) = false
         /\ WorkEntryRoutes.not_positive (we_wage_rate row) = false
         /\ we_customer_total row = (we_customer_rate row * we_amount row)%float
         /\ we_wage_total row = (we_wage_rate row * we_amount row)%float
         /\ (canEditRates = true ->
               we_customer_rate row = ToNumber (customer_rate (body req))
               /\ we_wage_rate row = ToNumber (wage_rate (body req)))
         /\ we_fees_collected row = Some fees
         /\ fees = match toNumOrNull (fees_collected (body req)) with
                   | Some f => f
                   | None => we_customer_total row
                   end
         /\ WorkEntryRoutes.is_negative (toNumOrNull (fees_collected (body req))) = false.
Proof.
  intros c d req changes can fees d'.
  unfold WorkEntryRoutes.put, WorkEntryRoutes.put_handler.
  destruct (Permission.requirePermission _ _ _) as [r|] eqn:Hp.
  { apply requirePermission_not_updated in Hp.
    intros H; injection H as -> _. discriminate. }
  destruct (WorkEntryRoutes.put_validate req) as [r|] eqn:V.
  { apply put_validate_not_updated in V.
    intros H; injection H as -> _. discriminate. }
  apply put_validate_hours in V.
  destruct (WorkEntryRoutes.select_entry _ _ _ _ _) as [existing|]; [|discriminate].
  unfold WorkEntryRoutes.put_existing.
  destruct (WorkEntryRoutes.select_job _ _ _); [|discriminate].
  destruct (_ && negb _); [discriminate|].
  destruct (WorkEntryRoutes.is_negative _) eqn:Neg; [discriminate|].
  destruct (WorkEntryRoutes.hasPermission d req "WORK_ENTRY_EDIT_RATES") eqn:Can; cbn [negb].
  - destruct (WorkEntryRoutes.not_positive (ToNumber (customer_rate _))) eqn:Pc;
      [discriminate|].
    destruct (WorkEntryRoutes.not_positive (ToNumber (wage_rate _))) eqn:Pw; [discriminate|].
    intros H. apply doUpdate_inv in H
      as (-> & -> & Hf & old & row & S & -> & Hid & Hco & Hcr & _ & Ha & Hr & Ht & Hw
          & Hwt & Hfees & Nct & _).
    split; [reflexivity|]. split; [reflexivity|].
    exists old, row. rewrite Ha, Hr, Ht, Hw, Hwt.
    assert (Nf : PrimFloat.is_nan fees = false).
    { rewrite Hf. destruct (toNumOrNull (fees_collected (body req))) eqn:F; [|exact Nct].
      eapply isFinite_not_nan, toNumOrNull_finite; eassumption. }
    rewrite Nf in Hfees.
    repeat split; try assumption; try reflexivity.
    intros o Ho. simpl in Ho. rewrite <- Hid. now apply in_replace_row.
  - destruct (WorkEntryRoutes.select_rates _ _ _ _) as [[rc rw]|]; [|discriminate].
    destruct (WorkEntryRoutes.not_positive (WorkEntryRoutes.number_or_zero rc)) eqn:Pc;
      [discriminate|].
    destruct (WorkEntryRoutes.not_positive (WorkEntryRoutes.number_or_zero rw)) eqn:Pw;
      [discriminate|].
    intros H. apply doUpdate_inv in H
      as (-> & -> & Hf & old & row & S & -> & Hid & Hco & Hcr & _ & Ha & Hr & Ht & Hw
          & Hwt & Hfees & Nct & _).
    split; [reflexivity|]. split; [reflexivity|].
    exists old, row. rewrite Ha, Hr, Ht, Hw, Hwt.
    assert (Nf : PrimFloat.is_nan fees = false).
    { rewrite Hf. destruct (toNumOrNull (fees_collected (body req))) eqn:F; [|exact Nct].
      eapply isFinite_not_nan, toNumOrNull_finite; eassumption. }
    rewrite Nf in Hfees.
    repeat split; try assumption; try reflexivity; try discriminate.
    intros o Ho. simpl in Ho. rewrite <- Hid. now apply in_replace_row.
Qed.

Lemma filter_same_key_length :
  forall (l : list work_entry) (p : work_entry -> bool) (y : Z),
    NoDup (map we_id l) ->
    (forall o, p o = true -> we_id o = y) ->
    (List.length (filter p l) <= 1)%nat.
Proof.
  intros l p y Hn Hp.
  pose proof (NoDup_map_filter _ _ we_id p l Hn) as N.
  destruct (filter p l) as [|a [|b rest]] eqn:F; simpl; try lia.
  exfalso. simpl in N. inversion N as [|x xs Hx _]; subst. apply Hx. left.
  assert (Ia : In a (filter p l)) by (rewrite F; left; reflexivity).
  assert (Ib : In b (filter p l)) by (rewrite F; right; left; reflexivity).
  apply filter_In in Ia as [_ Pa]. apply filter_In in Ib as [_ Pb].
  rewrite (Hp a Pa), (Hp b Pb). reflexivity.
Qed.

Lemma addressed_id :
  forall id company a b,
    WorkEntryRoutes.addressed id company a = true ->
    WorkEntryRoutes.addressed id company b = true ->
    we_id a = we_id b.
Proof.
  intros id company a b. unfold WorkEntryRoutes.addressed, num_eq_int, sql_eq_int.
  destruct (bind_number id); try discriminate.
  intros Ha Hb. apply andb_prop in Ha as [Ha _]. apply andb_prop in Hb as [Hb _].
  apply Z.eqb_eq in Ha, Hb. congruence.
Qed.

(** X13.  A delete that answers "Deleted" removed exactly one row, the row
    stored under the request's id and company, which lies inside the
    caller's edit window; every other row is kept, and nothing is stored
    under that id and company afterwards. *)
Theorem delete_removes_the_addressed_row :
  forall (c : clock) (d : database) (req : request) (changes : Z) (d' : database),
    NoDup (map we_id (work_entries d)) ->
    WorkEntryRoutes.delete c d req = (Json 200 (Deleted changes), d') ->
    changes = 1
    /\ exists old,
         WorkEntryRoutes.select_entry c d (parseInt10 (params_id req))
           (WorkEntryRoutes.getCompanyId req)
           (WorkEntryRoutes.getDaysLimitForUser d req) = Some old
         /\ WorkEntryRoutes.dateClause c (WorkEntryRoutes.getDaysLimitForUser d req) old
            = true
         /\ (forall o, In o (work_entries d') <-> In o (work_entries d) /\ o <> old)
         /\ WorkEntryRoutes.stored_entry d' (parseInt10 (params_id req))
              (WorkEntryRoutes.getCompanyId req) = None
         /\ work_entries_seq d' = work_entries_seq d.
Proof.
  intros c d req changes d' Hn.
  unfold WorkEntryRoutes.delete, WorkEntryRoutes.delete_handler.
  destruct (Permission.requirePermission _ _ _) as [r|] eqn:Hp.
  { unfold Permission.requirePermission, Permission.unauthorized, Permission.forbidden in Hp.
    destruct (session_user_of _) as [u|];
      [|destruct (is_api req); injection Hp as <-; discriminate].
    destruct (su_id u =? 0);
      [destruct (is_api req); injection Hp as <-; discriminate|].
    destruct (is_admin u); [discriminate|].
    destruct (Permission.select_ok _ _ _); [discriminate|].
    destruct (is_api req); injection Hp as <-; discriminate. }
  unfold WorkEntryRoutes.ensureRowWithinLimit.
  destruct (WorkEntryRoutes.select_entry _ _ _ _ _) as [old|] eqn:S; [|discriminate].
  simpl. unfold WorkEntryRoutes.run_delete.
  destruct (_ =? 0) eqn:Z0; [discriminate|].
  intros H; injection H as <- <-.
  destruct (select_entry_stored _ _ _ _ _ _ S) as (Hin & A & D & _).
  split.
  - pose proof (filter_same_key_length (work_entries d)
                  (WorkEntryRoutes.addressed (parseInt10 (params_id req))
                     (WorkEntryRoutes.getCompanyId req)) (we_id old) Hn
                  (fun o Ho => addressed_id _ _ o old Ho A)) as L.
    apply Z.eqb_neq in Z0. lia.
  - exists old. repeat split; try assumption.
    + simpl in H. apply filter_In in H. tauto.
    + simpl in H. apply filter_In in H as [Ho Na]. intros ->.
      rewrite A in Na. discriminate.
    + intros [Ho Ne]. simpl. apply filter_In. split; [assumption|].
      destruct (WorkEntryRoutes.addressed _ _ o) eqn:Ao; [exfalso|reflexivity].
      apply Ne. apply (NoDup_map_inj _ _ we_id (work_entries d)); try assumption.
      exact (addressed_id _ _ o old Ao A).
    + unfold WorkEntryRoutes.stored_entry. simpl.
      destruct (find _ (filter _ _)) as [x|] eqn:F; [exfalso|reflexivity].
      apply find_some in F as [Hx Ax]. apply filter_In in Hx as [_ Nx].
      rewrite Ax in Nx. discriminate.
Qed.

(** X14.  A request for a row that is not stored under its id and company is
    answered as out of the allowed date range, by update and delete
    alike, and the store is left as it was; the "not found" answers of
    the two handlers are never given. *)
Theorem missing_row_is_answered_as_out_of_range :
  forall (c : clock) (d : database) (req : request),
    (Permission.requirePermission "WORK_ENTRY_DELETE" d req = None ->
     WorkEntryRoutes.stored_entry d (parseInt10 (params_id req))
       (WorkEntryRoutes.getCompanyId req) = None ->
     WorkEntryRoutes.delete c d req
     = (Json 403 (Error "You cannot delete this record (out of allowed date range)."), d))
    /\ (Permission.requirePermission "WORK_ENTRY_EDIT" d req = None ->
        WorkEntryRoutes.put_validate req = None ->
        WorkEntryRoutes.stored_entry d (StringToNumber (params_id req))
          (WorkEntryRoutes.getCompanyId req) = None ->
        WorkEntryRoutes.put c d req = (OutOfEditWindow, d))
    /\ fst (WorkEntryRoutes.delete c d req) <> Json 404 (Error "Not found")
    /\ fst (WorkEntryRoutes.put c d req) <> Json 404 (Error "Work entry not found.").
Proof.
  intros c d req. repeat apply conj.
  - intros Hp S. unfold WorkEntryRoutes.delete, WorkEntryRoutes.delete_handler. rewrite Hp.
    unfold WorkEntryRoutes.ensureRowWithinLimit.
    destruct (WorkEntryRoutes.select_entry _ _ _ _ _) as [e|] eqn:E; [|reflexivity].
    apply select_entry_stored in E as (_ & _ & _ & old & O). congruence.
  - intros Hp V S. unfold WorkEntryRoutes.put, WorkEntryRoutes.put_handler. rewrite Hp, V.
    destruct (WorkEntryRoutes.select_entry _ _ _ _ _) as [e|] eqn:E; [|reflexivity].
    apply select_entry_stored in E as (_ & _ & _ & old & O). congruence.
  - unfold WorkEntryRoutes.delete, WorkEntryRoutes.delete_handler.
    destruct (Permission.requirePermission _ _ _) as [r|] eqn:Hp.
    { unfold Permission.requirePermission, Permission.unauthorized, Permission.forbidden in Hp.
      destruct (session_user_of _) as [u|];
        [|destruct (is_api req); injection Hp as <-; discriminate].
      destruct (su_id u =? 0);
        [destruct (is_api req); injection Hp as <-; discriminate|].
      destruct (is_admin u); [discriminate|].
      destruct (Permission.select_ok _ _ _); [discriminate|].
      destruct (is_api req); injection Hp as <-; discriminate. }
    unfold WorkEntryRoutes.ensureRowWithinLimit.
    destruct (WorkEntryRoutes.select_entry _ _ _ _ _) as [e|] eqn:E; [|discriminate].
    simpl. unfold WorkEntryRoutes.run_delete.
    destruct (_ =? 0) eqn:Z0; [exfalso|discriminate].
    apply select_entry_stored in E as (Hin & A & _).
    assert (I : In e (filter (WorkEntryRoutes.addressed (parseInt10 (params_id req))
                                (WorkEntryRoutes.getCompanyId req)) (work_entries d)))
      by (apply filter_In; split; assumption).
    apply Z.eqb_eq in Z0. destruct (filter _ _); [contradiction|simpl in Z0; lia].
  - unfold WorkEntryRoutes.put, WorkEntryRoutes.put_handler.
    destruct (Permission.requirePermission _ _ _) as [r|] eqn:Hp.
    { unfold Permission.requirePermission, Permission.unauthorized, Permission.forbidden in Hp.
      destruct (session_user_of _) as [u|];
        [|destruct (is_api req); injection Hp as <-; discriminate].
      destruct (su_id u =? 0);
        [destruct (is_api req); injection Hp as <-; discriminate|].
      destruct (is_admin u); [discriminate|].
      destruct (Permission.select_ok _ _ _); [discriminate|].
      destruct (is_api req); injection Hp as <-; discriminate. }
    destruct (WorkEntryRoutes.put_validate req) as [r|] eqn:V.
    { revert V. unfold WorkEntryRoutes.put_validate.
      repeat match goal with |- context [if ?b then _ else _] => destruct b end;
        intros V; try discriminate; injection V as <-; discriminate. }
    destruct (WorkEntryRoutes.select_entry _ _ _ _ _) as [e|] eqn:E; [|discriminate].
    apply select_entry_stored in E as (_ & _ & _ & old & O).
    unfold WorkEntryRoutes.put_existing.
    destruct (WorkEntryRoutes.select_job _ _ _); [|simpl; discriminate].
    destruct (_ && negb _); [discriminate|].
    destruct (WorkEntryRoutes.is_negative _); [discriminate|].
    assert (U : forall jobId hrs tier fees can cr ct wr wt,
               fst (WorkEntryRoutes.doUpdate d req (StringToNumber (params_id req))
                      (WorkEntryRoutes.getCompanyId req) jobId hrs tier fees can
                      cr ct wr wt)
               <> Json 404 (Error "Work entry not found.")).
    { intros. unfold WorkEntryRoutes.doUpdate.
      destruct (trim_or_null (job_no2 (body req))); [|discriminate].
      destruct (trim_or_null (note (body req))); [|discriminate].
      unfold WorkEntryRoutes.run_update. rewrite O.
      destruct (WorkEntryRoutes.store_row _ _ _ _ _) as [er|row].
      - destruct (WorkEntryRoutes.is_job_no1_conflict er); discriminate.
      - discriminate. }
    destruct (negb _).
    + destruct (WorkEntryRoutes.select_rates _ _ _ _) as [[rc rw]|]; [|discriminate].
      destruct (WorkEntryRoutes.not_positive _); [discriminate|].
      destruct (WorkEntryRoutes.not_positive _); [discriminate|].
      apply U.
    + destruct (WorkEntryRoutes.not_positive _); [discriminate|].
      destruct (WorkEntryRoutes.not_positive _); [discriminate|].
      apply U.
Qed.

End Rows.

Section Window.
Context {P : Platform}.

(** X15.  The request passes the permission check, and [entry], dated day [e],
    is the one row stored under its id and company.  With a window of [n]
    days an entry older than [today - n] is refused and the store is left
    as it was; an entry on or after the boundary is deleted, the answer
    counts one change and nothing is stored under the id afterwards.
    Without a window the entry is deleted whatever its date. *)
Theorem edit_window_gates_delete :
  forall (c : clock) (d : database) (req : request) (entry : work_entry)
         (limit : option Z) (e : Z),
    Permission.requirePermission "WORK_ENTRY_DELETE" d req = None ->
    WorkEntryRoutes.getDaysLimitForUser d req = limit ->
    filter (WorkEntryRoutes.addressed (parseInt10 (params_id req))
              (WorkEntryRoutes.getCompanyId req)) (work_entries d) = [entry] ->
    we_work_date entry = iso_date e ->
    in_calendar e = true ->
    (forall n, limit = Some n -> in_calendar (today c - n) = true ->
       (e < today c - n ->
        WorkEntryRoutes.delete c d req
        = (Json 403 (Error "You cannot delete this record (out of allowed date range)."),
           d))
       /\ (today c - n <= e ->
           fst (WorkEntryRoutes.delete c d req) = Json 200 (Deleted 1)
           /\ WorkEntryRoutes.stored_entry (snd (WorkEntryRoutes.delete c d req))
                (parseInt10 (params_id req)) (WorkEntryRoutes.getCompanyId req) = None))
    /\ (limit = None ->
        fst (WorkEntryRoutes.delete c d req) = Json 200 (Deleted 1)
        /\ WorkEntryRoutes.stored_entry (snd (WorkEntryRoutes.delete c d req))
             (parseInt10 (params_id req)) (WorkEntryRoutes.getCompanyId req) = None).
Proof.
  intros c d req entry limit e Hp Hl Hrow Hdate He.
  pose proof (select_entry_of_single c d _ _ limit entry Hrow) as S.
  assert (Gone : forall l : list work_entry,
             find (WorkEntryRoutes.addressed (parseInt10 (params_id req))
                     (WorkEntryRoutes.getCompanyId req))
               (filter (fun we => negb (WorkEntryRoutes.addressed
                                          (parseInt10 (params_id req))
                                          (WorkEntryRoutes.getCompanyId req) we)) l)
             = None).
  { intros l. destruct (find _ (filter _ l)) as [x|] eqn:F; [exfalso|reflexivity].
    apply find_some in F as [Hx Ax]. apply filter_In in Hx as [_ Nx].
    rewrite Ax in Nx. discriminate. }
  assert (Run : WorkEntryRoutes.select_entry c d (parseInt10 (params_id req))
                  (WorkEntryRoutes.getCompanyId req) limit = Some entry ->
                fst (WorkEntryRoutes.delete c d req) = Json 200 (Deleted 1)
                /\ WorkEntryRoutes.stored_entry (snd (WorkEntryRoutes.delete c d req))
                     (parseInt10 (params_id req)) (WorkEntryRoutes.getCompanyId req)
                   = None).
  { intros Sel. unfold WorkEntryRoutes.delete, WorkEntryRoutes.delete_handler.
    rewrite Hp, Hl. unfold WorkEntryRoutes.ensureRowWithinLimit. rewrite Sel.
    cbn [negb]. unfold WorkEntryRoutes.run_delete. rewrite Hrow. simpl.
    split; [reflexivity|]. apply Gone. }
  split.
  - intros n -> Hc.
    rewrite (dateClause_iso c n entry e Hdate He Hc) in S.
    split.
    + intros Hlt. destruct (Z.leb_spec (today c - n) e); [lia|].
      unfold WorkEntryRoutes.delete, WorkEntryRoutes.delete_handler.
      rewrite Hp, Hl. unfold WorkEntryRoutes.ensureRowWithinLimit. rewrite S.
      reflexivity.
    + intros Hle. destruct (Z.leb_spec (today c - n) e); [|lia]. now apply Run.
  - intros ->. simpl in S. now apply Run.
Qed.

End Window.

Section Jobs.
Context {P : Platform}.

Lemma existsb_false_forall :
  forall (A : Type) (f : A -> bool) (l : list A),
    existsb f l = false -> forall x, In x l -> f x = false.
Proof.
  intros A f l H x Hx. destruct (f x) eqn:E; [|reflexivity].
  assert (X : existsb f l = true) by (apply existsb_exists; eauto).
  rewrite X in H. discriminate.
Qed.

(** X16.  Deleting a job never touches the work entries.  A job that a work
    entry references is kept: the statement fails on the foreign key, the
    answer is 500 with the store as it was.  When no job is stored under
    the id and company the answer is 404 and jobs and wage rates are as
    before.  A delete that answers "Deleted" removed exactly the jobs
    addressed, and with them exactly the wage rates of those jobs. *)
Theorem job_delete_restricts_and_cascades :
  forall (d : database) (req : JobRoutes.job_request),
    work_entries (snd (JobRoutesDelete.delete d req)) = work_entries d
    /\ ((exists we j,
           In we (work_entries d) /\ In j (jobs d)
           /\ JobRoutesDelete.addressed_job (StringToNumber (JobRoutes.jq_params_id req))
                (JobRoutes.getCompanyId req) j = true
           /\ we_job_id we = job_id j) ->
        JobRoutesDelete.delete d req
        = (Json 500 (Error "SQLITE_CONSTRAINT: FOREIGN KEY constraint failed"), d))
    /\ ((forall j, In j (jobs d) ->
           JobRoutesDelete.addressed_job (StringToNumber (JobRoutes.jq_params_id req))
             (JobRoutes.getCompanyId req) j = false) ->
        fst (JobRoutesDelete.delete d req) = Json 404 (Error "Not found")
        /\ jobs (snd (JobRoutesDelete.delete d req)) = jobs d
        /\ job_wages (snd (JobRoutesDelete.delete d req)) = job_wages d)
    /\ (fst (JobRoutesDelete.delete d req) = Json 200 (Message "Deleted") ->
        (exists j, In j (jobs d)
           /\ JobRoutesDelete.addressed_job (StringToNumber (JobRoutes.jq_params_id req))
                (JobRoutes.getCompanyId req) j = true)
        /\ (forall j, In j (jobs (snd (JobRoutesDelete.delete d req))) <->
              In j (jobs d)
              /\ JobRoutesDelete.addressed_job
                   (StringToNumber (JobRoutes.jq_params_id req))
                   (JobRoutes.getCompanyId req) j = false)
        /\ (forall jw, In jw (job_wages (snd (JobRoutesDelete.delete d req))) <->
              In jw (job_wages d)
              /\ forall j, In j (jobs d) ->
                   JobRoutesDelete.addressed_job
                     (StringToNumber (JobRoutes.jq_params_id req))
                     (JobRoutes.getCompanyId req) j = true ->
                   job_id j <> jw_job_id jw)).
Proof.
  intros d req.
  set (jobId := StringToNumber (JobRoutes.jq_params_id req)).
  set (companyId := JobRoutes.getCompanyId req).
  unfold JobRoutesDelete.delete, JobRoutesDelete.run_delete_job.
  fold jobId companyId.
  set (doomed := filter (JobRoutesDelete.addressed_job jobId companyId) (jobs d)).
  repeat apply conj.
  - destruct (existsb _ (work_entries d)); [reflexivity|].
    destruct (_ =? 0); reflexivity.
  - intros (we & j & Hwe & Hj & A & E).
    assert (X : existsb (fun we => existsb (fun j => job_id j =? we_job_id we) doomed)
                  (work_entries d) = true).
    { apply existsb_exists. exists we. split; [assumption|].
      apply existsb_exists. exists j. split; [now apply filter_In|now apply Z.eqb_eq]. }
    rewrite X. reflexivity.
  - intros None.
    assert (D : doomed = []).
    { unfold doomed. clear doomed. induction (jobs d) as [|a l IH]; [reflexivity|].
      simpl. rewrite (None a (or_introl eq_refl)). apply IH.
      intros j Hj. apply None. now right. }
    rewrite D. simpl.
    assert (X : existsb (fun _ : work_entry => false) (work_entries d) = false)
      by (induction (work_entries d); simpl; auto).
    rewrite X. simpl. repeat split.
    + clear D X doomed. induction (jobs d) as [|a l IH]; [reflexivity|].
      simpl. rewrite (None a (or_introl eq_refl)). simpl. f_equal. apply IH.
      intros j Hj. apply None. now right.
    + induction (job_wages d) as [|a l IH]; [reflexivity|]. simpl. now f_equal.
  - destruct (existsb _ (work_entries d)); [discriminate|].
    destruct (_ =? 0) eqn:Z0; [discriminate|]. intros _.
    apply Z.eqb_neq in Z0. simpl. repeat apply conj.
    + subst doomed.
      destruct (filter _ (jobs d)) as [|j rest] eqn:D; [simpl in Z0; lia|].
      assert (I : In j (filter (JobRoutesDelete.addressed_job jobId companyId) (jobs d)))
        by (rewrite D; left; reflexivity).
      apply filter_In in I. exists j. exact I.
    + intros j. rewrite filter_In. split; intros [H A]; (split; [assumption|]).
      * now apply negb_true_iff.
      * now apply negb_true_iff.
    + intros jw. rewrite filter_In. split; intros [H A]; (split; [assumption|]).
      * apply negb_true_iff in A. intros j Hj Aj E.
        assert (Ij : In j doomed) by (now apply filter_In).
        pose proof (existsb_false_forall _ _ _ A j Ij) as F. simpl in F.
        apply Z.eqb_neq in F. contradiction.
      * apply negb_true_iff. destruct (existsb _ doomed) eqn:X; [exfalso|reflexivity].
        apply existsb_exists in X as (j & Hj & E). apply filter_In in Hj as [Hj Aj].
        apply Z.eqb_eq in E. exact (A j Hj Aj E).
Qed.

Lemma run_upsert_wage_keys :
  forall d company jobId r,
    wage_keys_ok (job_wages d) ->
    wage_keys_ok (job_wages (JobRoutes.run_upsert_wage d company jobId r)).
Proof.
  intros d company jobId [tier rate] K. unfold JobRoutes.run_upsert_wage.
  destruct (bind_number company) as [|co|]; try exact K.
  destruct (bind_number jobId) as [|job|]; try exact K.
  destruct (bind_number tier) as [|t|]; try exact K.
  destruct (PrimFloat.is_nan rate); [exact K|].
  destruct (existsb _ (job_wages d)) eqn:E.
  - simpl. unfold wage_keys_ok in *. rewrite map_map.
    erewrite map_ext; [exact K|].
    intros jw. simpl. destruct (_ && _); reflexivity.
  - destruct (_ && _ && _); [|exact K].
    simpl. unfold wage_keys_ok in *. rewrite map_app. simpl.
    apply NoDup_app; [assumption|repeat constructor; intros []|].
    intros k Hk [<-|[]]. apply in_map_iff in Hk as (jw & Ek & Hjw).
    injection Ek as E1 E2.
    pose proof (existsb_false_forall _ _ _ E jw Hjw) as F. simpl in F.
    rewrite E1, E2, !Z.eqb_refl in F. discriminate.
Qed.

(** X17.  The UNIQUE index of [job_wages] on (job_id, tier_id) survives the
    update of a job with any list of wage rates, and the delete of a job. *)
Theorem job_wage_keys_are_kept :
  forall (d : database) (req : JobRoutes.job_request),
    wage_keys_ok (job_wages d) ->
    wage_keys_ok (job_wages (snd (JobRoutes.put d req)))
    /\ wage_keys_ok (job_wages (snd (JobRoutesDelete.delete d req))).
Proof.
  intros d req K. split.
  - unfold JobRoutes.put.
    destruct (JobRoutes.run_update_job _ _ _ _ _ _ _) as [e|[changes d1]] eqn:R;
      [exact K|].
    apply run_update_job_frame in R as (_ & _ & W & _).
    destruct (changes =? 0); simpl; [now rewrite W|].
    rewrite <- W in K. clear W.
    generalize dependent d1.
    induction (JobRoutes.normalizeWageRates _) as [|r rates IH]; intros d1 K; simpl;
      [exact K|].
    apply IH. now apply run_upsert_wage_keys.
  - destruct (job_delete_cases d req) as [->|[_ ->]]; [exact K|].
    simpl. unfold wage_keys_ok in *. now apply NoDup_map_filter.
Qed.

End Jobs.

Section Gates.
Context {P : Platform}.

(** X18.  The management routes ask for a role whose code reads ADMIN in
    upper case; the administrator flag plays no part.  In a store where
    no role has such a code, and outside development, the permission
    toggle is refused for every request, and a logged-in user who
    carries the administrator flag is shown the 403 page.  In
    development nobody needs to log in: the request is served as user 1,
    and the toggle runs exactly when the role of user 1 grants
    PAGE_MANAGEMENT. *)
Theorem permission_toggle_needs_a_role_named_admin :
  forall (toUpperCase : string -> string) (d : database) (req : request),
    (forall r, In r (roles d) -> toUpperCase (role_code r) <> "ADMIN") ->
    toUpperCase "" <> "ADMIN" ->
    (exists s, Auth.toggle_route false toUpperCase d req = inl s)
    /\ (forall user,
          session_user_of (req_session req) = Some user ->
          0 < su_id user -> is_admin user = true ->
          Auth.toggle_route false toUpperCase d req = inl Auth.Forbidden403)
    /\ (Permission.select_ok d 1 "PAGE_MANAGEMENT" = true ->
        Auth.toggle_route true toUpperCase d req
        = inr (ManagementRoutes.toggle_permission d (params_id req)))
    /\ (Permission.select_ok d 1 "PAGE_MANAGEMENT" = false ->
        exists r, Auth.toggle_route true toUpperCase d req = inl (Auth.Denied r)).
Proof.
  intros up d req Hroles Hempty.
  assert (A : forall q, Auth.requireAdmin false up d q <> None).
  { intros q. unfold Auth.requireAdmin.
    destruct (session_user_of (req_session q)) as [user|]; [|discriminate].
    destruct (su_id user <=? 0); [discriminate|].
    unfold Auth.select_role_code.
    destruct (find _ (users d)) as [u|].
    - destruct (find _ (roles d)) as [r|] eqn:F; simpl.
      + apply find_some in F as [Hr _]. specialize (Hroles r Hr).
        destruct (String.eqb_spec (up (role_code r)) "ADMIN");
          [contradiction|discriminate].
      + destruct (String.eqb_spec (up "") "ADMIN"); [contradiction|discriminate].
    - destruct (String.eqb_spec (up "") "ADMIN"); [contradiction|discriminate]. }
  repeat apply conj.
  - unfold Auth.toggle_route, Auth.requireAuth.
    destruct (session_user_of (req_session req)) as [user|] eqn:S; [|eauto].
    destruct (Permission.requirePermission _ _ _); [eauto|].
    rewrite S. specialize (A req).
    destruct (Auth.requireAdmin false up d req); [eauto|contradiction].
  - intros user S Hid Hadm.
    unfold Auth.toggle_route, Auth.requireAuth. rewrite S.
    unfold Permission.requirePermission. rewrite S, Hadm.
    destruct (Z.eqb_spec (su_id user) 0) as [E|_]; [lia|].
    specialize (A req). revert A. unfold Auth.requireAdmin. rewrite S.
    destruct (Z.leb_spec (su_id user) 0) as [L|_]; [lia|].
    cbv zeta. destruct (String.eqb _ "ADMIN"); [intros A; now contradiction A|reflexivity].
  - intros Hok. unfold Auth.toggle_route, Auth.requireAuth, Permission.requirePermission.
    simpl. unfold is_admin. simpl. rewrite Hok. reflexivity.
  - intros Hno. unfold Auth.toggle_route, Auth.requireAuth, Permission.requirePermission.
    simpl. unfold is_admin. simpl. rewrite Hno. eauto.
Qed.

End Gates.

(** ** Wider windows *)

Lemma ascii_compare_N :
  forall a b, Ascii.compare a b = N.compare (N_of_ascii a) (N_of_ascii b).
Proof. reflexivity. Qed.

Lemma string_compare_trans_le :
  forall s1 s2 s3,
    String.compare s1 s2 <> Gt -> String.compare s2 s3 <> Gt ->
    String.compare s1 s3 <> Gt.
Proof.
  induction s1 as [|a s1 IH]; intros [|b s2] [|c s3]; simpl; try congruence.
  rewrite !ascii_compare_N.
  destruct (N.compare_spec (N_of_ascii a) (N_of_ascii b)) as [E1|L1|G1];
    destruct (N.compare_spec (N_of_ascii b) (N_of_ascii c)) as [E2|L2|G2];
    try congruence; intros H1 H2.
  - rewrite E1, E2, N.compare_refl. now apply (IH s2).
  - rewrite E1. now rewrite (proj2 (N.compare_lt_iff _ _) L2).
  - rewrite <- E2. now rewrite (proj2 (N.compare_lt_iff _ _) L1).
  - now rewrite (proj2 (N.compare_lt_iff _ _) (N.lt_trans _ _ _ L1 L2)).
Qed.

Lemma string_leb_trans :
  forall s1 s2 s3,
    String.leb s1 s2 = true -> String.leb s2 s3 = true -> String.leb s1 s3 = true.
Proof.
  intros s1 s2 s3. unfold String.leb.
  pose proof (string_compare_trans_le s1 s2 s3) as T.
  destruct (String.compare s1 s2); destruct (String.compare s2 s3);
    destruct (String.compare s1 s3); try reflexivity; try discriminate;
    intros _ _; exfalso; apply T; congruence.
Qed.

Section Wider.
Context {P : Platform}.

(** X19.  Among windows whose cutoffs fall in the years 0000 to 9999, a
    wider one admits whatever a narrower one admits, whatever text the
    work date of the entry is: with [n <= m] and both [today - n] and
    [today - m] in those years, an entry that passes the date clause of
    [n] days passes that of [m] days, a request that
    [ensureRowWithinLimit] lets through with [n] days it lets through
    with [m] days and without a window, and the rows listed with [n]
    days are listed with [m] days. *)
Theorem wider_window_admits_more :
  forall (c : clock) (d : database) (n m : Z),
    n <= m ->
    in_calendar (today c - n) = true ->
    in_calendar (today c - m) = true ->
    (forall we, WorkEntryRoutes.dateClause c (Some n) we = true ->
                WorkEntryRoutes.dateClause c (Some m) we = true)
    /\ (forall id company,
          WorkEntryRoutes.ensureRowWithinLimit c d id company (Some n) = true ->
          WorkEntryRoutes.ensureRowWithinLimit c d id company (Some m) = true
          /\ WorkEntryRoutes.ensureRowWithinLimit c d id company None = true)
    /\ (forall company we,
          In we (filter (WorkEntryRoutes.listed c company (Some n)) (work_entries d)) ->
          In we (filter (WorkEntryRoutes.listed c company (Some m)) (work_entries d))).
Proof.
  intros c d n m Hnm Hn Hm.
  assert (D : forall we, WorkEntryRoutes.dateClause c (Some n) we = true ->
                         WorkEntryRoutes.dateClause c (Some m) we = true).
  { intros we. unfold WorkEntryRoutes.dateClause, date_now_minus_days, date_on_or_after.
    rewrite Hn, Hm. apply string_leb_trans.
    rewrite (iso_date_leb _ _ Hm Hn). apply Z.leb_le. lia. }
  split; [exact D|]. split.
  - intros id company. unfold WorkEntryRoutes.ensureRowWithinLimit.
    destruct (WorkEntryRoutes.select_entry c d id company (Some n)) as [e|] eqn:S;
      [intros _|discriminate].
    unfold WorkEntryRoutes.select_entry in *.
    apply find_some in S as [Hin Hb]. apply andb_prop in Hb as [A Dn].
    split.
    + destruct (find _ (work_entries d)) eqn:F; [reflexivity|].
      pose proof (find_none _ _ F e Hin) as X. cbv beta in X.
      rewrite A, (D e Dn) in X. discriminate.
    + destruct (find _ (work_entries d)) eqn:F; [reflexivity|].
      pose proof (find_none _ _ F e Hin) as X. cbv beta in X.
      rewrite A in X. discriminate.
  - intros company we H. apply filter_In in H as [Hin Hb].
    apply filter_In. split; [assumption|].
    unfold WorkEntryRoutes.listed in *. apply andb_prop in Hb as [A Dn].
    now rewrite A, (D we Dn).
Qed.

End Wider.

Lemma wider_window_admits_more_witness :
  WorkEntryRoutes.ensureRowWithinLimit (P := Demo.platform) Demo.clock0 Demo.db0
    1%float 1%float (Some 60)
  = true.
Proof.
  refine (proj1 (proj1 (proj2 (@wider_window_admits_more Demo.platform Demo.clock0
                                 Demo.db0 30 60 _ _ _)) 1%float 1%float _)).
  - lia.
  - reflexivity.
  - reflexivity.
  - reflexivity.
Defined.

(** ** What a job update stores *)

Section JobUpdate.
Context {P : Platform}.

Lemma run_update_job_inv :
  forall d jobId company code type price active changes d',
    JobRoutes.run_update_job d jobId company code type price active = inr (changes, d') ->
    changes <> 0 ->
    exists old row,
      find (fun j => num_eq_int jobId (job_id j) && num_eq_int company (job_company_id j))
           (jobs d) = Some old
      /\ d' = with_jobs d (map (fun j => if job_id j =? job_id old then row else j) (jobs d))
      /\ job_id row = job_id old /\ job_company_id row = job_company_id old
      /\ bind_text code = Some (job_job_code row)
      /\ bind_text type = Some (job_job_type row)
      /\ job_normal_price row = price
      /\ PrimFloat.is_nan price = false
      /\ existsb (fun o => negb (job_id o =? job_id old)
                           && (job_company_id o =? job_company_id old)
                           && String.eqb (job_job_code o) (job_job_code row))
                 (jobs d) = false.
Proof.
  intros d jobId company code type price active changes d'.
  unfold JobRoutes.run_update_job.
  destruct (find _ (jobs d)) as [old|] eqn:F.
  - destruct (bind_text code) as [code'|]; [|discriminate].
    destruct (bind_text type) as [type'|]; [|discriminate].
    destruct (PrimFloat.is_nan price) eqn:N; [discriminate|].
    destruct (bind_number active) as [|a|x]; try discriminate;
      destruct (existsb _ (jobs d)) eqn:U; try discriminate;
      intros H _; injection H as _ <-;
      eexists old, _; repeat split; try reflexivity; exact U.
  - intros H Hc. injection H as <- _. contradiction.
Qed.

Lemma run_upsert_wage_sets :
  forall d companyF jobF t w company job tier,
    bind_number companyF = SqlInt company ->
    bind_number jobF = SqlInt job ->
    bind_number t = SqlInt tier ->
    PrimFloat.is_nan w = false ->
    existsb (Z.eqb company) (companies d) = true ->
    existsb (fun j => job_id j =? job) (jobs d) = true ->
    existsb (fun wt => wt_id wt =? tier) (wage_tiers d) = true ->
    exists jw,
      In jw (job_wages (JobRoutes.run_upsert_wage d companyF jobF (t, w)))
      /\ jw_job_id jw = job /\ jw_tier_id jw = tier /\ jw_wage_rate jw = w.
Proof.
  intros d companyF jobF t w company job tier Hc Hj Ht Hw Ec Ej Et.
  unfold JobRoutes.run_upsert_wage. rewrite Hc, Hj, Ht, Hw.
  destruct (existsb _ (job_wages d)) eqn:E.
  - apply existsb_exists in E as (jw & Hin & K).
    exists (mkJobWage (jw_id jw) (jw_company_id jw) (jw_job_id jw) (jw_tier_id jw) w).
    apply andb_prop in K as [K1 K2]. apply Z.eqb_eq in K1, K2.
    simpl. repeat split; try assumption.
    apply in_map_iff. exists jw. split; [|assumption].
    now rewrite K1, K2, !Z.eqb_refl.
  - rewrite Ec, Ej, Et. simpl.
    eexists. split; [apply in_or_app; right; left; reflexivity|].
    repeat split.
Qed.

Lemma run_upsert_wage_keeps :
  forall d companyF jobF t w job tier x,
    bind_number t <> SqlInt tier ->
    (exists jw, In jw (job_wages d)
       /\ jw_job_id jw = job /\ jw_tier_id jw = tier /\ jw_wage_rate jw = x) ->
    exists jw, In jw (job_wages (JobRoutes.run_upsert_wage d companyF jobF (t, w)))
       /\ jw_job_id jw = job /\ jw_tier_id jw = tier /\ jw_wage_rate jw = x.
Proof.
  intros d companyF jobF t w job tier x Ht (jw & Hin & Kj & Kt & Kw).
  unfold JobRoutes.run_upsert_wage.
  destruct (bind_number companyF) as [|co|]; try (exists jw; auto; fail).
  destruct (bind_number jobF) as [|jb|]; try (exists jw; auto; fail).
  destruct (bind_number t) as [|tr|]; try (exists jw; auto; fail).
  destruct (PrimFloat.is_nan w); [exists jw; auto|].
  destruct (existsb _ (job_wages d)).
  - exists jw. simpl. repeat split; try assumption.
    apply in_map_iff. exists jw. split; [|assumption].
    destruct (jw_tier_id jw =? tr) eqn:E; [|now rewrite andb_false_r].
    apply Z.eqb_eq in E. exfalso. apply Ht. congruence.
  - destruct (_ && _ && _); [|exists jw; auto].
    exists jw. simpl. repeat split; try assumption. apply in_or_app. now left.
Qed.

Lemma upserts_keep :
  forall post d companyF jobF job tier x,
    (forall r, In r post -> bind_number (fst r) <> SqlInt tier) ->
    (exists jw, In jw (job_wages d)
       /\ jw_job_id jw = job /\ jw_tier_id jw = tier /\ jw_wage_rate jw = x) ->
    exists jw,
      In jw (job_wages (fold_left (fun acc r => JobRoutes.run_upsert_wage acc companyF jobF r)
                          post d))
      /\ jw_job_id jw = job /\ jw_tier_id jw = tier /\ jw_wage_rate jw = x.
Proof.
  induction post as [|[t w] post IH]; intros d companyF jobF job tier x Hp H; simpl;
    [exact H|].
  apply IH; [intros r Hr; apply Hp; now right|].
  apply run_upsert_wage_keeps; [|exact H]. apply (Hp (t, w)). now left.
Qed.

Lemma upserts_app :
  forall pre post d companyF jobF,
    fold_left (fun acc r => JobRoutes.run_upsert_wage acc companyF jobF r) (pre ++ post) d
    = fold_left (fun acc r => JobRoutes.run_upsert_wage acc companyF jobF r) post
        (fold_left (fun acc r => JobRoutes.run_upsert_wage acc companyF jobF r) pre d).
Proof. intros. apply fold_left_app. Qed.

(** X20.  A job update that answers "Job updated" rewrote the one job
    stored under the request's id and company, in place: the job keeps
    its id and company and takes code, type and base price of the
    request, the price being a number; no other job of the company has
    the new code, and every other job is as before.  Of the wage rates
    of the request the last one listed for a tier is the one stored for
    the job and that tier afterwards, provided the rate is a number, the
    tier exists and the company of the request exists. *)
Theorem job_update_stores_the_request :
  forall (d : database) (req : JobRoutes.job_request) (d' : database),
    JobRoutes.put d req = (Json 200 (Message "Job updated"), d') ->
    exists old row,
      find (fun j => num_eq_int (StringToNumber (JobRoutes.jq_params_id req)) (job_id j)
                     && num_eq_int (JobRoutes.getCompanyId req) (job_company_id j))
           (jobs d) = Some old
      /\ jobs d' = map (fun j => if job_id j =? job_id old then row else j) (jobs d)
      /\ In row (jobs d')
      /\ job_id row = job_id old /\ job_company_id row = job_company_id old
      /\ bind_text (JobRoutes.jb_job_code (JobRoutes.jq_body req)) = Some (job_job_code row)
      /\ bind_text (JobRoutes.jb_job_type (JobRoutes.jq_body req)) = Some (job_job_type row)
      /\ job_normal_price row
         = ToNumber (or_else (JobRoutes.jb_normal_price (JobRoutes.jq_body req))
                       (JNumber 0%float))
      /\ PrimFloat.is_nan (job_normal_price row) = false
      /\ (forall o, In o (jobs d) -> job_id o <> job_id old ->
            ~ (job_company_id o = job_company_id row
               /\ job_job_code o = job_job_code row))
      /\ (forall pre t w post tier,
            JobRoutes.normalizeWageRates (JobRoutes.jb_wage_rates (JobRoutes.jq_body req))
            = (pre ++ (t, w) :: post)%list ->
            bind_number t = SqlInt tier ->
            (forall r, In r post -> bind_number (fst r) <> SqlInt tier) ->
            PrimFloat.is_nan w = false ->
            In (job_company_id old) (companies d) ->
            (exists wt, In wt (wage_tiers d) /\ wt_id wt = tier) ->
            exists jw,
              In jw (job_wages d')
              /\ jw_job_id jw = job_id old /\ jw_tier_id jw = tier
              /\ jw_wage_rate jw = w).
Proof.
  intros d req d'. unfold JobRoutes.put.
  set (companyF := JobRoutes.getCompanyId req).
  set (jobF := StringToNumber (JobRoutes.jq_params_id req)).
  destruct (JobRoutes.run_update_job _ _ _ _ _ _ _) as [e|[changes d1]] eqn:R;
    [discriminate|].
  destruct (changes =? 0) eqn:Z0; [discriminate|]. apply Z.eqb_neq in Z0.
  intros H. injection H as <-.
  destruct (run_update_job_inv _ _ _ _ _ _ _ _ _ R Z0)
    as (old & row & F & -> & Hid & Hco & Hcode & Htype & Hprice & Hnan & U).
  pose proof (find_some _ _ F) as [Hold A]. apply andb_prop in A as [Aj Ac].
  assert (Bj : bind_number jobF = SqlInt (job_id old)).
  { revert Aj. unfold num_eq_int, sql_eq_int.
    destruct (bind_number jobF); try discriminate. intros E. apply Z.eqb_eq in E.
    now subst. }
  assert (Bc : bind_number companyF = SqlInt (job_company_id old)).
  { revert Ac. unfold num_eq_int, sql_eq_int.
    destruct (bind_number companyF); try discriminate. intros E. apply Z.eqb_eq in E.
    now subst. }
  match goal with
  | |- context [fold_left ?f ?l ?a] =>
      destruct (upserts_frame l a companyF jobF) as (_ & Ft & Fc & Fj)
  end.
  simpl in Ft, Fc, Fj.
  assert (Irow : In row (map (fun j => if job_id j =? job_id old then row else j)
                           (jobs d))).
  { apply in_map_iff. exists old. split; [now rewrite Z.eqb_refl|assumption]. }
  exists old, row. rewrite Fj. simpl.
  split; [exact F|]. split; [reflexivity|]. split; [exact Irow|].
  split; [exact Hid|]. split; [exact Hco|]. split; [exact Hcode|].
  split; [exact Htype|]. split; [exact Hprice|].
  split; [now rewrite Hprice|]. split.
  - intros o Ho Ne [E1 E2].
    assert (X : existsb (fun o => negb (job_id o =? job_id old)
                                  && (job_company_id o =? job_company_id old)
                                  && String.eqb (job_job_code o) (job_job_code row))
                  (jobs d) = true).
    { apply existsb_exists. exists o. split; [assumption|].
      rewrite E1, Hco, E2, Z.eqb_refl, String.eqb_refl, !andb_true_r.
      now apply negb_true_iff, Z.eqb_neq. }
    rewrite X in U. discriminate.
  - intros pre t w post tier Hrates Ht Hpost Hw Hcomp (wt & Hwt & Ewt).
    rewrite Hrates, upserts_app. simpl.
    apply upserts_keep; [exact Hpost|].
    match goal with
    | |- context [fold_left ?f pre ?a] =>
        destruct (upserts_frame pre a companyF jobF) as (_ & Pt & Pc & Pj)
    end.
    simpl in Pt, Pc, Pj.
    apply (run_upsert_wage_sets _ companyF jobF t w (job_company_id old) (job_id old) tier);
      try assumption.
    + rewrite Pc. apply existsb_exists. exists (job_company_id old).
      split; [assumption|apply Z.eqb_refl].
    + rewrite Pj. apply existsb_exists. exists row. split; [exact Irow|].
      now apply Z.eqb_eq.
    + rewrite Pt. apply existsb_exists. exists wt. split; [assumption|].
      now apply Z.eqb_eq.
Qed.

End JobUpdate.

Lemma job_update_stores_the_request_witness :
  exists row jw,
    In row (jobs (snd (JobRoutes.put (P := Demo.platform) Demo.db0 Demo.reprice)))
    /\ job_id row = 1 /\ job_normal_price row = 80%float
    /\ In jw (job_wages (snd (JobRoutes.put (P := Demo.platform) Demo.db0 Demo.reprice)))
    /\ jw_job_id jw = 1 /\ jw_tier_id jw = 1 /\ jw_wage_rate jw = 40%float.
Proof.
  destruct (@job_update_stores_the_request Demo.platform Demo.db0 Demo.reprice
              (snd (JobRoutes.put (P := Demo.platform) Demo.db0 Demo.reprice)) eq_refl)
    as (old & row & F & _ & Hin & Hid & _ & _ & _ & Hp & _ & _ & W).
  assert (E : find (fun j => num_eq_int (StringToNumber (Platform := Demo.platform)
                                           (JobRoutes.jq_params_id Demo.reprice))
                               (job_id j)
                             && num_eq_int (JobRoutes.getCompanyId (P := Demo.platform)
                                              Demo.reprice) (job_company_id j))
                   (jobs Demo.db0)
              = Some (mkJob 1 1 "FOOT60" "Foot reflexology" 30%float (SqlInt 1)))
    by reflexivity.
  rewrite E in F. injection F as <-.
  destruct (W [] 1%float 40%float [] 1 eq_refl eq_refl) as (jw & Hjw & J & T & R).
  - intros r [].
  - reflexivity.
  - left. reflexivity.
  - eexists. split; [left; reflexivity|reflexivity].
  - exists row, jw. split; [exact Hin|]. split; [exact Hid|].
    split; [rewrite Hp; reflexivity|]. split; [exact Hjw|].
    split; [exact J|]. split; [exact T|exact R].
Defined.

(** ** The further properties on the stores of the examples *)

Lemma demo_keys_ok : keys_ok (work_entries Demo.db0).
Proof.
  split.
  - simpl. repeat constructor; simpl; intuition discriminate.
  - intros a b Ha Hb. simpl in Ha, Hb.
    destruct Ha as [<-|[<-|[]]]; destruct Hb as [<-|[<-|[]]]; intros Hc Hj;
      try reflexivity; discriminate Hj.
Qed.

Lemma demo_refs_ok : refs_ok Demo.db0.
Proof.
  intros we Hwe. simpl in Hwe. destruct Hwe as [<-|[<-|[]]];
    (split; [|split]);
    try (eexists; split; [left; reflexivity|reflexivity]);
    intros t Ht; injection Ht as <-;
    (eexists; split; [left; reflexivity|reflexivity]).
Qed.

Lemma demo_wage_keys_ok : wage_keys_ok (job_wages Demo.db0).
Proof. unfold wage_keys_ok. simpl. repeat constructor. intros []. Qed.

Lemma mutations_require_their_permission_witness :
  WorkEntryRoutes.put (P := Demo.platform) Demo.clock0 Demo.db0 Demo.by_staff
  = (Forbidden "WORK_ENTRY_EDIT", Demo.db0)
  /\ WorkEntryRoutes.delete (P := Demo.platform) Demo.clock0 Demo.db0 Demo.by_staff
     = (Forbidden "WORK_ENTRY_DELETE", Demo.db0)
  /\ WorkEntryRoutes.delete (P := Demo.platform) Demo.clock0 Demo.db0 Demo.create_anonymous
     = (Unauthenticated, Demo.db0).
Proof.
  destruct (@mutations_require_their_permission Demo.platform Demo.clock0 Demo.db0
              Demo.by_staff eq_refl) as [_ H].
  destruct (H Demo.staff eq_refl ltac:(discriminate) eq_refl) as [H1 H2].
  destruct (@mutations_require_their_permission Demo.platform Demo.clock0 Demo.db0
              Demo.create_anonymous eq_refl) as [A _].
  split; [exact (H1 eq_refl)|]. split; [exact (H2 eq_refl)|exact (proj2 (A eq_refl))].
Defined.

Lemma role_query_denies_by_default_witness :
  Permission.select_ok Cases.db_edit_off 2 "WORK_ENTRY_EDIT" = false.
Proof.
  apply (proj2 (proj2 (role_query_denies_by_default Cases.db_edit_off 2
                         "WORK_ENTRY_EDIT"))).
  intros p Hp Hc. simpl in Hp.
  destruct Hp as [<-|[<-|[<-|[<-|[]]]]]; try discriminate Hc. discriminate.
Defined.

Lemma toggling_a_permission_off_revokes_it_witness :
  Permission.requirePermission (P := Demo.platform) "WORK_ENTRY_EDIT" Demo.db0
    Demo.by_manager = None
  /\ Permission.requirePermission (P := Demo.platform) "WORK_ENTRY_EDIT"
       Cases.db_edit_off Demo.by_manager
     = Some (Permission.forbidden Demo.by_manager "WORK_ENTRY_EDIT").
Proof.
  split; [reflexivity|].
  refine (proj1 (proj2 (@toggling_a_permission_off_revokes_it Demo.platform Demo.db0
                          "2" "WORK_ENTRY_EDIT" _ _))
            Demo.by_manager Demo.manager eq_refl _ eq_refl).
  - intros p Hp Hc. simpl in Hp.
    destruct Hp as [<-|[<-|[<-|[<-|[]]]]]; try discriminate Hc. split; reflexivity.
  - intros p Hp. simpl in Hp.
    destruct Hp as [<-|[<-|[<-|[<-|[]]]]]; right; reflexivity.
  - discriminate.
Defined.

(** The manager logged in while the role granted WORK_ENTRY_EDIT; the
    permission was switched off afterwards.  The pages still show the
    permission, the route refuses it. *)
Lemma session_permissions_are_the_grants_at_login_witness :
  App.can (P := Demo.platform)
    (Some (AuthRoutes.session_user_saved Demo.db0 Cases.manager_row)) "WORK_ENTRY_EDIT"
  = true
  /\ Permission.requirePermission (P := Demo.platform) "WORK_ENTRY_EDIT"
       Cases.db_edit_off Cases.after_login <> None.
Proof.
  destruct (@session_permissions_are_the_grants_at_login Demo.platform Demo.db0
              Cases.db_edit_off Cases.manager_row "WORK_ENTRY_EDIT" eq_refl
              ltac:(discriminate)) as (_ & _ & C & R).
  split.
  - rewrite C. reflexivity.
  - intros H. pose proof (proj1 (R Cases.after_login eq_refl) H) as X.
    vm_compute in X. discriminate X.
Defined.

(** The staff user, of company 1, asks for the entries of company 2, of
    which the store of the examples holds none. *)
Lemma query_company_is_used_for_any_principal_witness :
  WorkEntryRoutes.getCompanyId (P := Demo.platform)
    (AppMiddleware.through (P := Demo.platform) Cases.staff_lists_company_2)
  = 2%float
  /\ WorkEntryRoutes.get_all (P := Demo.platform) Demo.clock0 Demo.db0
       (AppMiddleware.through (P := Demo.platform) Cases.staff_lists_company_2)
     = Json 200 (Rows []).
Proof.
  destruct (@query_company_is_used_for_any_principal Demo.platform Demo.clock0
              Demo.db0 Cases.staff_lists_company_2 eq_refl) as (Hc & rows & E & Pm & _).
  split; [rewrite Hc; reflexivity|].
  rewrite E. apply Permutation_sym, Permutation_nil in Pm.
  destruct rows; [reflexivity|discriminate Pm].
Defined.

Lemma non_admin_company_is_forced_without_query_witness :
  activeCompanyId
    (req_session (AppMiddleware.through (P := Demo.platform) Cases.staff_lists))
  = JNumber 1%float
  /\ WorkEntryRoutes.getCompanyId (P := Demo.platform)
       (AppMiddleware.through (P := Demo.platform) Cases.staff_lists)
     = 1%float.
Proof.
  destruct (@non_admin_company_is_forced_without_query Demo.platform Cases.staff_lists
              Demo.staff eq_refl ltac:(discriminate) eq_refl eq_refl eq_refl)
    as (A & B & _).
  split; [exact A|exact B].
Defined.

Lemma create_stores_the_request_witness :
  exists row,
    work_entries (snd (WorkEntryRoutes.post (P := Demo.platform) Demo.clock0 Demo.db0
                         Demo.create_150))
    = (work_entries Demo.db0 ++ [row])%list
    /\ we_id row = 3
    /\ we_fees_collected row = Some 150%float
    /\ we_created_at row = "2026-11-01 09:00:00".
Proof.
  destruct (@create_stores_the_request Demo.platform Demo.clock0 Demo.db0
              Demo.create_150 3 150%float
              (snd (WorkEntryRoutes.post (P := Demo.platform) Demo.clock0 Demo.db0
                      Demo.create_150)) eq_refl)
    as (row & A & B & _ & _ & _ & _ & _ & _ & _ & _ & _ & F & _ & _ & T).
  exists row. repeat split; assumption.
Defined.

Lemma second_create_with_the_same_reference_is_refused_witness :
  WorkEntryRoutes.post (P := Demo.platform) Demo.clock0
    (snd (WorkEntryRoutes.post (P := Demo.platform) Demo.clock0 Demo.db0 Demo.create_150))
    Demo.create_150
  = (Json 400 (Error "Job No1 already exists for this company."),
     snd (WorkEntryRoutes.post (P := Demo.platform) Demo.clock0 Demo.db0 Demo.create_150)).
Proof.
  apply (@second_create_with_the_same_reference_is_refused Demo.platform Demo.clock0
           Demo.clock0 Demo.db0 Demo.create_150 3 150%float).
  reflexivity.
Defined.

Lemma work_entry_keys_are_kept_witness :
  keys_ok (work_entries (snd (WorkEntryRoutes.post (P := Demo.platform) Demo.clock0
                                Demo.db0 Demo.create_150)))
  /\ keys_ok (work_entries (snd (WorkEntryRoutes.put (P := Demo.platform) Demo.clock0
                                   Demo.db0 Demo.create_150)))
  /\ keys_ok (work_entries (snd (WorkEntryRoutes.delete (P := Demo.platform) Demo.clock0
                                   Demo.db0 Demo.create_150))).
Proof.
  exact (@work_entry_keys_are_kept Demo.platform Demo.clock0 Demo.db0 Demo.create_150
           demo_keys_ok).
Defined.

Lemma work_entry_references_are_kept_witness :
  refs_ok (snd (WorkEntryRoutes.post (P := Demo.platform) Demo.clock0 Demo.db0
                  Demo.create_150))
  /\ refs_ok (snd (JobRoutesDelete.delete (P := Demo.platform) Demo.db0 Demo.reprice)).
Proof.
  destruct (@work_entry_references_are_kept Demo.platform Demo.clock0 Demo.db0
              Demo.create_150 Demo.reprice demo_refs_ok) as (A & _ & _ & _ & B).
  split; [exact A|exact B].
Defined.

Lemma update_rewrites_the_addressed_row_witness :
  exists old row,
    WorkEntryRoutes.stored_entry Demo.db0 1%float 1%float = Some old
    /\ work_entries (snd (WorkEntryRoutes.put (P := Demo.platform) Demo.clock0 Demo.db0
                            Demo.update_by_admin))
       = WorkEntryRoutes.replace_row row (work_entries Demo.db0)
    /\ we_created_at row = we_created_at old
    /\ we_customer_rate row = 55%float
    /\ we_fees_collected row = Some 220%float.
Proof.
  destruct (@update_rewrites_the_addressed_row Demo.platform Demo.clock0 Demo.db0
              Demo.update_by_admin 1 true 220%float
              (snd (WorkEntryRoutes.put (P := Demo.platform) Demo.clock0 Demo.db0
                      Demo.update_by_admin)) eq_refl)
    as (_ & _ & old & row & S & D & _ & _ & T & _ & _ & _ & _ & _ & _ & _ & R & F & _).
  exists old, row. repeat split; try assumption.
  - rewrite D. reflexivity.
  - exact (proj1 (R eq_refl)).
Defined.

Lemma delete_removes_the_addressed_row_witness :
  ~ In Demo.entry1
      (work_entries (snd (WorkEntryRoutes.delete (P := Demo.platform) Demo.clock0
                            Demo.db0 Demo.by_manager)))
  /\ In Demo.entry2
       (work_entries (snd (WorkEntryRoutes.delete (P := Demo.platform) Demo.clock0
                             Demo.db0 Demo.by_manager))).
Proof.
  assert (N : NoDup (map we_id (work_entries Demo.db0)))
    by (simpl; repeat constructor; simpl; intuition discriminate).
  destruct (@delete_removes_the_addressed_row Demo.platform Demo.clock0 Demo.db0
              Demo.by_manager 1
              (snd (WorkEntryRoutes.delete (P := Demo.platform) Demo.clock0 Demo.db0
                      Demo.by_manager)) N eq_refl)
    as (_ & old & S & _ & H & _).
  assert (E : WorkEntryRoutes.select_entry (P := Demo.platform) Demo.clock0 Demo.db0
                (parseInt10 (Platform := Demo.platform) (params_id Demo.by_manager))
                (WorkEntryRoutes.getCompanyId (P := Demo.platform) Demo.by_manager)
                (WorkEntryRoutes.getDaysLimitForUser (P := Demo.platform) Demo.db0
                   Demo.by_manager) = Some Demo.entry1) by reflexivity.
  rewrite E in S. injection S as <-. split.
  - intros I. destruct (proj1 (H Demo.entry1) I) as [_ Ne]. now apply Ne.
  - apply (proj2 (H Demo.entry2)). split; [right; left; reflexivity|discriminate].
Defined.

Lemma missing_row_is_answered_as_out_of_range_witness :
  WorkEntryRoutes.delete (P := Demo.platform) Demo.clock0 Demo.db0 Cases.manager_entry9
  = (Json 403 (Error "You cannot delete this record (out of allowed date range)."),
     Demo.db0).
Proof.
  apply (proj1 (@missing_row_is_answered_as_out_of_range Demo.platform Demo.clock0
                  Demo.db0 Cases.manager_entry9)); reflexivity.
Defined.

Lemma edit_window_gates_delete_witness :
  WorkEntryRoutes.delete (P := Demo.platform) Demo.clock0 Demo.db0 Cases.manager_entry2
  = (Json 403 (Error "You cannot delete this record (out of allowed date range)."),
     Demo.db0)
  /\ fst (WorkEntryRoutes.delete (P := Demo.platform) Demo.clock0 Demo.db0 Demo.by_manager)
     = Json 200 (Deleted 1).
Proof.
  split.
  - refine (proj1 (proj1 (@edit_window_gates_delete Demo.platform Demo.clock0 Demo.db0
              Cases.manager_entry2 Demo.entry2 (Some 30) 20718 _ _ _ _ _) 30 _ _) _);
      try reflexivity.
  - refine (proj1 (proj2 (proj1 (@edit_window_gates_delete Demo.platform Demo.clock0
              Demo.db0 Demo.by_manager Demo.entry1 (Some 30) 20738 _ _ _ _ _) 30 _ _) _));
      try reflexivity. simpl. lia.
Defined.

(** Job 1 is referenced by both entries of the examples and cannot be
    deleted; before any work was entered it can, and its wage rate goes
    with it. *)
Lemma job_delete_restricts_and_cascades_witness :
  JobRoutesDelete.delete (P := Demo.platform) Demo.db0 Demo.reprice
  = (Json 500 (Error "SQLITE_CONSTRAINT: FOREIGN KEY constraint failed"), Demo.db0)
  /\ forall jw,
       ~ In jw (job_wages (snd (JobRoutesDelete.delete (P := Demo.platform)
                                  Cases.db_no_entries Demo.reprice))).
Proof.
  split.
  - apply (proj1 (proj2 (@job_delete_restricts_and_cascades Demo.platform Demo.db0
                           Demo.reprice))).
    exists Demo.entry1, (mkJob 1 1 "FOOT60" "Foot reflexology" 30%float (SqlInt 1)).
    repeat split; try reflexivity; left; reflexivity.
  - intros jw Hjw.
    destruct (proj2 (proj2 (proj2 (@job_delete_restricts_and_cascades Demo.platform
                Cases.db_no_entries Demo.reprice))) eq_refl) as (_ & _ & W).
    destruct (proj1 (W jw) Hjw) as [Hin Hne]. simpl in Hin. destruct Hin as [<-|[]].
    apply (Hne (mkJob 1 1 "FOOT60" "Foot reflexology" 30%float (SqlInt 1)));
      [left; reflexivity|reflexivity|reflexivity].
Defined.

Lemma job_wage_keys_are_kept_witness :
  wage_keys_ok (job_wages (snd (JobRoutes.put (P := Demo.platform) Demo.db0 Demo.reprice)))
  /\ wage_keys_ok (job_wages (snd (JobRoutesDelete.delete (P := Demo.platform)
                                     Cases.db_no_entries Demo.reprice))).
Proof.
  split.
  - exact (proj1 (@job_wage_keys_are_kept Demo.platform Demo.db0 Demo.reprice
                    demo_wage_keys_ok)).
  - exact (proj2 (@job_wage_keys_are_kept Demo.platform Cases.db_no_entries Demo.reprice
                    demo_wage_keys_ok)).
Defined.

(** The administrator of the examples carries the flag and the role
    super_admin. *)
Lemma permission_toggle_needs_a_role_named_admin_witness :
  Permission.requirePermission (P := Demo.platform) "PAGE_MANAGEMENT" Demo.db0
    Demo.by_admin = None
  /\ Auth.toggle_route (P := Demo.platform) false Cases.upper Demo.db0 Demo.by_admin
     = inl Auth.Forbidden403.
Proof.
  split; [reflexivity|].
  refine (proj1 (proj2 (@permission_toggle_needs_a_role_named_admin Demo.platform
                          Cases.upper Demo.db0 Demo.by_admin _ _))
            Demo.admin eq_refl _ eq_refl).
  - intros r Hr. simpl in Hr. destruct Hr as [<-|[<-|[<-|[]]]]; discriminate.
  - discriminate.
  - reflexivity.
Defined.
